(** * hot-updater console: bundle lifecycle orchestration

    A shallow embedding of the console's RPC handlers
    ([packages/console/src-server/rpc.ts]), of the R2 storage plugin
    ([r2Storage]) and of the browser-side API wrappers ([api.ts]), with the
    properties of the lifecycle specification stated over them.

    JavaScript values, exceptions and truthiness are modelled explicitly;
    asynchronous handlers become functions in a state-and-exception monad
    over the two backends (metadata rows, bucket contents) together with the
    trace of backend requests they issue. *)

From Stdlib Require Import ZArith Lia.
From stdpp Require Import base strings pretty gmap list.

Set Warnings "-register-all".

Local Open Scope string_scope.
Local Open Scope Z_scope.

(* ===================================================================== *)
(** ** JavaScript values *)
(* ===================================================================== *)

Module Js.

(** The values the handlers pass around. [VNum] holds an integer; the
    numbers of the code are doubles, which hold the integers below 2^53 in
    absolute value exactly. [VObj] lists the own properties of a plain
    object. *)
Inductive Val : Type :=
| VUndefined
| VNull
| VBool (b : bool)
| VNum (n : Z)
| VStr (s : string)
| VArr (items : list Val)
| VObj (props : list (string * Val)).

(** What a [throw] carries: an [Error] instance with its [message], or a
    value that is no [Error] and has no [message] property, known by the
    text [String(value)] yields. *)
Inductive Thrown : Type :=
| ErrorObj (message : string)
| NonError (rendered : string).

Inductive Completion (A : Type) : Type :=
| Return (a : A)
| Throw (e : Thrown).
Arguments Return {A} a.
Arguments Throw {A} e.

(** [!!v] *)
Definition truthy (v : Val) : bool :=
  match v with
  | VUndefined | VNull => false
  | VBool b => b
  | VNum n => negb (n =? 0)
  | VStr s => negb (String.eqb s "")
  | VArr _ | VObj _ => true
  end.

(** [a || b] and [a && b] *)
Definition or (a b : Val) : Val := if truthy a then a else b.
Definition and (a b : Val) : Val := if truthy a then b else a.

Fixpoint assoc (k : string) (ps : list (string * Val)) : option Val :=
  match ps with
  | [] => None
  | (k', v) :: rest => if String.eqb k k' then Some v else assoc k rest
  end.

(** [o[k] = v] on the property list of an object: an existing property keeps
    its place, a new one goes last (the order JavaScript gives to
    integer-like keys is not modelled). *)
Fixpoint set_prop (k : string) (v : Val) (ps : list (string * Val))
  : list (string * Val) :=
  match ps with
  | [] => [(k, v)]
  | (k', v') :: rest =>
      if String.eqb k k' then (k, v) :: rest else (k', v') :: set_prop k v rest
  end.

Fixpoint indexed (i : nat) (vs : list Val) : list (string * Val) :=
  match vs with
  | [] => []
  | v :: rest => (pretty i, v) :: indexed (S i) rest
  end.

Fixpoint chars (s : string) : list Val :=
  match s with
  | EmptyString => []
  | String c rest => VStr (String c EmptyString) :: chars rest
  end.

(** The own enumerable properties a spread [...v] copies: those of an
    object, the indices of an array or of a string, nothing for the other
    primitives. *)
Definition own_props (v : Val) : list (string * Val) :=
  match v with
  | VObj ps => ps
  | VArr vs => indexed 0 vs
  | VStr s => indexed 0 (chars s)
  | _ => []
  end.

(** [{ ...base, ...v }] *)
Definition spread (base : list (string * Val)) (v : Val)
  : list (string * Val) :=
  foldl (λ acc kv, set_prop kv.1 kv.2 acc) base (own_props v).

(** [v.k]: a [TypeError] on [null] and [undefined], [undefined] where the
    property is absent. Only named data properties are read this way. *)
Definition get (v : Val) (k : string) : Completion Val :=
  match v with
  | VUndefined => Throw (ErrorObj "Cannot read properties of undefined")
  | VNull => Throw (ErrorObj "Cannot read properties of null")
  | VObj ps => Return (default VUndefined (assoc k ps))
  | _ => Return VUndefined
  end.

(** [v?.k] *)
Definition get_opt (v : Val) (k : string) : Val :=
  match v with
  | VObj ps => default VUndefined (assoc k ps)
  | _ => VUndefined
  end.

(** [String(v)], as a template literal renders its holes. *)
Fixpoint to_text (v : Val) : string :=
  match v with
  | VUndefined => "undefined"
  | VNull => "null"
  | VBool true => "true"
  | VBool false => "false"
  | VNum n => pretty n
  | VStr s => s
  | VArr vs =>
      (fix join (l : list Val) : string :=
         match l with
         | [] => ""
         | [x] => match x with VUndefined | VNull => "" | _ => to_text x end
         | x :: rest =>
             (match x with VUndefined | VNull => "" | _ => to_text x end)
               +:+ "," +:+ join rest
         end) vs
  | VObj _ => "[object Object]"
  end.

(** [vs.join(sep)] *)
Fixpoint join_texts (sep : string) (vs : list Val) : string :=
  match vs with
  | [] => ""
  | [x] => match x with VUndefined | VNull => "" | _ => to_text x end
  | x :: rest =>
      (match x with VUndefined | VNull => "" | _ => to_text x end)
        +:+ sep +:+ join_texts sep rest
  end.

(** What [JSON.stringify] followed by [JSON.parse] leaves of a value:
    [undefined] properties are dropped, [undefined] array items become
    [null]. *)
Fixpoint to_json (v : Val) : Val :=
  match v with
  | VUndefined => VNull
  | VArr vs => VArr (map to_json vs)
  | VObj ps =>
      VObj ((fix go (l : list (string * Val)) : list (string * Val) :=
               match l with
               | [] => []
               | (k, VUndefined) :: rest => go rest
               | (k, x) :: rest => (k, to_json x) :: go rest
               end) ps)
  | _ => v
  end.

(** [error instanceof Error ? error.message : String(error)] *)
Definition error_text (e : Thrown) : string :=
  match e with
  | ErrorObj m => m
  | NonError s => s
  end.

(** [error instanceof Error ? error.message : "Unknown error"] *)
Definition error_text_or_unknown (e : Thrown) : string :=
  match e with
  | ErrorObj m => m
  | NonError _ => "Unknown error"
  end.

(** [error instanceof Error && error.message === "Bundle Not Found"] *)
Definition is_bundle_not_found (e : Thrown) : bool :=
  match e with
  | ErrorObj m => String.eqb m "Bundle Not Found"
  | NonError _ => false
  end.

End Js.

Export Js.

(* ===================================================================== *)
(** ** Asynchronous functions: state and exceptions *)
(* ===================================================================== *)

(** An [async] function reads and changes the state [S] it runs against and
    either returns or throws. *)
Definition Async (S A : Type) : Type := S → Completion A * S.

Definition ret {S A} (a : A) : Async S A := λ st, (Return a, st).
Definition throw {S A} (e : Thrown) : Async S A := λ st, (Throw e, st).
Definition bind {S A B} (m : Async S A) (k : A → Async S B) : Async S B :=
  λ st, match m st with
        | (Return a, st') => k a st'
        | (Throw e, st') => (Throw e, st')
        end.
(** [try { m } catch (error) { h error }] *)
Definition try_catch {S A} (m : Async S A) (h : Thrown → Async S A)
  : Async S A :=
  λ st, match m st with
        | (Return a, st') => (Return a, st')
        | (Throw e, st') => h e st'
        end.
Definition lift {S A} (c : Completion A) : Async S A := λ st, (c, st).

#[global] Instance Async_ret {S} : MRet (Async S) := @ret S.
#[global] Instance Async_bind {S} : MBind (Async S) := λ A B k m, bind m k.

(* ===================================================================== *)
(** ** The two backends and the trace of requests *)
(* ===================================================================== *)

Module Server.

Inductive Platform : Type := Ios | Android.

(** Modelled from the spec: the [Bundle] row of [@hot-updater/plugin-core]
    (the BundleRecord of the data model); its [id] is the key it is stored
    under. *)
Record Bundle : Type := {
  channel : string;
  platform : Platform;
  targetAppVersion : string;
  message : string;
  enabled : bool;
  shouldForceUpdate : bool
}.

(** [Partial<Bundle>] *)
Record PartialBundle : Type := {
  p_channel : option string;
  p_platform : option Platform;
  p_targetAppVersion : option string;
  p_message : option string;
  p_enabled : option bool;
  p_shouldForceUpdate : option bool
}.

(** [{ enabled: false }] *)
Definition enabled_false : PartialBundle :=
  {| p_channel := None; p_platform := None; p_targetAppVersion := None;
     p_message := None; p_enabled := Some false; p_shouldForceUpdate := None |}.

Definition patch (p : PartialBundle) (b : Bundle) : Bundle :=
  {| channel := default (channel b) (p_channel p);
     platform := default (platform b) (p_platform p);
     targetAppVersion := default (targetAppVersion b) (p_targetAppVersion p);
     message := default (message b) (p_message p);
     enabled := default (enabled b) (p_enabled p);
     shouldForceUpdate := default (shouldForceUpdate b) (p_shouldForceUpdate p) |}.

(** An object of the bucket, as a listing shows it. *)
Record R2Object : Type := { key : string; size : Z }.

(** A request against the Cloudflare API, by what it asks for.
    [R2DeleteObject] is the deletion whose URL ends in
    [encodeURIComponent(objectKey)], so that it names the object of that key;
    [R2DeleteObjectAt] is the deletion whose URL ends in [path] as it is
    written, so that the reading of the URL decides which object it names.
    [D1DeleteBundles] is the query that deletes the rows whose id is among
    the parameters. *)
Inductive Request : Type :=
| R2DeleteObject (accountId bucketName token objectKey : string)
| R2ListObjects (accountId bucketName token : string)
    (prefix : option string) (limit : option nat)
| D1DeleteBundle (accountId databaseId token bundleId : string)
| R2DeleteObjectAt (accountId bucketName token path : string)
| D1DeleteBundles (accountId databaseId token : string) (bundleIds : list Val).

(** What a handler asks of the world outside: the database plugin, the
    [wrangler] command, the Cloudflare API, or its own router. *)
Inductive Call : Type :=
| CallUpdateBundle (bundleId : string) (p : PartialBundle)
| CallCommitBundle
| CallWrangler (args : list string)
| CallCloudflare (r : Request)
| CallLoopback (path : string) (body : Val).

(** The state the handlers run against: the committed metadata rows by
    bundle id, the mutations staged by [updateBundle], the objects of the
    bucket, and the calls issued so far, oldest first. *)
Record Store : Type := {
  rows : gmap string Bundle;
  staged : list (string * PartialBundle);
  bucket : list R2Object;
  trace : list Call
}.

Definition log (c : Call) (st : Store) : Store :=
  {| rows := rows st; staged := staged st; bucket := bucket st;
     trace := trace st ++ [c] |}.

(** The handlers are [async] functions over the backends. *)
Abbreviation M := (Async Store).

(** *** The metadata store *)

(** Modelled from the spec: the [DatabasePlugin] of
    [@hot-updater/plugin-core]. [updateBundle] stages a mutation and
    [commitBundle] flushes the staged mutations; when either fails the
    mutation has not happened, and a later commit does not bring it about.
    Whether a call fails is the backend's business: [update_fault] and
    [commit_fault] say so. *)
Record Database : Type := {
  update_fault : string → option Thrown;
  commit_fault : option Thrown
}.

(** Modelled from the spec: what a commit does with the staged mutations,
    each a partial update of the row it names (a row that is not there stays
    absent). *)
Definition flush (staged : list (string * PartialBundle))
    (rows : gmap string Bundle) : gmap string Bundle :=
  foldl (λ acc sp, alter (patch sp.2) sp.1 acc) rows staged.

(** Modelled from the spec: [DatabasePlugin.updateBundle], absent from the
    sources; it stages the mutation unless the backend fails. *)
Definition updateBundle (db : Database) (bundleId : string)
    (p : PartialBundle) : M unit :=
  λ st,
    let st := log (CallUpdateBundle bundleId p) st in
    match update_fault db bundleId with
    | Some e => (Throw e, st)
    | None =>
        (Return (),
         {| rows := rows st; staged := staged st ++ [(bundleId, p)];
            bucket := bucket st; trace := trace st |})
    end.

(** Modelled from the spec: [DatabasePlugin.commitBundle], absent from the
    sources; it flushes the staged mutations unless the backend fails, in
    which case the rows are as before and the staged mutations are given up
    (the mutation is considered not to have happened). *)
Definition commitBundle (db : Database) : M unit :=
  λ st,
    let st := log CallCommitBundle st in
    match commit_fault db with
    | Some e =>
        (Throw e,
         {| rows := rows st; staged := []; bucket := bucket st;
            trace := trace st |})
    | None =>
        (Return (),
         {| rows := flush (staged st) (rows st); staged := [];
            bucket := bucket st; trace := trace st |})
    end.

(** *** Configuration *)

(** A [StoragePlugin], by its [deleteBundle]. *)
Record StoragePlugin : Type := {
  deleteBundle : string → M string
}.

(** What [prepareConfig] resolves to: the loaded [config] (of which the
    handlers read [storage], a factory that may be absent and may throw) and
    the database plugin. *)
Record Config : Type := {
  storage : option (Completion StoragePlugin);
  databasePlugin : Database
}.

Record ProcessEnv : Type := {
  HOT_UPDATER_CLOUDFLARE_API_TOKEN : option string;
  HOT_UPDATER_CLOUDFLARE_ACCOUNT_ID : option string;
  HOT_UPDATER_CLOUDFLARE_R2_BUCKET_NAME : option string;
  HOT_UPDATER_CLOUDFLARE_D1_DATABASE_ID : option string
}.

(** [!v] on an environment variable: unset and empty are both falsy *)
Definition unset (v : option string) : bool :=
  match v with
  | None => true
  | Some s => String.eqb s ""
  end.

(** [v || ""] *)
Definition or_empty (v : option string) : string := default "" v.

Record Response : Type := { status : nat; body : Val }.

(** [c.json(body, status)] *)
Definition c_json (b : Val) (s : nat) : Response :=
  {| status := s; body := to_json b |}.

(** *** The Cloudflare API *)

(** What [fetch] resolves to, as far as the handlers look at it. *)
Record ApiResponse : Type := {
  ok : bool;
  api_status : nat;
  statusText : string;
  json : Completion Val;
  text : string
}.

(** The server's surroundings: the environment variables, what
    [prepareConfig] resolves to, how the Cloudflare API answers a request in
    a given state of the backends (or that [fetch] throws), and whether a
    [fetch] of the relative URL [/rpc/...] throws ([Some]) or reaches this
    server's own router ([None]). *)
Record Env : Type := {
  process_env : ProcessEnv;
  prepareConfig : Completion Config;
  cloudflare : Store → Request → Completion ApiResponse;
  loopback_fault : option Thrown
}.

Definition remove_key (k : string) (objs : list R2Object) : list R2Object :=
  filter (λ o, key o ≠ k) objs.

(** The object a URL names whose path ends in a key written as it is: what
    stands before the first [?] or [#], which open the query and the
    fragment. The percent escapes and the dot segments a URL also reads are
    not modelled. *)
Fixpoint named_by (path : string) : string :=
  match path with
  | EmptyString => EmptyString
  | String c rest =>
      if Ascii.eqb c (Ascii.ascii_of_nat 63)
         || Ascii.eqb c (Ascii.ascii_of_nat 35)
      then EmptyString
      else String c (named_by rest)
  end.

(** What an accepted request does to the backends. *)
Definition effect (r : Request) (st : Store) : Store :=
  match r with
  | R2DeleteObject _ _ _ k =>
      {| rows := rows st; staged := staged st;
         bucket := remove_key k (bucket st); trace := trace st |}
  | R2DeleteObjectAt _ _ _ path =>
      {| rows := rows st; staged := staged st;
         bucket := remove_key (named_by path) (bucket st); trace := trace st |}
  | D1DeleteBundle _ _ _ bundleId =>
      {| rows := delete bundleId (rows st); staged := staged st;
         bucket := bucket st; trace := trace st |}
  | D1DeleteBundles _ _ _ bundleIds =>
      {| rows := foldl (λ acc bundleId, delete (to_text bundleId) acc)
                   (rows st) bundleIds;
         staged := staged st; bucket := bucket st; trace := trace st |}
  | R2ListObjects _ _ _ _ _ => st
  end.

Definition fetch (env : Env) (r : Request) : M ApiResponse :=
  λ st,
    let st := log (CallCloudflare r) st in
    match cloudflare env st r with
    | Return resp => (Return resp, if ok resp then effect r st else st)
    | Throw e => (Throw e, st)
    end.

Definition quote : string := String (Ascii.ascii_of_nat 34) EmptyString.

(** [JSON.stringify(v)]; escapes inside strings are not modelled. *)
Fixpoint stringify (v : Val) : string :=
  match v with
  | VUndefined | VNull => "null"
  | VBool true => "true"
  | VBool false => "false"
  | VNum n => pretty n
  | VStr s => quote +:+ s +:+ quote
  | VArr vs =>
      "[" +:+ (fix join (l : list Val) : string :=
                 match l with
                 | [] => ""
                 | [x] => stringify x
                 | x :: rest => stringify x +:+ "," +:+ join rest
                 end) vs +:+ "]"
  | VObj ps =>
      "{" +:+ (fix join (l : list (string * Val)) : string :=
                 match l with
                 | [] => ""
                 | [(k, x)] => quote +:+ k +:+ quote +:+ ":" +:+ stringify x
                 | (k, x) :: rest =>
                     quote +:+ k +:+ quote +:+ ":" +:+ stringify x +:+ ","
                       +:+ join rest
                 end) ps +:+ "}"
  end.

(** *** [DELETE /bundles/:bundleId] (soft delete) *)

(** The storage block: [storageError] stays [null] when there is no storage
    plugin, when the deletion went through and when it threw
    [Bundle Not Found]; any other error leaves its text. *)
Definition storage_step (cfg : Config) (bundleId : string) : M Val :=
  match storage cfg with
  | Some factory =>
      try_catch
        (storagePlugin ← lift factory;
         _ ← deleteBundle storagePlugin bundleId;
         mret VNull)
        (λ error,
           if is_bundle_not_found error then mret VNull
           else mret (VStr (error_text error)))
  | None => mret VNull
  end.

(** The database block: [None] when update and commit went through, the
    response of the [catch] otherwise. *)
Definition disable_step (cfg : Config) (bundleId : string)
  : M (option Response) :=
  try_catch
    (_ ← updateBundle (databasePlugin cfg) bundleId enabled_false;
     _ ← commitBundle (databasePlugin cfg);
     mret None)
    (λ dbError,
       mret (Some (c_json (VObj [("success", VBool false);
                                 ("error", VStr (error_text dbError))]) 500))).

Definition unknown_error_response (error : Thrown) : Response :=
  match error with
  | ErrorObj m => c_json (VObj [("error", VStr m)]) 500
  | NonError _ => c_json (VObj [("error", VStr "Unknown error")]) 500
  end.

Definition delete_bundle (env : Env) (bundleId : string) : M Response :=
  try_catch
    (cfg ← lift (prepareConfig env);
     storageError ← storage_step cfg bundleId;
     failed ← disable_step cfg bundleId;
     match failed with
     | Some response => mret response
     | None =>
         if truthy storageError then
           mret (c_json (VObj [("success", VBool true);
                               ("partialSuccess", VBool true);
                               ("storageError", storageError);
                               ("message", VStr "Bundle đã bị xóa khỏi database nhưng không thể xóa file từ storage")])
                   200)
         else
           mret (c_json (VObj [("success", VBool true);
                               ("message", VStr "Bundle đã được xóa thành công")])
                   200)
     end)
    (λ error, mret (unknown_error_response error)).

(** *** [POST /bundles/:bundleId/disable] *)

Definition disable_bundle (env : Env) (bundleId : string) : M Response :=
  try_catch
    (cfg ← lift (prepareConfig env);
     _ ← updateBundle (databasePlugin cfg) bundleId enabled_false;
     _ ← commitBundle (databasePlugin cfg);
     mret (c_json (VObj [("success", VBool true);
                         ("message", VStr "Bundle đã bị vô hiệu hóa thành công")])
             200))
    (λ error, mret (unknown_error_response error)).

(** *** The R2 configuration guard *)

(** [!apiToken || !accountId || !bucketName] *)
Definition r2_config_missing (penv : ProcessEnv) : bool :=
  unset (HOT_UPDATER_CLOUDFLARE_API_TOKEN penv)
  || unset (HOT_UPDATER_CLOUDFLARE_ACCOUNT_ID penv)
  || unset (HOT_UPDATER_CLOUDFLARE_R2_BUCKET_NAME penv).

Definition apiToken (env : Env) : string :=
  or_empty (HOT_UPDATER_CLOUDFLARE_API_TOKEN (process_env env)).
Definition accountId (env : Env) : string :=
  or_empty (HOT_UPDATER_CLOUDFLARE_ACCOUNT_ID (process_env env)).
Definition bucketName (env : Env) : string :=
  or_empty (HOT_UPDATER_CLOUDFLARE_R2_BUCKET_NAME (process_env env)).

Definition failure_response (error : string) (s : nat) : Response :=
  c_json (VObj [("success", VBool false); ("error", VStr error)]) s.

(** *** [POST /r2/delete/:bundleId] *)

Definition r2_delete (env : Env) (bundleId : string) : M Response :=
  try_catch
    (if r2_config_missing (process_env env) then
       mret (failure_response "Thiếu thông tin cấu hình Cloudflare R2" 400)
     else
       let objectKey := bundleId +:+ "/bundle.zip" in
       deleteResponse ←
         fetch env (R2DeleteObject (accountId env) (bucketName env)
                      (apiToken env) objectKey);
       if negb (ok deleteResponse) then
         errorMessage ←
           try_catch
             (errorData ← lift (json deleteResponse);
              mret ("Lỗi R2: " +:+ stringify errorData))
             (λ _, mret ("Lỗi khi xóa từ R2: "
                           +:+ pretty (api_status deleteResponse) +:+ " "
                           +:+ statusText deleteResponse));
         mret (failure_response errorMessage 200)
       else
         mret (c_json (VObj [("success", VBool true);
                             ("message",
                              VStr ("Đã xóa bundle " +:+ bundleId
                                      +:+ " thành công từ R2 storage"))])
                 200))
    (λ error, mret (failure_response (error_text error) 500)).

(** *** [DELETE /r2/objects] (bulk object delete) *)

Definition key_result (k : Val) (success : bool) (error : option string) : Val :=
  match error with
  | None => VObj [("key", k); ("success", VBool success)]
  | Some e => VObj [("key", k); ("success", VBool success); ("error", VStr e)]
  end.

(** One turn of the [for (const key of keys)] loop: the entry pushed onto
    [results] and whether [successCount] is incremented. *)
Definition delete_one (env : Env) (k : Val) : M (Val * bool) :=
  try_catch
    (response ←
       fetch env (R2DeleteObject (accountId env) (bucketName env)
                    (apiToken env) (to_text k));
     if ok response then mret (key_result k true None, true)
     else
       errorData ←
         try_catch (lift (json response))
           (λ _, mret (VObj [("error", VStr (statusText response))]));
       mret (key_result k false (Some (stringify errorData)), false))
    (λ error, mret (key_result k false (Some (error_text error)), false)).

Fixpoint delete_each (env : Env) (keys : list Val)
    (results : list Val) (successCount : Z) : M (list Val * Z) :=
  match keys with
  | [] => mret (results, successCount)
  | k :: rest =>
      '(entry, deleted) ← delete_one env k;
      delete_each env rest (results ++ [entry])
        (if deleted : bool then successCount + 1 else successCount)
  end.

Definition delete_r2_objects (env : Env) (request_body : Completion Val)
  : M Response :=
  try_catch
    (keys ← lift request_body;
     match keys with
     | VArr (k :: rest) =>
         if r2_config_missing (process_env env) then
           mret (failure_response "Thiếu cấu hình R2" 500)
         else
           '(results, successCount) ← delete_each env (k :: rest) [] 0;
           mret (c_json
                   (VObj [("success", VBool (0 <? successCount));
                          ("totalObjects", VNum (Z.of_nat (length (k :: rest))));
                          ("deletedObjects", VNum successCount);
                          ("message",
                           VStr ("Đã xóa " +:+ pretty successCount +:+ "/"
                                   +:+ pretty (length (k :: rest))
                                   +:+ " tệp từ R2 storage"));
                          ("results", VArr results)])
                   200)
     | _ =>
         mret (failure_response "Danh sách keys không hợp lệ hoặc trống" 400)
     end)
    (λ error, mret (failure_response (error_text error) 500)).

(** [fetch("/rpc/r2/objects", { method: "DELETE", body })] issued by the
    server itself: it throws where relative URLs are not resolved, which is
    what the [fetch] of [node-fetch] that [rpc.ts] imports does, and would
    otherwise reach the handler above with the serialized body. *)
Definition loopback_delete_objects (env : Env) (payload : Val)
  : M (Completion Val) :=
  λ st,
    let st := log (CallLoopback "/rpc/r2/objects" payload) st in
    match loopback_fault env with
    | Some e => (Throw e, st)
    | None =>
        match delete_r2_objects env (Return (to_json payload)) st with
        | (Return response, st') => (Return (Return (body response)), st')
        | (Throw e, st') => (Throw e, st')
        end
    end.

(** *** [POST /bundles/:bundleId/complete-delete] *)

(** [objects.map((obj) => obj.key)] *)
Fixpoint object_keys (objects : list Val) : Completion (list Val) :=
  match objects with
  | [] => Return []
  | obj :: rest =>
      match get obj "key" with
      | Return k =>
          match object_keys rest with
          | Return ks => Return (k :: ks)
          | Throw e => Throw e
          end
      | Throw e => Throw e
      end
  end.

Definition complete_delete (env : Env) (bundleId : string) : M Response :=
  try_catch
    (cfg ← lift (prepareConfig env);
     _ ← updateBundle (databasePlugin cfg) bundleId enabled_false;
     _ ← commitBundle (databasePlugin cfg);
     if r2_config_missing (process_env env) then
       mret (c_json (VObj [("success", VBool true);
                           ("message", VStr "Bundle đã bị vô hiệu hóa trong database, nhưng không thể xóa từ R2 do thiếu cấu hình")])
               200)
     else
       listResponse ←
         fetch env (R2ListObjects (accountId env) (bucketName env)
                      (apiToken env) (Some bundleId) None);
       if negb (ok listResponse) then
         mret (c_json (VObj [("success", VBool true);
                             ("message",
                              VStr ("Bundle đã bị vô hiệu hóa trong database, nhưng không thể liệt kê file trong R2: "
                                      +:+ statusText listResponse))])
                 200)
       else
         data ← lift (json listResponse);
         result ← lift (get data "result");
         match or (get_opt result "objects") (VArr []) with
         | VArr [] =>
             mret (c_json (VObj [("success", VBool true);
                                 ("message", VStr "Bundle đã bị vô hiệu hóa trong database, không có file R2 cần xóa")])
                     200)
         | VArr objects =>
             objectKeys ← lift (object_keys objects);
             deleteResponse ←
               loopback_delete_objects env (VObj [("keys", VArr objectKeys)]);
             deleteResult ← lift deleteResponse;
             deletedObjects ← lift (get deleteResult "deletedObjects");
             totalObjects ← lift (get deleteResult "totalObjects");
             mret (c_json (VObj [("success", VBool true);
                                 ("message",
                                  VStr ("Bundle đã bị vô hiệu hóa trong database, "
                                          +:+ to_text deletedObjects +:+ "/"
                                          +:+ to_text totalObjects
                                          +:+ " file đã bị xóa từ R2"));
                                 ("r2Result", deleteResult)])
                     200)
         | _ => throw (ErrorObj "objects.map is not a function")
         end)
    (λ error, mret (failure_response (error_text error) 500)).

(** *** [GET /r2/objects] *)

(** [!cloudflareApiToken || !accountId || !bucketName] on the values already
    defaulted to the empty string *)
Definition r2_config_empty (env : Env) : bool :=
  String.eqb (apiToken env) "" || String.eqb (accountId env) ""
  || String.eqb (bucketName env) "".

Definition get_r2_objects (env : Env) : M Response :=
  try_catch
    (if r2_config_empty env then
       mret (failure_response "Thiếu thông tin cấu hình Cloudflare" 400)
     else
       response ←
         fetch env (R2ListObjects (accountId env) (bucketName env)
                      (apiToken env) None (Some 1000%nat));
       if negb (ok response) then
         _ ← lift (json response);
         mret (failure_response
                 ("Failed to fetch R2 objects: " +:+ statusText response) 500)
       else
         data ← lift (json response);
         result ← lift (get data "result");
         objects ← lift (get result "objects");
         mret (c_json (VObj [("success", VBool true); ("objects", objects)])
                 200))
    (λ error, mret (failure_response (error_text_or_unknown error) 500)).

(** *** [DELETE /r2/object] *)

(** The key goes into the URL as it is ([.../objects/${key}]), where the
    other handlers pass it through [encodeURIComponent]. *)

(** [errors.map((e) => e.message)] *)
Fixpoint object_messages (errors : list Val) : Completion (list Val) :=
  match errors with
  | [] => Return []
  | e :: rest =>
      match get e "message" with
      | Return m =>
          match object_messages rest with
          | Return ms => Return (m :: ms)
          | Throw x => Throw x
          end
      | Throw x => Throw x
      end
  end.

Definition delete_r2_object (env : Env) (request_body : Completion Val)
  : M Response :=
  try_catch
    (reqBody ← lift request_body;
     k ← lift (get reqBody "key");
     if negb (truthy k) then
       mret (failure_response "Key không được cung cấp" 400)
     else if r2_config_empty env then
       mret (failure_response "Thiếu thông tin cấu hình Cloudflare" 400)
     else
       response ←
         fetch env (R2DeleteObjectAt (accountId env) (bucketName env)
                      (apiToken env) (to_text k));
       if negb (ok response) then
         errorMessage ←
           try_catch
             (errorData ← lift (json response);
              errors ← lift (get errorData "errors");
              match errors with
              | VArr (e :: es) =>
                  messages ← lift (object_messages (e :: es));
                  mret (join_texts ", " messages)
              | _ =>
                  mret ("Failed to delete R2 object: " +:+ statusText response)
              end)
             (λ _, mret ("Failed to delete R2 object: "
                           +:+ statusText response));
         mret (failure_response errorMessage 500)
       else mret (c_json (VObj [("success", VBool true)]) 200))
    (λ error, mret (failure_response (error_text_or_unknown error) 500)).

(** *** [POST /bundle-sizes] *)

(** [objects.find((obj) => obj.key && obj.key.startsWith(`${bundleId}/`))] *)
Fixpoint find_matching (objects : list Val) (bundleId : string)
  : Completion Val :=
  match objects with
  | [] => Return VUndefined
  | obj :: rest =>
      match get obj "key" with
      | Throw e => Throw e
      | Return k =>
          if truthy k then
            match k with
            | VStr s =>
                if String.prefix (bundleId +:+ "/") s then Return obj
                else find_matching rest bundleId
            | _ => Throw (ErrorObj "obj.key.startsWith is not a function")
            end
          else find_matching rest bundleId
      end
  end.

(** The body of [bundleIds.forEach]: the size recorded for one id *)
Definition size_of (objects : list Val) (bundleId : string)
  : Completion Val :=
  match find_matching objects bundleId with
  | Throw e => Throw e
  | Return matchingObject =>
      match get_opt matchingObject "size" with
      | VNum n => Return (VNum n)
      | _ => Return (VNum 0)
      end
  end.

(** [fileSizes[bundleId] = n] on the plain object [fileSizes], [n] being a
    number: an own property is written, except under the name [__proto__],
    where the assignment of a number does nothing. *)
Definition record_size (bundleId : string) (n : Val)
    (fileSizes : list (string * Val)) : list (string * Val) :=
  if String.eqb bundleId "__proto__" then fileSizes
  else set_prop bundleId n fileSizes.

Fixpoint collect_sizes (objects : list Val) (bundleIds : list Val)
    (fileSizes : list (string * Val)) : Completion (list (string * Val)) :=
  match bundleIds with
  | [] => Return fileSizes
  | bundleId :: rest =>
      match size_of objects (to_text bundleId) with
      | Throw e => Throw e
      | Return n =>
          collect_sizes objects rest
            (record_size (to_text bundleId) n fileSizes)
      end
  end.

Definition bundle_sizes (env : Env) (request_body : Completion Val)
  : M Response :=
  try_catch
    (reqBody ← lift request_body;
     given ← lift (get reqBody "bundleIds");
     match or given (VArr []) with
     | VArr bundleIds =>
         if r2_config_empty env then
           mret (failure_response "Thiếu thông tin cấu hình Cloudflare" 400)
         else
           response ←
             fetch env (R2ListObjects (accountId env) (bucketName env)
                          (apiToken env) None (Some 1000%nat));
           if negb (ok response) then
             mret (failure_response
                     ("Failed to fetch R2 objects: " +:+ statusText response)
                     500)
           else
             data ← lift (json response);
             result ← lift (get data "result");
             match or result (VArr []) with
             | VArr objects =>
                 fileSizes ← lift (collect_sizes objects bundleIds []);
                 mret (c_json (VObj [("success", VBool true);
                                     ("fileSizes", VObj fileSizes)])
                         200)
             | _ =>
                 match bundleIds with
                 | [] =>
                     mret (c_json (VObj [("success", VBool true);
                                         ("fileSizes", VObj [])])
                             200)
                 | _ => throw (ErrorObj "objects.find is not a function")
                 end
             end
     | _ => mret (failure_response "bundleIds phải là một mảng" 400)
     end)
    (λ error, mret (failure_response (error_text_or_unknown error) 500)).

(** *** [POST /bundles/:bundleId/delete-d1] *)

(** [!cloudflareApiToken || !accountId || !d1DatabaseId] *)
Definition d1_config_missing (penv : ProcessEnv) : bool :=
  unset (HOT_UPDATER_CLOUDFLARE_API_TOKEN penv)
  || unset (HOT_UPDATER_CLOUDFLARE_ACCOUNT_ID penv)
  || unset (HOT_UPDATER_CLOUDFLARE_D1_DATABASE_ID penv).

Definition delete_d1 (env : Env) (bundleId : string) : M Response :=
  try_catch
    (if d1_config_missing (process_env env) then
       mret (failure_response "Thiếu thông tin cấu hình Cloudflare D1" 400)
     else
       d1Response ←
         fetch env
           (D1DeleteBundle (accountId env)
              (or_empty (HOT_UPDATER_CLOUDFLARE_D1_DATABASE_ID (process_env env)))
              (apiToken env) bundleId);
       if negb (ok d1Response) then
         mret (c_json (VObj [("success", VBool false);
                             ("error",
                              VStr ("Không thể xóa bundle từ D1: "
                                      +:+ statusText d1Response));
                             ("details", VStr (text d1Response))])
                 500)
       else
         d1Result ← lift (json d1Response);
         mret (c_json (VObj [("success", VBool true);
                             ("message", VStr "Bundle đã được xóa hoàn toàn khỏi D1 database");
                             ("d1Result", d1Result)])
                 200))
    (λ error, mret (failure_response (error_text error) 500)).

End Server.

(* ===================================================================== *)
(** ** The R2 storage plugin *)
(* ===================================================================== *)

Module R2Storage.
Import Server.

(** [message.includes(needle)] *)
Definition includes (message needle : string) : bool :=
  match String.index 0 needle message with
  | Some _ => true
  | None => false
  end.

Definition wrangler_missing (error : Thrown) : bool :=
  match error with
  | ErrorObj m =>
      includes m "wrangler: command not found"
      || includes m "Command failed with exit code 127"
  | NonError _ => false
  end.

(** [r2Storage(config)(_).deleteBundle]; [wrangler] is the command runner
    [createWrangler] returns. *)
Definition deleteBundle (bucketName : string)
    (wrangler : list string → M unit) (bundleId : string) : M string :=
  try_catch
    (let command :=
       ["r2"; "object"; "delete"; bucketName +:+ "/" +:+ bundleId] in
     _ ← wrangler (command ++ ["--remote"])%list;
     mret bundleId)
    (λ error,
       if is_bundle_not_found error then mret bundleId
       else if wrangler_missing error then
         throw (ErrorObj "Wrangler CLI không được tìm thấy. Vui lòng cài đặt bằng lệnh: npm install -g wrangler")
       else
         throw (ErrorObj ("Failed to delete bundle " +:+ bundleId
                            +:+ " from R2: " +:+ error_text error))).

Definition plugin (bucketName : string) (wrangler : list string → M unit)
  : StoragePlugin :=
  {| Server.deleteBundle := deleteBundle bucketName wrangler |}.

(** A command runner over the bucket of the store: deleting an object that
    is there removes it, deleting one that is not there fails the way the
    [catch] block above expects of a missing bundle. *)
Definition bucket_wrangler (args : list string) : M unit :=
  λ st,
    let st := log (CallWrangler args) st in
    match args with
    | ["r2"; "object"; "delete"; target; "--remote"] =>
        match String.index 0 "/" target with
        | Some i =>
            let k := String.substring (S i) (String.length target - S i) target in
            if existsb (λ o, String.eqb (key o) k) (bucket st) then
              (Return (),
               {| rows := rows st; staged := staged st;
                  bucket := remove_key k (bucket st); trace := trace st |})
            else (Throw (ErrorObj "Bundle Not Found"), st)
        | None => (Throw (ErrorObj "Unknown arguments"), st)
        end
    | _ => (Throw (ErrorObj "Unknown arguments"), st)
    end.

End R2Storage.

(* ===================================================================== *)
(** ** A Cloudflare account that answers *)
(* ===================================================================== *)

Module Cloudflare.
Import Server.

Definition object_json (o : R2Object) : Val :=
  VObj [("key", VStr (key o)); ("size", VNum (size o))].

Definition under (prefix : option string) (o : R2Object) : bool :=
  match prefix with
  | Some p => String.prefix p (key o)
  | None => true
  end.

Definition answer (payload : Val) : ApiResponse :=
  {| ok := true; api_status := 200; statusText := "OK";
     json := Return payload; text := stringify payload |}.

(** The handlers do not agree on where a listing carries its entries:
    [GET /r2/objects] and [complete-delete] read [result.objects] next to
    [result.truncated], [bundle-sizes] reads [result] as the array itself. *)
Inductive Shape : Type := Nested | Flat.

Definition listing (shape : Shape) (page : list R2Object) (truncated : bool)
  : Val :=
  match shape with
  | Nested =>
      VObj [("success", VBool true);
            ("result", VObj [("objects", VArr (map object_json page));
                             ("truncated", VBool truncated)])]
  | Flat =>
      VObj [("success", VBool true);
            ("result", VArr (map object_json page));
            ("result_info", VObj [("is_truncated", VBool truncated)])]
  end.

(** A reachable account: deletions are accepted, and a listing returns the
    objects under the prefix one page at a time, a page holding at most
    [page_cap] entries and at most the requested [limit]; the truncation
    marker tells that more remain. *)
Definition api (shape : Shape) (page_cap : nat) (st : Store) (r : Request)
  : Completion ApiResponse :=
  match r with
  | R2ListObjects _ _ _ prefix limit =>
      let matching := List.filter (under prefix) (bucket st) in
      let n := Nat.min page_cap (default page_cap limit) in
      Return (answer (listing shape (take n matching)
                        (Nat.ltb n (length matching))))
  | R2DeleteObject _ _ _ _ | R2DeleteObjectAt _ _ _ _ =>
      Return (answer (VObj [("success", VBool true)]))
  | D1DeleteBundle _ _ _ _ | D1DeleteBundles _ _ _ _ =>
      Return (answer (VObj [("success", VBool true); ("result", VArr [])]))
  end.

End Cloudflare.

(* ===================================================================== *)
(** ** The console's API wrappers (browser side) *)
(* ===================================================================== *)

Module Client.

(** What the browser holds: the module-level [fileSizeCache], the requests
    sent so far, and the server's backends as the requests leave them. A
    lookup [fileSizeCache[id]] of an id that was never written is
    [undefined]; this holds of every id that is not the name of a property
    of [Object.prototype], and the properties about the cache are stated for
    such ids. *)
Record Browser : Type := {
  fileSizeCache : gmap string Val;
  requests : list (string * string);
  backends : Server.Store
}.

Abbreviation M := (Async Browser).

(** The response as the wrappers see it. *)
Record HttpResponse : Type := {
  http_status : nat;
  http_ok : bool;
  http_statusText : string;
  http_json : Completion Val
}.

Definition reason_phrase (s : nat) : string :=
  match s with
  | 200%nat => "OK"
  | 400%nat => "Bad Request"
  | 500%nat => "Internal Server Error"
  | _ => ""
  end.

Definition of_response (r : Server.Response) : HttpResponse :=
  {| http_status := Server.status r;
     http_ok := Nat.leb 200 (Server.status r) && Nat.ltb (Server.status r) 300;
     http_statusText := reason_phrase (Server.status r);
     http_json := Return (Server.body r) |}.

(** The browser's surroundings: the server it talks to, and whether a
    request to a path fails in transit ([fetch] rejects). *)
Record Env : Type := {
  server : Server.Env;
  network_fault : Browser → string → option Thrown
}.

(** One request: it is counted, may fail in transit, and otherwise runs the
    route's handler against the backends. A handler that throws is answered
    by the framework with a 500 that carries no JSON. The router between the
    two is not modelled: the request is taken to reach the handler of its
    route, which holds of the fixed paths and of the paths made with a bundle
    id that is not empty and has letters, digits, [-] and [_] only. *)
Definition request (env : Env) (method path : string)
    (handler : Server.M Server.Response) : M HttpResponse :=
  λ b,
    let b := {| fileSizeCache := fileSizeCache b;
                requests := requests b ++ [(method, path)];
                backends := backends b |} in
    match network_fault env b path with
    | Some e => (Throw e, b)
    | None =>
        let '(outcome, st) := handler (backends b) in
        let b' := {| fileSizeCache := fileSizeCache b;
                     requests := requests b; backends := st |} in
        match outcome with
        | Return r => (Return (of_response r), b')
        | Throw e =>
            (Return {| http_status := 500; http_ok := false;
                       http_statusText := "Internal Server Error";
                       http_json := Throw (ErrorObj "Unexpected token") |},
             b')
        end
    end.

Definition failed (error : Thrown) : Val :=
  VObj [("success", VBool false); ("error", VStr (error_text error))].

(** [deleteBundle] *)
Definition deleteBundle (env : Env) (bundleId : string) : M Val :=
  try_catch
    (response ←
       request env "DELETE" ("/rpc/bundles/" +:+ bundleId)
         (Server.delete_bundle (server env) bundleId);
     data ← lift (http_json response);
     mret (VObj (spread [("success", VBool true)] data)))
    (λ error, mret (failed error)).

(** [disableBundle] *)
Definition disableBundle (env : Env) (bundleId : string) : M Val :=
  try_catch
    (response ←
       request env "POST" ("/rpc/bundles/" +:+ bundleId +:+ "/disable")
         (Server.disable_bundle (server env) bundleId);
     data ← lift (http_json response);
     mret (VObj (spread [("success", VBool true)] data)))
    (λ error, mret (failed error)).

(** [completeDeleteBundle] *)
Definition completeDeleteBundle (env : Env) (bundleId : string) : M Val :=
  try_catch
    (response ←
       request env "POST" ("/rpc/bundles/" +:+ bundleId +:+ "/complete-delete")
         (Server.complete_delete (server env) bundleId);
     lift (http_json response))
    (λ error, mret (failed error)).

(** [fetchFileSizesFromR2] *)
Definition fetchFileSizesFromR2 (env : Env) (bundleIds : list string)
  : M Val :=
  try_catch
    (response ←
       request env "POST" "/rpc/bundle-sizes"
         (Server.bundle_sizes (server env)
            (Return (to_json (VObj [("bundleIds", VArr (map VStr bundleIds))]))));
     if negb (http_ok response) then mret (VObj [])
     else
       data ← lift (http_json response);
       success ← lift (get data "success");
       if truthy success then
         fileSizes ← lift (get data "fileSizes");
         if truthy fileSizes then mret fileSizes else mret (VObj [])
       else mret (VObj []))
    (λ _, mret (VObj [])).

(** [fileSizeCache[id]] *)
Definition cached (b : Browser) (id : string) : Val :=
  default VUndefined (fileSizeCache b !! id).

(** [Object.entries(newSizes).forEach(([id, size]) =>
      { fileSizeCache[id] = size || 0 })] *)
Definition remember (newSizes : Val) : M unit :=
  λ b,
    (Return (),
     {| fileSizeCache :=
          foldl (λ cache entry, <[entry.1 := or entry.2 (VNum 0)]> cache)
            (fileSizeCache b) (own_props newSizes);
        requests := requests b; backends := backends b |}).

(** [getFileSizes] *)
Definition getFileSizes (env : Env) (bundleIds : list string)
  : M (list (string * Val)) :=
  λ b,
    let uncachedIds :=
      List.filter (λ id, negb (truthy (cached b id))) bundleIds in
    let '(_, b) :=
      match uncachedIds with
      | [] => (Return (), b)
      | _ =>
          try_catch
            (newSizes ← fetchFileSizesFromR2 env uncachedIds;
             remember newSizes)
            (λ _, mret ()) b
      end in
    (Return (foldl (λ fileSizes id,
                      set_prop id (or (cached b id) (VNum 0)) fileSizes)
               [] bundleIds),
     b).

(** [deleteD1Bundle] *)
Definition deleteD1Bundle (env : Env) (bundleId : string) : M Val :=
  try_catch
    (d1Response ←
       request env "POST" ("/rpc/bundles/" +:+ bundleId +:+ "/delete-d1")
         (Server.delete_d1 (server env) bundleId);
     d1Result ← lift (http_json d1Response);
     r2Response ←
       request env "POST" ("/rpc/r2/delete/" +:+ bundleId)
         (Server.r2_delete (server env) bundleId);
     r2Result ← lift (http_json r2Response);
     d1Success ← lift (get d1Result "success");
     success ←
       (if truthy d1Success then lift (get r2Result "success")
        else mret d1Success);
     r2Success ← lift (get r2Result "success");
     mret (VObj [("success", success);
                 ("message",
                  VStr ("Bundle đã được xóa từ D1"
                          +:+ (if truthy r2Success then " và R2" else "")));
                 ("d1Result", d1Result);
                 ("r2Result", r2Result)]))
    (λ error, mret (failed error)).

(** [overallResult] *)
Record Overall : Type := {
  success : bool;
  d1Success : Z;
  r2Success : Z;
  total : Z
}.

(** The entry pushed onto [results] for one bundle *)
Definition detail (bundleId : string) (result : Val) : Val :=
  let r2Result := get_opt result "r2Result" in
  VObj [("bundleId", VStr bundleId);
        ("success", get_opt result "success");
        ("d1Success", get_opt (get_opt result "d1Result") "success");
        ("r2Success",
         or (get_opt r2Result "success") (get_opt r2Result "partialSuccess"))].

(** The three updates of [overallResult] for one bundle *)
Definition tally (result : Val) (o : Overall) : Overall :=
  let r2Result := get_opt result "r2Result" in
  {| success :=
       if negb (truthy (get_opt result "success")) then false else success o;
     d1Success :=
       if truthy (get_opt (get_opt result "d1Result") "success")
       then d1Success o + 1 else d1Success o;
     r2Success :=
       if truthy (or (get_opt r2Result "success")
                     (get_opt r2Result "partialSuccess"))
       then r2Success o + 1 else r2Success o;
     total := total o |}.

(** [for (const bundleId of bundleIds)] *)
Fixpoint delete_each (env : Env) (bundleIds : list string)
    (results : list Val) (overallResult : Overall)
  : M (list Val * Overall) :=
  match bundleIds with
  | [] => mret (results, overallResult)
  | bundleId :: rest =>
      result ← deleteD1Bundle env bundleId;
      delete_each env rest (results ++ [detail bundleId result])
        (tally result overallResult)
  end.

Definition count_of (xs : list string) : Z := Z.of_nat (length xs).

(** [bulkDeleteBundles] *)
Definition bulkDeleteBundles (env : Env) (bundleIds : list string) : M Val :=
  try_catch
    (match bundleIds with
     | [] =>
         mret (VObj [("success", VBool false);
                     ("error", VStr "Không có bundle nào được chọn để xóa")])
     | _ =>
         '(results, overallResult) ←
           delete_each env bundleIds []
             {| success := true; d1Success := 0; r2Success := 0;
                total := count_of bundleIds |};
         let messageD1 :=
           "Đã xóa " +:+ pretty (d1Success overallResult) +:+ "/"
             +:+ pretty (count_of bundleIds) +:+ " bundles từ D1" in
         let messageR2 :=
           "Đã xóa " +:+ pretty (r2Success overallResult) +:+ "/"
             +:+ pretty (count_of bundleIds) +:+ " bundles từ R2" in
         mret (VObj [("success",
                      VBool (success overallResult
                             || (0 <? d1Success overallResult)));
                     ("message", VStr (messageD1 +:+ ", " +:+ messageR2));
                     ("details", VArr results)])
     end)
    (λ error, mret (failed error)).

End Client.

(* ===================================================================== *)
(** ** Concrete backends and scenarios *)
(* ===================================================================== *)

Module Fixtures.
Import Server.

Definition healthy : Database :=
  {| update_fault := λ _, None; commit_fault := None |}.

Definition row (c : string) : Bundle :=
  {| channel := c; platform := Ios; targetAppVersion := "1.0.0";
     message := ""; enabled := true; shouldForceUpdate := false |}.

Definition environment : ProcessEnv :=
  {| HOT_UPDATER_CLOUDFLARE_API_TOKEN := Some "token";
     HOT_UPDATER_CLOUDFLARE_ACCOUNT_ID := Some "account";
     HOT_UPDATER_CLOUDFLARE_R2_BUCKET_NAME := Some "bundles";
     HOT_UPDATER_CLOUDFLARE_D1_DATABASE_ID := Some "database" |}.

(** Three bundles; [b1] has its archive, [b2] has three objects. *)
Definition store : Store :=
  {| rows := <["b1" := row "production"]>
               (<["b2" := row "production"]>
                  (<["b3" := row "staging"]> ∅));
     staged := [];
     bucket := [ {| key := "b1/bundle.zip"; size := 1000 |};
                 {| key := "b2/bundle.zip"; size := 2000 |};
                 {| key := "b2/index.ios.bundle"; size := 1500 |};
                 {| key := "b2/assets.zip"; size := 700 |};
                 {| key := "b3/bundle.zip"; size := 900 |} ];
     trace := [] |}.

(** A storage plugin whose [deleteBundle] rejects with [new Error()], an
    error without text. *)
Definition mute_plugin : StoragePlugin :=
  {| deleteBundle := λ _, throw (ErrorObj "") |}.

Definition mute_storage : Env :=
  {| process_env := environment;
     prepareConfig :=
       Return {| storage := Some (Return mute_plugin);
                 databasePlugin := healthy |};
     cloudflare := Cloudflare.api Cloudflare.Nested 1000;
     loopback_fault := None |}.

(** A database whose commit is refused. *)
Definition refusing : Database :=
  {| update_fault := λ _, None;
     commit_fault := Some (ErrorObj "D1_ERROR: database is locked") |}.

Definition refused_commit : Env :=
  {| process_env := environment;
     prepareConfig :=
       Return {| storage := None; databasePlugin := refusing |};
     cloudflare := Cloudflare.api Cloudflare.Nested 1000;
     loopback_fault := None |}.

(** An account that refuses to delete the archive of [b2] and is otherwise
    reachable. *)
Definition refusal : ApiResponse :=
  {| ok := false; api_status := 503; statusText := "Service Unavailable";
     json := Return (VObj [("success", VBool false);
                           ("errors", VArr [VObj [("message", VStr "unavailable")]])]);
     text := "unavailable" |}.

Definition flaky_api (st : Store) (r : Request) : Completion ApiResponse :=
  match r with
  | R2DeleteObject _ _ _ k =>
      if String.eqb k "b2/bundle.zip" then Return refusal
      else Cloudflare.api Cloudflare.Nested 1000 st r
  | _ => Cloudflare.api Cloudflare.Nested 1000 st r
  end.

Definition flaky : Env :=
  {| process_env := environment;
     prepareConfig := Return {| storage := None; databasePlugin := healthy |};
     cloudflare := flaky_api;
     loopback_fault := None |}.

(** A server without the bucket name in its environment. *)
Definition unconfigured : Env :=
  {| process_env :=
       {| HOT_UPDATER_CLOUDFLARE_API_TOKEN := Some "token";
          HOT_UPDATER_CLOUDFLARE_ACCOUNT_ID := Some "account";
          HOT_UPDATER_CLOUDFLARE_R2_BUCKET_NAME := None;
          HOT_UPDATER_CLOUDFLARE_D1_DATABASE_ID := Some "database" |};
     prepareConfig := Return {| storage := None; databasePlugin := healthy |};
     cloudflare := Cloudflare.api Cloudflare.Nested 1000;
     loopback_fault := None |}.


Definition browser (st : Store) : Client.Browser :=
  {| Client.fileSizeCache := ∅; Client.requests := [];
     Client.backends := st |}.

Definition online (server : Env) : Client.Env :=
  {| Client.server := server; Client.network_fault := λ _ _, None |}.

(** A server whose D1 database answers every query with an error, the
    bucket being reachable. *)
Definition d1_down_api (st : Store) (r : Request) : Completion ApiResponse :=
  match r with
  | D1DeleteBundle _ _ _ _ => Return refusal
  | _ => Cloudflare.api Cloudflare.Nested 1000 st r
  end.

Definition d1_down : Env :=
  {| process_env := environment;
     prepareConfig := Return {| storage := None; databasePlugin := healthy |};
     cloudflare := d1_down_api;
     loopback_fault := None |}.

(** A server with everything configured and reachable, its listings nested
    under [result.objects]; and the same with flat listings. *)
Definition reachable : Env :=
  {| process_env := environment;
     prepareConfig := Return {| storage := None; databasePlugin := healthy |};
     cloudflare := Cloudflare.api Cloudflare.Nested 1000;
     loopback_fault := None |}.

Definition flat : Env :=
  {| process_env := environment;
     prepareConfig := Return {| storage := None; databasePlugin := healthy |};
     cloudflare := Cloudflare.api Cloudflare.Flat 1000;
     loopback_fault := None |}.

(** The same server where [fetch] refuses relative URLs. *)
Definition absolute_only : Env :=
  {| process_env := environment;
     prepareConfig := Return {| storage := None; databasePlugin := healthy |};
     cloudflare := Cloudflare.api Cloudflare.Nested 1000;
     loopback_fault := Some (ErrorObj "Only absolute URLs are supported") |}.

(** A bucket with 1001 objects under [b1/]. *)
Definition crowded : Store :=
  {| rows := {["b1" := row "production"]};
     staged := [];
     bucket := map (λ i, {| key := "b1/" +:+ pretty i; size := 1 |})
                 (seq 0 1001);
     trace := [] |}.

End Fixtures.

(* ===================================================================== *)
(** ** What the properties speak of *)
(* ===================================================================== *)

Import Server.

Local Open Scope list_scope.

(** [entry.success === true] *)
Definition succeeded (entry : Val) : bool :=
  match get_opt entry "success" with
  | VBool true => true
  | _ => false
  end.

Definition delete_call (env : Env) (k : Val) : Call :=
  CallCloudflare (R2DeleteObject (accountId env) (bucketName env)
                    (apiToken env) (to_text k)).

Definition tally_of (entries : list Val) : Z :=
  Z.of_nat (length (List.filter succeeded entries)).



(** [overallResult] as the loop starts *)
Definition initial (bundleIds : list string) : Client.Overall :=
  {| Client.success := true; Client.d1Success := 0; Client.r2Success := 0;
     Client.total := Client.count_of bundleIds |}.

(** The lenient OR of the specification over the two counts of a bulk
    delete: one metadata success or one storage success is enough. *)
Definition lenient_or (metadataSuccessCount storageSuccessCount : Z) : bool :=
  (0 <? metadataSuccessCount) || (0 <? storageSuccessCount).

(** The storage count of a bulk delete: the [deletedObjects] of the result
    of the one bulk object deletion, 0 where that result carries none. *)
Definition deleted_objects (r2Result : Val) : Z :=
  match get_opt r2Result "deletedObjects" with
  | VNum n => n
  | _ => 0
  end.

(** [GET /r2/objects] returns every object stored under the prefix. *)
Definition lists_whole_prefix (env : Env) (st : Store) (prefix : string)
  : Prop :=
  ∃ r st' objects,
    get_r2_objects env st = (Return r, st')
    ∧ get_opt (body r) "objects" = VArr objects
    ∧ objects
      = map Cloudflare.object_json
          (List.filter (Cloudflare.under (Some prefix)) (bucket st)).

(* ===================================================================== *)
(** ** The rest of the console *)
(* ===================================================================== *)

(** The remaining routes of the server that write metadata. *)
Module Routes.

(** [PATCH /bundles/:bundleId]; the body has passed the validator of
    [Partial<Bundle>]. *)
Definition patch_bundle (env : Env) (bundleId : string)
    (partialBundle : PartialBundle) : M Response :=
  try_catch
    (if String.eqb bundleId "" then
       mret (c_json (VObj [("error", VStr "Target bundle ID is required")]) 400)
     else
       cfg ← lift (prepareConfig env);
       _ ← updateBundle (databasePlugin cfg) bundleId partialBundle;
       _ ← commitBundle (databasePlugin cfg);
       mret (c_json (VObj [("success", VBool true)]) 200))
    (λ error, mret (unknown_error_response error)).

(** *** [POST /bundles/bulk-delete] *)

(** The two loops over [allObjects], an array, and [bundleIds]: the keys of
    the objects that stand under one of the ids. [bundleIds] is not empty,
    so that the [startsWith] of every [object.key] is called. *)
Fixpoint objects_to_delete (allObjects bundleIds : list Val)
  : Completion (list Val) :=
  match allObjects with
  | [] => Return []
  | object :: rest =>
      match get object "key" with
      | Throw e => Throw e
      | Return (VStr k) =>
          match objects_to_delete rest bundleIds with
          | Throw e => Throw e
          | Return keys =>
              if existsb (λ bundleId,
                            String.prefix (to_text bundleId +:+ "/") k)
                   bundleIds
              then Return (VStr k :: keys)
              else Return keys
          end
      | Return VUndefined =>
          Throw (ErrorObj "Cannot read properties of undefined")
      | Return VNull => Throw (ErrorObj "Cannot read properties of null")
      | Return _ => Throw (ErrorObj "object.key.startsWith is not a function")
      end
  end.

(** [fetch("/rpc/r2/objects", { method: "DELETE", body })] as this handler
    issues it: [r2Result] is the body of an answer that is [ok] and stays
    [null] otherwise. *)
Definition loopback_delete (env : Env) (payload : Val) : M Val :=
  λ st,
    let st := log (CallLoopback "/rpc/r2/objects" payload) st in
    match loopback_fault env with
    | Some e => (Throw e, st)
    | None =>
        match delete_r2_objects env (Return (to_json payload)) st with
        | (Return response, st') =>
            if Nat.leb 200 (status response) && Nat.ltb (status response) 300
            then (Return (body response), st')
            else (Return VNull, st')
        | (Throw _, st') => (Return VNull, st')
        end
    end.

(** The handler asks for the D1 configuration only; the deletion from the
    bucket is left out when the R2 configuration is not complete. *)
Definition bulk_delete (env : Env) (request_body : Completion Val)
  : M Response :=
  try_catch
    (reqBody ← lift request_body;
     given ← lift (get reqBody "bundleIds");
     match or given (VArr []) with
     | VArr (bundleId :: rest) =>
         let bundleIds := bundleId :: rest in
         if d1_config_missing (process_env env) then
           mret (failure_response "Thiếu thông tin cấu hình Cloudflare D1" 400)
         else
           d1Response ←
             fetch env
               (D1DeleteBundles (accountId env)
                  (or_empty
                     (HOT_UPDATER_CLOUDFLARE_D1_DATABASE_ID (process_env env)))
                  (apiToken env) bundleIds);
           if negb (ok d1Response) then
             mret (c_json (VObj [("success", VBool false);
                                 ("error",
                                  VStr ("Không thể xóa bundles từ D1: "
                                          +:+ statusText d1Response));
                                 ("details", VStr (text d1Response))])
                     500)
           else
             d1Result ← lift (json d1Response);
             r2Result ←
               (if r2_config_missing (process_env env) then mret VNull
                else
                  r2ListResponse ←
                    fetch env (R2ListObjects (accountId env) (bucketName env)
                                 (apiToken env) None (Some 1000%nat));
                  if negb (ok r2ListResponse) then mret VNull
                  else
                    r2Data ← lift (json r2ListResponse);
                    result ← lift (get r2Data "result");
                    match or (get_opt result "objects") (VArr []) with
                    | VArr allObjects =>
                        objectsToDelete ←
                          lift (objects_to_delete allObjects bundleIds);
                        match objectsToDelete with
                        | [] => mret VNull
                        | _ =>
                            loopback_delete env
                              (VObj [("keys", VArr objectsToDelete)])
                        end
                    | VStr _ =>
                        throw (ErrorObj "Cannot read properties of undefined")
                    | _ => throw (ErrorObj "allObjects is not iterable")
                    end);
             mret (c_json (VObj [("success", VBool true);
                                 ("message",
                                  VStr ("Đã xóa " +:+ pretty (length bundleIds)
                                          +:+ " bundles từ D1 database"));
                                 ("d1Result", d1Result);
                                 ("r2Result", r2Result)])
                     200)
     | _ =>
         mret (failure_response "Danh sách bundleIds không hợp lệ hoặc trống"
                 400)
     end)
    (λ error, mret (failure_response (error_text error) 500)).

End Routes.

(** The upload of the R2 storage plugin. *)
Module R2Upload.

(** What the command runner resolves to for an upload: it returns with what
    the command wrote to [stderr], rejects with an [ExecaError] carrying
    [stderr] and [stdout], or rejects with something else. *)
Inductive PutOutcome : Type :=
| PutReturned (stderr : string)
| PutExecaError (stderr stdout : string)
| PutThrown (e : Thrown).

(** [a || b] on strings *)
Definition or_text (a b : string) : string :=
  if String.eqb a "" then b else a.

(** The arguments of the one command [uploadBundle] runs. *)
Definition put_command (bucketName : string) (contentType : option string)
    (k bundlePath : string) : list string :=
  ["r2"; "object"; "put"; bucketName +:+ "/" +:+ k; "--file"; bundlePath]
    ++ match contentType with
       | Some t => if String.eqb t "" then [] else ["--content-type"; t]
       | None => []
       end
    ++ ["--remote"].

(** [r2Storage(config, hooks)(_).uploadBundle]; [basename] and [getType] are
    [path.basename] and [mime.getType], [onStorageUploaded] the hook when
    there is one. It returns the bucket name and the key. *)
Definition uploadBundle (bucketName : string) (basename : string → string)
    (getType : string → option string)
    (wrangler : list string → Store → PutOutcome * Store)
    (onStorageUploaded : option (M unit))
    (bundleId bundlePath : string) : M (string * string) :=
  λ st,
    let contentType := getType bundlePath in
    let filename := basename bundlePath in
    let k := bundleId +:+ "/" +:+ filename in
    match wrangler (put_command bucketName contentType k bundlePath) st with
    | (PutReturned stderr, st') =>
        if String.eqb stderr "" then
          match onStorageUploaded with
          | Some hook =>
              match hook st' with
              | (Return _, st'') => (Return (bucketName, k), st'')
              | (Throw e, st'') => (Throw e, st'')
              end
          | None => (Return (bucketName, k), st')
          end
        else (Throw (ErrorObj stderr), st')
    | (PutExecaError stderr stdout, st') =>
        (Throw (ErrorObj (or_text stderr stdout)), st')
    | (PutThrown e, st') => (Throw e, st')
    end.

(** A command runner over the bucket of the store, for uploads: the object
    is stored under the key that follows the bucket name, replacing an
    object already there; [sizeOf] is the size of the file. *)
Definition bucket_put (sizeOf : string → Z) (args : list string)
    (st : Store) : PutOutcome * Store :=
  let st := log (CallWrangler args) st in
  match args with
  | "r2" :: "object" :: "put" :: target :: "--file" :: file :: _ =>
      match String.index 0 "/" target with
      | Some i =>
          let k := String.substring (S i) (String.length target - S i) target in
          (PutReturned "",
           {| rows := rows st; staged := staged st;
              bucket := remove_key k (bucket st)
                          ++ [{| key := k; size := sizeOf file |}];
              trace := trace st |})
      | None => (PutExecaError "Unknown arguments" "", st)
      end
  | _ => (PutExecaError "Unknown arguments" "", st)
  end.

End R2Upload.

(** More of the browser-side API wrappers. *)
Module Api.

Definition DEFAULT_CHANNEL : string := "production".

(** [data.includes(channel)] *)
Definition includes (data : list string) (channel : string) : bool :=
  existsb (String.eqb channel) data.

(** The [select] of [createChannelsQuery]; [None] is an absent [data] on the
    way in and [null] on the way out. *)
Definition select (data : option (list string)) : option (list string) :=
  match data with
  | None => None
  | Some [] => None
  | Some channels =>
      if includes channels DEFAULT_CHANNEL then
        Some (DEFAULT_CHANNEL
                :: List.filter (λ channel,
                                  negb (String.eqb channel DEFAULT_CHANNEL))
                     channels)
      else Some channels
  end.

(** [bulkDeleteFromR2] *)
Definition bulkDeleteFromR2 (env : Client.Env) (keys : list string)
  : Client.M Val :=
  try_catch
    (match keys with
     | [] =>
         mret (VObj [("success", VBool false);
                     ("error", VStr "Danh sách keys trống")])
     | _ =>
         response ←
           Client.request env "DELETE" "/rpc/r2/objects"
             (delete_r2_objects (Client.server env)
                (Return (to_json (VArr (map VStr keys)))));
         if negb (Client.http_ok response) then
           mret (VObj [("success", VBool false);
                       ("error",
                        VStr ("Lỗi khi gọi API: "
                                +:+ Client.http_statusText response))])
         else lift (Client.http_json response)
     end)
    (λ error, mret (Client.failed error)).

End Api.

(** The bundle table: selection and bulk deletion. *)
Module Table.

(** [selected.includes(rowId)] *)
Definition includes (selected : list string) (rowId : string) : bool :=
  existsb (String.eqb rowId) selected.

(** [toggleRowSelection], as the new value of [selectedRows] *)
Definition toggleRowSelection (selected : list string) (rowId : string)
  : list string :=
  if includes selected rowId then
    List.filter (λ id, negb (String.eqb id rowId)) selected
  else selected ++ [rowId].

(** [toggleSelectAll], as the new value of [selectedRows]; [bundleIds] are
    the ids of [bundlesData()], in order. *)
Definition toggleSelectAll (selected bundleIds : list string) : list string :=
  if Nat.eqb (length selected) (length bundleIds) then [] else bundleIds.

(** The [checked] of the header checkbox *)
Definition all_checked (selected bundleIds : list string) : bool :=
  Nat.eqb (length selected) (length bundleIds)
  && Nat.ltb 0 (length bundleIds).

Inductive Toast : Type :=
| ToastSuccess (text : string)
| ToastError (text : string).

(** What the table holds besides the browser: the selection, the deleting
    flag, the toasts shown so far and whether a reload has been scheduled. *)
Record Ui : Type := {
  selectedRows : list string;
  isDeleting : bool;
  toasts : list Toast;
  reload_scheduled : bool
}.

Definition toast (t : Toast) (ui : Ui) : Ui :=
  {| selectedRows := selectedRows ui; isDeleting := isDeleting ui;
     toasts := toasts ui ++ [t]; reload_scheduled := reload_scheduled ui |}.

Definition setIsDeleting (v : bool) (ui : Ui) : Ui :=
  {| selectedRows := selectedRows ui; isDeleting := v;
     toasts := toasts ui; reload_scheduled := reload_scheduled ui |}.

(** The two deletions of [handleBulkDelete], one after the other. *)
Definition delete_selected (env : Client.Env) (selected : list string)
  : Client.M (Val * Val) :=
  r1Result ← Client.bulkDeleteBundles env selected;
  r2Result ←
    Api.bulkDeleteFromR2 env (map (λ id, id +:+ "/bundle.zip") selected);
  mret (r1Result, r2Result).

(** [a.k || b.k], the right operand read only when the left is falsy *)
Definition either (a b : Val) (k : string) : Completion Val :=
  match get a k with
  | Throw e => Throw e
  | Return v => if truthy v then Return v else get b k
  end.

(** What [handleBulkDelete] does with the two results, inside its [try]. *)
Definition settle (selected : list string) (r1Result r2Result : Val)
    (ui : Ui) : Completion Ui :=
  match either r1Result r2Result "success" with
  | Throw e => Throw e
  | Return succeeded =>
      if truthy succeeded then
        Return {| selectedRows := [];
                  isDeleting := isDeleting ui;
                  toasts :=
                    toasts ui
                      ++ [ToastSuccess ("Đã xóa "
                                          +:+ pretty (length selected)
                                          +:+ " bundles thành công")];
                  reload_scheduled := true |}
      else
        match either r1Result r2Result "error" with
        | Throw e => Throw e
        | Return error =>
            Return (toast (ToastError
                             (to_text
                                (or error
                                    (VStr "Có lỗi xảy ra khi xóa các bundles"))))
                      ui)
        end
  end.

(** The [catch] of [handleBulkDelete] *)
Definition report (error : Thrown) (ui : Ui) : Ui :=
  match error with
  | ErrorObj m => toast (ToastError m) ui
  | NonError _ => toast (ToastError "Có lỗi xảy ra khi xóa hàng loạt") ui
  end.

(** [handleBulkDelete]; [confirm] is what the user answers to the question
    asked. *)
Definition handleBulkDelete (env : Client.Env) (confirm : string → bool)
    (ui : Ui) (b : Client.Browser) : Ui * Client.Browser :=
  let selected := selectedRows ui in
  match selected with
  | [] => (toast (ToastError "Không có bundle nào được chọn để xóa") ui, b)
  | _ =>
      if negb (confirm ("Bạn có chắc chắn muốn xóa "
                          +:+ pretty (length selected)
                          +:+ " bundles đã chọn?"))
      then (ui, b)
      else
        let ui := setIsDeleting true ui in
        let '(outcome, b') := delete_selected env selected b in
        let ui :=
          match outcome with
          | Return (r1Result, r2Result) =>
              match settle selected r1Result r2Result ui with
              | Return ui' => ui'
              | Throw error => report error ui
              end
          | Throw error => report error ui
          end in
        (setIsDeleting false ui, b')
  end.

End Table.

(** The columns of the table. *)
Module Columns.

(** The shortened id of the [Bundle ID] cell: the first eight and the last
    four characters of an id longer than twelve. *)
Definition truncatedId (bundleId : string) : string :=
  if Nat.ltb 12 (String.length bundleId) then
    String.substring 0 8 bundleId +:+ "..."
      +:+ String.substring (String.length bundleId - 4) 4 bundleId
  else bundleId.

End Columns.

(** More scenarios. *)
Module Scenarios.

(** An account whose listings are refused, deletions being accepted. *)
Definition list_down_api (st : Store) (r : Request) : Completion ApiResponse :=
  match r with
  | R2ListObjects _ _ _ _ _ => Return Fixtures.refusal
  | _ => Cloudflare.api Cloudflare.Nested 1000 st r
  end.

Definition list_down : Env :=
  {| process_env := Fixtures.environment;
     prepareConfig :=
       Return {| storage := None; databasePlugin := Fixtures.healthy |};
     cloudflare := list_down_api;
     loopback_fault := None |}.

(** [{ enabled: true }] *)
Definition enabled_true : PartialBundle :=
  {| p_channel := None; p_platform := None; p_targetAppVersion := None;
     p_message := None; p_enabled := Some true; p_shouldForceUpdate := None |}.

(** A table with two rows selected. *)
Definition two_selected : Table.Ui :=
  {| Table.selectedRows := ["b1"; "b2"]; Table.isDeleting := false;
     Table.toasts := []; Table.reload_scheduled := false |}.

(** A table with one row selected. *)
Definition one_selected : Table.Ui :=
  {| Table.selectedRows := ["b1"]; Table.isDeleting := false;
     Table.toasts := []; Table.reload_scheduled := false |}.

(** A table with the three bundles selected. *)
Definition three_selected : Table.Ui :=
  {| Table.selectedRows := ["b1"; "b2"; "b3"]; Table.isDeleting := false;
     Table.toasts := []; Table.reload_scheduled := false |}.

End Scenarios.

(** The error of the update, or else of the commit. *)
Definition metadata_fault (db : Database) (bundleId : string)
  : option Thrown :=
  match update_fault db bundleId with
  | Some e => Some e
  | None => commit_fault db
  end.

(** A call that asks Cloudflare to delete an object of the bucket. *)
Definition is_object_deletion (c : Call) : bool :=
  match c with
  | CallCloudflare (R2DeleteObject _ _ _ _)
  | CallCloudflare (R2DeleteObjectAt _ _ _ _) => true
  | _ => false
  end.

(** The two requests [deleteD1Bundle] sends for one bundle. *)
Definition bundle_requests (bundleId : string) : list (string * string) :=
  [("POST", "/rpc/bundles/" +:+ bundleId +:+ "/delete-d1");
   ("POST", "/rpc/r2/delete/" +:+ bundleId)].

(** A network on which no request fails in transit. *)
Definition online (env : Client.Env) : Prop :=
  ∀ b path, Client.network_fault env b path = None.

(** The size [POST /bundle-sizes] finds for an id in a page of objects: that
    of the first object whose key starts with the id and a slash, 0 when
    there is none. *)
Definition first_size (page : list R2Object) (bundleId : string) : Z :=
  match List.find (λ o, String.prefix (bundleId +:+ "/") (key o)) page with
  | Some o => size o
  | None => 0
  end.

(** *** Where the embedding follows the code *)

(** A letter, a digit, [-] or [_]. *)
Definition plain_char (c : Ascii.ascii) : bool :=
  let n := Ascii.nat_of_ascii c in
  (Nat.leb 48 n && Nat.leb n 57) || (Nat.leb 65 n && Nat.leb n 90)
  || (Nat.leb 97 n && Nat.leb n 122) || Nat.eqb n 45 || Nat.eqb n 95.

Fixpoint plain_chars (s : string) : bool :=
  match s with
  | EmptyString => true
  | String c rest => plain_char c && plain_chars rest
  end.

(** A bundle id that, written into the path of a request, reaches its route
    as it is: not empty and made of letters, digits, [-] and [_] (the ids of
    the bundles are UUIDs). Of any other id the router and the reading of
    the URL decide, and [Client.request], which hands the id to the handler,
    does not say what they do. *)
Definition plain_id (bundleId : string) : bool :=
  negb (String.eqb bundleId "") && plain_chars bundleId.

(** The property names a plain object inherits from [Object.prototype]. A
    lookup under one of them finds something where nothing was written, and
    a number written under [__proto__] is not kept; the maps that stand for
    [fileSizeCache] and for the result of [getFileSizes] do not say so. *)
Definition inherited_names : list string :=
  ["__proto__"; "constructor"; "hasOwnProperty"; "isPrototypeOf";
   "propertyIsEnumerable"; "toLocaleString"; "toString"; "valueOf";
   "__defineGetter__"; "__defineSetter__"; "__lookupGetter__";
   "__lookupSetter__"].

Definition own_name (id : string) : bool :=
  negb (existsb (String.eqb id) inherited_names).

(** An integer that a JavaScript number holds exactly. *)
Definition safe_integer (n : Z) : bool :=
  (- 2 ^ 53 <? n) && (n <? 2 ^ 53).

(** The browser after a series of calls of [getFileSizes], one list of ids
    per call. *)
Definition after_calls (env : Client.Env) (calls : list (list string))
    (b : Client.Browser) : Client.Browser :=
  foldl (λ b bundleIds, (Client.getFileSizes env bundleIds b).2) b calls.


(* ===================================================================== *)
(** ** Properties *)
(* ===================================================================== *)

(** Unfolding of the monad, for running a handler through its branches. *)
Ltac run :=
  unfold mbind, mret, Async_bind, Async_ret, bind, ret, try_catch, lift, throw
    in *.

(** Case analysis on a scrutinee that has no [match] inside. *)
Ltac case_innermost :=
  match goal with
  | |- context [match ?x with _ => _ end] =>
      lazymatch x with
      | context [match _ with _ => _ end] => fail
      | _ => destruct x eqn:?
      end
  end.

Lemma flush_snoc staged i p (rows : gmap string Bundle) :
  flush (staged ++ [(i, p)]) rows = alter (patch p) i (flush staged rows).
Proof. unfold flush. by rewrite foldl_app. Qed.

Lemma flush_snoc_lookup staged i p (rows : gmap string Bundle) :
  flush (staged ++ [(i, p)]) rows !! i = patch p <$> flush staged rows !! i.
Proof. rewrite flush_snoc. by rewrite lookup_alter_eq. Qed.

(** What update and commit leave when neither fails. *)
Lemma disable_step_ok cfg bundleId st :
  update_fault (databasePlugin cfg) bundleId = None →
  commit_fault (databasePlugin cfg) = None →
  ∃ st', disable_step cfg bundleId st = (Return None, st')
         ∧ rows st' !! bundleId
           = patch enabled_false <$> flush (staged st) (rows st) !! bundleId
         ∧ staged st' = [] ∧ bucket st' = bucket st.
Proof.
  intros Hu Hc. unfold disable_step, updateBundle, commitBundle. run.
  simpl. rewrite Hu. simpl. rewrite Hc. simpl.
  eexists. split; [reflexivity|]. simpl.
  by rewrite flush_snoc_lookup.
Qed.

(** What update and commit answer when one of them fails. *)
Lemma disable_step_fails cfg bundleId st e :
  update_fault (databasePlugin cfg) bundleId = Some e
  ∨ (update_fault (databasePlugin cfg) bundleId = None
     ∧ commit_fault (databasePlugin cfg) = Some e) →
  ∃ st', disable_step cfg bundleId st
         = (Return (Some (failure_response (error_text e) 500)), st')
         ∧ rows st' = rows st.
Proof.
  intros [Hu | [Hu Hc]]; unfold disable_step, updateBundle, commitBundle; run;
    simpl; rewrite Hu; simpl; [|rewrite Hc; simpl];
    eexists; split; reflexivity.
Qed.

Lemma storage_step_returns cfg bundleId st :
  ∃ v st', storage_step cfg bundleId st = (Return v, st')
           ∧ (v = VNull ∨ ∃ s, v = VStr s).
Proof.
  unfold storage_step. run.
  destruct (storage cfg) as [[plugin | e] |]; simpl.
  - destruct (deleteBundle plugin bundleId st) as [[k | e] st1]; simpl.
    + eauto 6.
    + destruct (is_bundle_not_found e); simpl; eauto 6.
  - destruct (is_bundle_not_found e); simpl; eauto 6.
  - eauto 6.
Qed.

(** The storage block, when the plugin's [deleteBundle] throws. *)
Lemma storage_step_throws cfg plugin bundleId st e st1 :
  storage cfg = Some (Return plugin) →
  deleteBundle plugin bundleId st = (Throw e, st1) →
  storage_step cfg bundleId st
  = (Return (if is_bundle_not_found e then VNull else VStr (error_text e)),
     st1).
Proof.
  intros Hs Hd. unfold storage_step. run. rewrite Hs. simpl. rewrite Hd. simpl.
  by destruct (is_bundle_not_found e).
Qed.

(** A storage failure whose text is not empty: the record is disabled all
    the same and the answer is the partial success. *)
Lemma delete_bundle_storage_failure env cfg plugin bundleId st e st1 :
  prepareConfig env = Return cfg →
  storage cfg = Some (Return plugin) →
  deleteBundle plugin bundleId st = (Throw e, st1) →
  is_bundle_not_found e = false →
  error_text e ≠ "" →
  update_fault (databasePlugin cfg) bundleId = None →
  commit_fault (databasePlugin cfg) = None →
  ∃ st',
    delete_bundle env bundleId st
    = (Return
         {| status := 200;
            body := VObj [("success", VBool true);
                          ("partialSuccess", VBool true);
                          ("storageError", VStr (error_text e));
                          ("message", VStr "Bundle đã bị xóa khỏi database nhưng không thể xóa file từ storage")] |},
       st')
    ∧ rows st' !! bundleId
      = patch enabled_false <$> flush (staged st1) (rows st1) !! bundleId.
Proof.
  intros Hcfg Hs Hd Hnf Htext Hu Hc.
  destruct (disable_step_ok cfg bundleId st1 Hu Hc) as (st' & Hstep & Hrow & _).
  exists st'. split; [|exact Hrow].
  unfold delete_bundle. run. rewrite Hcfg. simpl.
  rewrite (storage_step_throws _ _ _ _ _ _ Hs Hd), Hnf. simpl.
  rewrite Hstep. simpl.
  destruct (String.eqb_spec (error_text e) ""); [done|]. reflexivity.
Qed.

(** C1, at a storage failure without text: the storage plugin rejects with
    an error whose message is empty, the record is disabled and the commit
    goes through, yet the answer is the plain success, without
    [partialSuccess] and without [storageError]. *)
Theorem delete_bundle_mute_storage_failure :
  (delete_bundle Fixtures.mute_storage "b1" Fixtures.store).1
  = Return {| status := 200;
              body := VObj [("success", VBool true);
                            ("message", VStr "Bundle đã được xóa thành công")] |}
  ∧ enabled <$> rows (delete_bundle Fixtures.mute_storage "b1" Fixtures.store).2
                  !! "b1" = Some false.
Proof. vm_compute. done. Qed.

(** C6: when the update or the commit of the soft delete throws, the answer
    is the hard failure, [success: false] with the error's text under status
    500, whatever the storage block did before. *)
Theorem delete_bundle_metadata_failure env cfg bundleId st e :
  prepareConfig env = Return cfg →
  update_fault (databasePlugin cfg) bundleId = Some e
  ∨ (update_fault (databasePlugin cfg) bundleId = None
     ∧ commit_fault (databasePlugin cfg) = Some e) →
  (delete_bundle env bundleId st).1
  = Return {| status := 500;
              body := VObj [("success", VBool false);
                            ("error", VStr (error_text e))] |}.
Proof.
  intros Hcfg Hfail.
  destruct (storage_step_returns cfg bundleId st) as (v & st1 & Hs & _).
  destruct (disable_step_fails cfg bundleId st1 e Hfail) as (st2 & Hd & _).
  unfold delete_bundle. run. rewrite Hcfg. simpl. rewrite Hs. simpl.
  rewrite Hd. reflexivity.
Qed.

Lemma delete_bundle_metadata_failure_witness :
  (delete_bundle Fixtures.refused_commit "b1" Fixtures.store).1
  = Return {| status := 500;
              body := VObj [("success", VBool false);
                            ("error", VStr "D1_ERROR: database is locked")] |}.
Proof.
  apply (delete_bundle_metadata_failure Fixtures.refused_commit
           {| storage := None; databasePlugin := Fixtures.refusing |}
           "b1" Fixtures.store (ErrorObj "D1_ERROR: database is locked")).
  - reflexivity.
  - right. split; reflexivity.
Defined.

(** *** Deleting an object that is not there *)





(** *** The bulk object delete *)

Lemma succeeded_key_result k b error :
  succeeded (to_json (key_result k b error)) = b.
Proof. by destruct error, k, b. Qed.

(** One turn of the loop never throws: it issues its request and pushes one
    entry, counted exactly when the entry says [success: true]. *)
Lemma delete_one_spec env k st :
  ∃ entry st',
    delete_one env k st = (Return (entry, succeeded (to_json entry)), st')
    ∧ trace st' = trace st ++ [delete_call env k].
Proof.
  unfold delete_one, fetch. run. cbn [log trace].
  destruct (cloudflare env _ _) as [resp | e]; cbn.
  - destruct (ok resp); cbn.
    + exists (key_result k true None). eexists.
      rewrite succeeded_key_result. by split.
    + destruct (json resp) as [errorData | e]; cbn.
      * exists (key_result k false (Some (stringify errorData))). eexists.
        rewrite succeeded_key_result. by split.
      * exists (key_result k false
                  (Some (stringify (VObj [("error", VStr (statusText resp))])))).
        eexists. rewrite succeeded_key_result. by split.
  - exists (key_result k false (Some (error_text e))). eexists.
    rewrite succeeded_key_result. by split.
Qed.

Lemma delete_each_spec env keys : ∀ results n st,
  ∃ new st',
    Server.delete_each env keys results n st
    = (Return (results ++ new, n + tally_of (map to_json new)), st')
    ∧ length new = length keys
    ∧ trace st' = trace st ++ map (delete_call env) keys.
Proof.
  induction keys as [|k keys IH]; intros results n st; cbn [Server.delete_each].
  - exists [], st. run. unfold tally_of. cbn.
    by rewrite !app_nil_r, Z.add_0_r.
  - destruct (delete_one_spec env k st) as (entry & st1 & Hone & Htr1).
    destruct (IH (results ++ [entry])
                (if succeeded (to_json entry) then n + 1 else n) st1)
      as (new & st' & Hrest & Hlen & Htr).
    exists (entry :: new), st'. run. rewrite Hone. cbn. rewrite Hrest.
    split; [|split].
    + assert ((if succeeded (to_json entry) then n + 1 else n)
              + tally_of (map to_json new)
              = n + tally_of (map to_json (entry :: new))) as ->.
      { unfold tally_of. cbn [map List.filter].
        destruct (succeeded (to_json entry)); cbn [length]; lia. }
      by rewrite <- app_assoc.
    + cbn. by rewrite Hlen.
    + rewrite Htr, Htr1. by rewrite <- app_assoc.
Qed.

(** C7: with the storage configured, the bulk object delete of a non-empty
    list of K keys sends one delete request for every key, in order, whatever
    the answers to the earlier ones; its [results] hold exactly K entries,
    [totalObjects] is K and [deletedObjects] is the number of entries that
    say [success: true]. *)
Theorem delete_r2_objects_accounts_for_every_key env keys st :
  keys ≠ [] →
  r2_config_missing (process_env env) = false →
  ∃ r st' results,
    delete_r2_objects env (Return (VArr keys)) st = (Return r, st')
    ∧ status r = 200%nat
    ∧ trace st' = trace st ++ map (delete_call env) keys
    ∧ get_opt (body r) "results" = VArr results
    ∧ length results = length keys
    ∧ get_opt (body r) "totalObjects" = VNum (Z.of_nat (length keys))
    ∧ get_opt (body r) "deletedObjects" = VNum (tally_of results).
Proof.
  intros Hne Hcfg. destruct keys as [|k rest]; [done|].
  destruct (delete_each_spec env (k :: rest) [] 0 st)
    as (new & st' & Hloop & Hlen & Htr).
  unfold delete_r2_objects. run. cbn [fst snd]. rewrite Hcfg, Hloop.
  eexists _, st', (map to_json new). split; [reflexivity|].
  cbn. rewrite length_map. repeat split; try done.
Qed.

Lemma delete_r2_objects_accounts_for_every_key_witness :
  ∃ r st' results,
    delete_r2_objects Fixtures.flaky
      (Return (VArr [VStr "b1/bundle.zip"; VStr "b2/bundle.zip";
                     VStr "b3/bundle.zip"])) Fixtures.store
    = (Return r, st')
    ∧ status r = 200%nat
    ∧ trace st'
      = trace Fixtures.store
          ++ map (delete_call Fixtures.flaky)
               [VStr "b1/bundle.zip"; VStr "b2/bundle.zip";
                VStr "b3/bundle.zip"]
    ∧ get_opt (body r) "results" = VArr results
    ∧ length results = 3%nat
    ∧ get_opt (body r) "totalObjects" = VNum 3
    ∧ get_opt (body r) "deletedObjects" = VNum (tally_of results).
Proof.
  apply (delete_r2_objects_accounts_for_every_key Fixtures.flaky
           [VStr "b1/bundle.zip"; VStr "b2/bundle.zip"; VStr "b3/bundle.zip"]
           Fixtures.store).
  - discriminate.
  - reflexivity.
Defined.


(** Three keys of which the second is refused: the third is still attempted,
    and two of three are reported deleted. *)
Lemma delete_r2_objects_goes_on_after_a_failure :
  let outcome :=
    delete_r2_objects Fixtures.flaky
      (Return (VArr [VStr "b1/bundle.zip"; VStr "b2/bundle.zip";
                     VStr "b3/bundle.zip"])) Fixtures.store in
  (match outcome.1 with
   | Return r =>
       (get_opt (body r) "success", get_opt (body r) "totalObjects",
        get_opt (body r) "deletedObjects",
        match get_opt (body r) "results" with
        | VArr entries => map succeeded entries
        | _ => []
        end)
   | Throw _ => (VUndefined, VUndefined, VUndefined, [])
   end) = (VBool true, VNum 3, VNum 2, [true; false; true])
  ∧ map key (bucket outcome.2)
    = ["b2/bundle.zip"; "b2/index.ios.bundle"; "b2/assets.zip"].
Proof. vm_compute. done. Qed.

(** *** Missing storage configuration *)

Lemma r2_config_empty_missing env :
  r2_config_empty env = r2_config_missing (process_env env).
Proof.
  unfold r2_config_empty, r2_config_missing, apiToken, accountId, bucketName.
  by destruct (HOT_UPDATER_CLOUDFLARE_API_TOKEN (process_env env)),
    (HOT_UPDATER_CLOUDFLARE_ACCOUNT_ID (process_env env)),
    (HOT_UPDATER_CLOUDFLARE_R2_BUCKET_NAME (process_env env)).
Qed.

(** C9, as stated, fails: two operations that work on the bucket go ahead
    without the bucket name. [POST /bundles/bulk-delete] asks for the D1
    configuration only: it sends the deletion of the rows to D1, leaves the
    bucket out and answers [success: true] with [r2Result: null]; and the
    [deleteBundle] of the R2 storage plugin, given an empty bucket name,
    runs its command on [/b1]. Neither answers with a configuration
    error. *)
Theorem unguarded_operations_run_without_the_bucket_name :
  r2_config_missing (process_env Fixtures.unconfigured) = true
  ∧ (let outcome :=
       Routes.bulk_delete Fixtures.unconfigured
         (Return (VObj [("bundleIds", VArr [VStr "b1"])])) Fixtures.store in
     outcome.1
     = Return
         {| status := 200;
            body :=
              VObj [("success", VBool true);
                    ("message", VStr "Đã xóa 1 bundles từ D1 database");
                    ("d1Result",
                     VObj [("success", VBool true); ("result", VArr [])]);
                    ("r2Result", VNull)] |}
     ∧ trace outcome.2
       = [CallCloudflare
            (D1DeleteBundles "account" "database" "token" [VStr "b1"])]
     ∧ rows outcome.2 !! "b1" = None
     ∧ bucket outcome.2 = bucket Fixtures.store)
  ∧ (let outcome :=
       R2Storage.deleteBundle "" R2Storage.bucket_wrangler "b1"
         Fixtures.store in
     outcome.1 = Return "b1"
     ∧ trace outcome.2
       = [CallWrangler ["r2"; "object"; "delete"; "/b1"; "--remote"]]).
Proof. vm_compute. done. Qed.

(** C9, amended: when the API token, the account id or the bucket name is
    missing, every handler that carries the R2 configuration guard answers
    with its configuration error and leaves the backends and the trace of
    requests as they were; [complete-delete] has by then disabled the record,
    issues only the update and the commit, and answers [success: true] with
    the message that the storage could not be cleaned for lack of
    configuration. *)
Theorem missing_r2_config_makes_no_backend_call env st :
  r2_config_missing (process_env env) = true →
  (∀ bundleId,
     r2_delete env bundleId st
     = (Return (failure_response "Thiếu thông tin cấu hình Cloudflare R2" 400),
        st))
  ∧ get_r2_objects env st
    = (Return (failure_response "Thiếu thông tin cấu hình Cloudflare" 400), st)
  ∧ (∀ k, truthy k = true →
       delete_r2_object env (Return (VObj [("key", k)])) st
       = (Return (failure_response "Thiếu thông tin cấu hình Cloudflare" 400),
          st))
  ∧ (∀ k keys,
       delete_r2_objects env (Return (VArr (k :: keys))) st
       = (Return (failure_response "Thiếu cấu hình R2" 500), st))
  ∧ (∀ bundleIds,
       bundle_sizes env (Return (VObj [("bundleIds", VArr bundleIds)])) st
       = (Return (failure_response "Thiếu thông tin cấu hình Cloudflare" 400),
          st))
  ∧ (∀ cfg bundleId,
       prepareConfig env = Return cfg →
       update_fault (databasePlugin cfg) bundleId = None →
       commit_fault (databasePlugin cfg) = None →
       ∃ st',
         complete_delete env bundleId st
         = (Return
              {| status := 200;
                 body := VObj [("success", VBool true);
                               ("message", VStr "Bundle đã bị vô hiệu hóa trong database, nhưng không thể xóa từ R2 do thiếu cấu hình")] |},
            st')
         ∧ trace st'
           = trace st ++ [CallUpdateBundle bundleId enabled_false;
                          CallCommitBundle]
         ∧ rows st' !! bundleId
           = patch enabled_false <$> flush (staged st) (rows st) !! bundleId
         ∧ bucket st' = bucket st).
Proof.
  intros Hmiss. repeat split.
  - intros bundleId. unfold r2_delete. run. by rewrite Hmiss.
  - unfold get_r2_objects. run. by rewrite r2_config_empty_missing, Hmiss.
  - intros k Hk. unfold delete_r2_object. run. cbn.
    by rewrite Hk, r2_config_empty_missing, Hmiss.
  - intros k keys. unfold delete_r2_objects. run. cbn. by rewrite Hmiss.
  - intros bundleIds. unfold bundle_sizes. run. cbn.
    by rewrite r2_config_empty_missing, Hmiss.
  - intros cfg bundleId Hcfg Hu Hc.
    unfold complete_delete, updateBundle, commitBundle. run.
    rewrite Hcfg. cbn. rewrite Hu. cbn. rewrite Hc. cbn. rewrite Hmiss.
    eexists. split; [reflexivity|]. cbn [trace rows bucket staged log].
    rewrite <- flush_snoc_lookup, <- app_assoc. by repeat split.
Qed.

Lemma missing_r2_config_makes_no_backend_call_witness :
  r2_delete Fixtures.unconfigured "b1" Fixtures.store
  = (Return (failure_response "Thiếu thông tin cấu hình Cloudflare R2" 400),
     Fixtures.store)
  ∧ ∃ st',
      complete_delete Fixtures.unconfigured "b1" Fixtures.store
      = (Return
           {| status := 200;
              body := VObj [("success", VBool true);
                            ("message", VStr "Bundle đã bị vô hiệu hóa trong database, nhưng không thể xóa từ R2 do thiếu cấu hình")] |},
         st')
      ∧ trace st'
        = trace Fixtures.store
            ++ [CallUpdateBundle "b1" enabled_false; CallCommitBundle]
      ∧ rows st' !! "b1"
        = patch enabled_false
            <$> flush (staged Fixtures.store) (rows Fixtures.store) !! "b1"
      ∧ bucket st' = bucket Fixtures.store.
Proof.
  destruct (missing_r2_config_makes_no_backend_call Fixtures.unconfigured
              Fixtures.store eq_refl)
    as (Hdelete & _ & _ & _ & _ & Hcomplete).
  split.
  - apply Hdelete.
  - apply (Hcomplete
             {| storage := None; databasePlugin := Fixtures.healthy |} "b1");
      reflexivity.
Defined.


(** *** The wrappers around the soft delete and the disable *)

Lemma assoc_set_prop k k' v ps :
  assoc k (set_prop k' v ps)
  = if String.eqb k k' then Some v else assoc k ps.
Proof.
  induction ps as [|[k0 v0] ps IH]; cbn.
  - by destruct (String.eqb k k').
  - destruct (String.eqb_spec k' k0) as [-> | Hne]; cbn.
    + by destruct (String.eqb k k0).
    + rewrite IH. destruct (String.eqb_spec k k0) as [-> | Hne']; [|done].
      destruct (String.eqb_spec k0 k'); [by subst|done].
Qed.








(** *** The bulk delete of bundles *)

Lemma get_Return v k x : get v k = Return x → get_opt v k = x.
Proof. destruct v; cbn; congruence. Qed.

(** [deleteD1Bundle] never throws, and a result it calls a success has a
    [d1Result] that is one. *)
Lemma deleteD1Bundle_returns env bundleId b :
  ∃ result b',
    Client.deleteD1Bundle env bundleId b = (Return result, b')
    ∧ (truthy (get_opt result "success") = true →
       truthy (get_opt (get_opt result "d1Result") "success") = true).
Proof.
  unfold Client.deleteD1Bundle. run.
  destruct (Client.request env "POST" _ (delete_d1 _ _) b)
    as [[d1Response | e] b1]; [|by eexists _, _].
  destruct (Client.http_json d1Response) as [d1Result | e]; [|by eexists _, _].
  destruct (Client.request env "POST" _ (r2_delete _ _) b1)
    as [[r2Response | e] b2]; [|by eexists _, _].
  destruct (Client.http_json r2Response) as [r2Result | e]; [|by eexists _, _].
  destruct (get d1Result "success") as [d1s | e] eqn:Hd1; [|by eexists _, _].
  apply get_Return in Hd1.
  destruct (truthy d1s) eqn:Ht.
  - destruct (get r2Result "success") as [r2s | e]; [|by eexists _, _].
    eexists _, _. split; [reflexivity|]. cbn. by rewrite Hd1.
  - destruct (get r2Result "success") as [r2s | e]; [|by eexists _, _].
    eexists _, _. split; [reflexivity|]. cbn. by rewrite Ht.
Qed.

(** The loop never throws; the metadata count never decreases, and the
    running flag is still true at the end only if it was true at the start
    and every bundle of the list was counted as a metadata success. *)
Lemma bulk_loop_spec env bundleIds : ∀ results o b,
  ∃ new o' b',
    Client.delete_each env bundleIds results o b
    = (Return (results ++ new, o'), b')
    ∧ Client.d1Success o ≤ Client.d1Success o'
    ∧ (Client.success o' = true →
       Client.success o = true
       ∧ Client.d1Success o'
         = Client.d1Success o + Z.of_nat (length bundleIds)).
Proof.
  induction bundleIds as [|bundleId rest IH]; intros results o b;
    cbn [Client.delete_each].
  - exists [], o, b. run. rewrite app_nil_r. cbn.
    split; [done|]. split; [lia|]. intros Ho. split; [done|lia].
  - destruct (deleteD1Bundle_returns env bundleId b)
      as (result & b1 & Hone & Htruthy).
    destruct (IH (results ++ [Client.detail bundleId result])
                (Client.tally result o) b1)
      as (new & o' & b' & Hrest & Hmono & Hall).
    exists (Client.detail bundleId result :: new), o', b'. run.
    rewrite Hone, Hrest. rewrite <- app_assoc.
    split; [reflexivity|]. revert Hmono Hall. unfold Client.tally.
    cbn [Client.d1Success Client.success].
    destruct (truthy (get_opt result "success")) eqn:Hs.
    + rewrite (Htruthy eq_refl). cbn [negb length]. intros Hmono Hall.
      split; [lia|]. intros Ho'. destruct (Hall Ho') as [Ho ->].
      split; [done|lia].
    + cbn [negb]. intros Hmono Hall. split.
      * destruct (truthy (get_opt (get_opt result "d1Result") "success")); lia.
      * intros Ho'. by destruct (Hall Ho').
Qed.

(** For a non-empty list, the flag of [bulkDeleteBundles] says whether the
    metadata count the loop ends with is not zero. *)
Lemma bulkDeleteBundles_flag env bundleId rest b :
  ∃ results overall b' message,
    Client.delete_each env (bundleId :: rest) []
      (initial (bundleId :: rest)) b
    = (Return (results, overall), b')
    ∧ Client.bulkDeleteBundles env (bundleId :: rest) b
      = (Return (VObj [("success", VBool (0 <? Client.d1Success overall));
                       ("message", VStr message);
                       ("details", VArr results)]), b').
Proof.
  destruct (bulk_loop_spec env (bundleId :: rest) []
              (initial (bundleId :: rest)) b)
    as (new & overall & b' & Hloop & Hmono & Hall).
  cbn [app] in Hloop. exists new, overall, b'. eexists.
  split; [exact Hloop|].
  unfold Client.bulkDeleteBundles. run. fold (initial (bundleId :: rest)).
  rewrite Hloop. do 4 f_equal. f_equal. f_equal.
  destruct (Client.success overall) eqn:Ho; [|done].
  destruct (Hall eq_refl) as [_ Hd]. cbn in Hd |- *.
  symmetry. apply Z.ltb_lt. lia.
Qed.

(** X27: taken by itself, [bulkDeleteBundles] answers for a non-empty list
    with a flag that is true exactly when the metadata count its loop ends
    with is not zero: its own storage count, which it renders in the
    message, has no part in the flag. Where the metadata deletion succeeds
    for [b1], [b2] and [b3] and the storage deletion fails for [b2] only,
    the loop ends with a metadata count of 3 and a storage count of 2 and
    the flag is true. *)
Theorem bulk_success_follows_metadata_count :
  (∀ env bundleId rest b,
     ∃ results overall b' message,
       Client.delete_each env (bundleId :: rest) []
         (initial (bundleId :: rest)) b
       = (Return (results, overall), b')
       ∧ Client.bulkDeleteBundles env (bundleId :: rest) b
         = (Return (VObj [("success", VBool (0 <? Client.d1Success overall));
                          ("message", VStr message);
                          ("details", VArr results)]), b'))
  ∧ (∃ results b',
       Client.delete_each (Fixtures.online Fixtures.flaky) ["b1"; "b2"; "b3"]
         [] (initial ["b1"; "b2"; "b3"]) (Fixtures.browser Fixtures.store)
       = (Return (results,
                  {| Client.success := false; Client.d1Success := 3;
                     Client.r2Success := 2; Client.total := 3 |}), b')
       ∧ Client.bulkDeleteBundles (Fixtures.online Fixtures.flaky)
           ["b1"; "b2"; "b3"] (Fixtures.browser Fixtures.store)
         = (Return (VObj [("success", VBool true);
                          ("message",
                           VStr "Đã xóa 3/3 bundles từ D1, Đã xóa 2/3 bundles từ R2");
                          ("details", VArr results)]), b')).
Proof.
  split.
  - apply bulkDeleteBundles_flag.
  - eexists _, _. split; vm_compute; reflexivity.
Qed.

(** *** The size cache *)

(** An id whose cached size is truthy is answered from the cache, without a
    request. *)
Lemma getFileSizes_cache_hit env id b :
  truthy (Client.cached b id) = true →
  Client.getFileSizes env [id] b = (Return [(id, Client.cached b id)], b).
Proof.
  intros Hhit. unfold Client.getFileSizes. cbn [List.filter].
  rewrite Hhit. cbn. unfold or. by rewrite Hhit.
Qed.

(** [fetchFileSizesFromR2] never throws and sends exactly one request. *)
Lemma fetchFileSizesFromR2_requests_once env bundleIds b :
  ∃ newSizes b',
    Client.fetchFileSizesFromR2 env bundleIds b = (Return newSizes, b')
    ∧ Client.requests b'
      = Client.requests b ++ [("POST", "/rpc/bundle-sizes")].
Proof.
  unfold Client.fetchFileSizesFromR2, Client.request.
  generalize (bundle_sizes (Client.server env)
                (Return (to_json (VObj [("bundleIds",
                                         VArr (map VStr bundleIds))])))).
  intros handler. run. cbn [Client.requests Client.backends].
  destruct (Client.network_fault env _ _); [by eexists _, _|].
  destruct (handler (Client.backends b)) as [[response | e] st];
    cbn -[get truthy].
  - destruct (negb _); [by eexists _, _|].
    destruct (get (body response) "success") as [success | e];
      [|by eexists _, _].
    destruct (truthy success); [|by eexists _, _].
    destruct (get (body response) "fileSizes") as [fileSizes | e];
      [|by eexists _, _].
    destruct (truthy fileSizes); by eexists _, _.
  - by eexists _, _.
Qed.

(** An id whose cached size is falsy, were it a recorded 0, is fetched:
    one more request goes out, whatever it comes back with. *)
Lemma getFileSizes_fetches_falsy env id b :
  truthy (Client.cached b id) = false →
  Client.requests (Client.getFileSizes env [id] b).2
  = Client.requests b ++ [("POST", "/rpc/bundle-sizes")].
Proof.
  intros Hfalsy. unfold Client.getFileSizes. cbn [List.filter].
  rewrite Hfalsy. cbn [negb].
  destruct (fetchFileSizesFromR2_requests_once env [id] b)
    as (newSizes & b' & Hfetch & Hrequests).
  run. rewrite Hfetch. unfold Client.remember. cbn. exact Hrequests.
Qed.

(** C2, at a size of zero: no object is stored under [missing-id/], so the
    first [getFileSizes(["missing-id"])] fetches and records 0; the second
    call finds the recorded 0 falsy and fetches again, so that two requests
    have gone out for the one id. *)
Theorem getFileSizes_fetches_a_recorded_zero_again :
  let env := Fixtures.online Fixtures.flat in
  let first :=
    Client.getFileSizes env ["missing-id"] (Fixtures.browser Fixtures.store) in
  let second := Client.getFileSizes env ["missing-id"] first.2 in
  first.1 = Return [("missing-id", VNum 0)]
  ∧ Client.requests first.2 = [("POST", "/rpc/bundle-sizes")]
  ∧ Client.fileSizeCache first.2 !! "missing-id" = Some (VNum 0)
  ∧ second.1 = Return [("missing-id", VNum 0)]
  ∧ Client.requests second.2
    = [("POST", "/rpc/bundle-sizes"); ("POST", "/rpc/bundle-sizes")].
Proof. vm_compute. done. Qed.

(** *** The complete delete *)

(** The bulk object delete, given an object (the keys wrapped under
    [keys]) instead of an array, rejects it and deletes nothing. *)
Lemma delete_r2_objects_rejects_object env props st :
  delete_r2_objects env (Return (VObj props)) st
  = (Return (failure_response "Danh sách keys không hợp lệ hoặc trống" 400),
     st).
Proof. reflexivity. Qed.

(** Whatever the backends answer, the result of [complete-delete] carries no
    [deletedObjects] count. *)
Lemma complete_delete_reports_no_count env bundleId st :
  match (complete_delete env bundleId st).1 with
  | Return r =>
      get_opt (get_opt (body r) "r2Result") "deletedObjects" = VUndefined
  | Throw _ => False
  end.
Proof.
  unfold complete_delete, loopback_delete_objects. run.
  repeat (cbn;
          match goal with
          | |- context [delete_r2_objects ?e (Return (VObj ?ps)) ?s] =>
              rewrite (delete_r2_objects_rejects_object e ps s)
          | |- _ => case_innermost
          end); try done.
Qed.

(** C4, at a bundle with three objects and a storage that answers every
    call: [complete-delete] of [b2] disables the record and lists the three
    objects, but hands their keys to the bulk object delete wrapped in an
    object, which that handler rejects; no object is deleted and the result
    carries neither [deletedObjects] nor [totalObjects] (the message reads
    [undefined/undefined]). Where [fetch] refuses the relative URL the call
    ends in the failure response instead. *)
Theorem complete_delete_deletes_nothing :
  let outcome := complete_delete Fixtures.reachable "b2" Fixtures.store in
  outcome.1
  = Return
      {| status := 200;
         body :=
           VObj [("success", VBool true);
                 ("message", VStr "Bundle đã bị vô hiệu hóa trong database, undefined/undefined file đã bị xóa từ R2");
                 ("r2Result",
                  VObj [("success", VBool false);
                        ("error", VStr "Danh sách keys không hợp lệ hoặc trống")])] |}
  ∧ bucket outcome.2 = bucket Fixtures.store
  ∧ enabled <$> rows outcome.2 !! "b2" = Some false
  ∧ trace outcome.2
    = [CallUpdateBundle "b2" enabled_false;
       CallCommitBundle;
       CallCloudflare
         (R2ListObjects "account" "bundles" "token" (Some "b2") None);
       CallLoopback "/rpc/r2/objects"
         (VObj [("keys", VArr [VStr "b2/bundle.zip";
                               VStr "b2/index.ios.bundle";
                               VStr "b2/assets.zip"])])]
  ∧ (complete_delete Fixtures.absolute_only "b2" Fixtures.store).1
    = Return (failure_response "Only absolute URLs are supported" 500).
Proof. vm_compute. done. Qed.

(** *** Listing the bucket *)

Lemma to_json_objects objs :
  map to_json (map Cloudflare.object_json objs)
  = map Cloudflare.object_json objs.
Proof. induction objs as [|o objs IH]; [done|]. cbn. by rewrite IH. Qed.

Lemma to_json_keys keys : map to_json (map VStr keys) = map VStr keys.
Proof. induction keys as [|k keys IH]; [done|]. cbn. by rewrite IH. Qed.

Lemma filter_under_None objs :
  List.filter (Cloudflare.under None) objs = objs.
Proof. induction objs as [|o objs IH]; [done|]. cbn. by rewrite IH. Qed.

(** Against an account that answers, [GET /r2/objects] sends one listing
    request, for up to 1000 objects of the whole bucket, and returns the page
    it gets. *)
Lemma get_r2_objects_first_page env cap st :
  r2_config_empty env = false →
  cloudflare env = Cloudflare.api Cloudflare.Nested cap →
  get_r2_objects env st
  = (Return
       {| status := 200;
          body := VObj [("success", VBool true);
                        ("objects",
                         VArr (map Cloudflare.object_json
                                 (take (Nat.min cap 1000) (bucket st))))] |},
     log (CallCloudflare
            (R2ListObjects (accountId env) (bucketName env) (apiToken env)
               None (Some 1000%nat))) st).
Proof.
  intros Hcfg Hapi. unfold get_r2_objects, fetch. run.
  rewrite Hcfg, Hapi. cbn -[take Nat.min]. unfold c_json.
  cbn -[take Nat.min]. rewrite filter_under_None. do 3 f_equal.
  cbn -[take Nat.min]. by rewrite to_json_objects.
Qed.

Lemma prefix_append p s : String.prefix p (p +:+ s) = true.
Proof.
  induction p as [|c p IH].
  - by destruct s.
  - change (String c p +:+ s) with (String c (p +:+ s)). cbn [String.prefix].
    by destruct (Ascii.ascii_dec c c).
Qed.

Lemma crowded_under_b1 :
  List.filter (Cloudflare.under (Some "b1/")) (bucket Fixtures.crowded)
  = bucket Fixtures.crowded.
Proof.
  unfold Fixtures.crowded. cbn [bucket]. generalize (seq 0 1001).
  intros l. induction l as [|i l IH]; [done|].
  rewrite map_cons.
  change (List.filter ?p (?o :: ?os))
    with (if p o then o :: List.filter p os else List.filter p os).
  rewrite IH. unfold Cloudflare.under. cbn [key]. by rewrite prefix_append.
Qed.

(** A prefix that holds more objects than one page has is not listed
    whole. *)
Lemma first_page_misses env cap st prefix :
  r2_config_empty env = false →
  cloudflare env = Cloudflare.api Cloudflare.Nested cap →
  (Nat.min cap 1000
   < length (List.filter (Cloudflare.under (Some prefix)) (bucket st)))%nat →
  ¬ lists_whole_prefix env st prefix.
Proof.
  intros Hcfg Hapi Hmore (r & st' & objects & Hget & Hobjects & Hall).
  rewrite (get_r2_objects_first_page env cap st Hcfg Hapi) in Hget.
  injection Hget as <- <-.
  change (VArr (map Cloudflare.object_json
                  (take (Nat.min cap 1000) (bucket st))) = VArr objects)
    in Hobjects.
  injection Hobjects as <-.
  apply (f_equal length) in Hall. rewrite !length_map, length_take in Hall.
  lia.
Qed.

(** C8, as stated, fails: of the 1001 objects stored under [b1/] the listing
    returns the first page of 1000 and never asks for the rest. *)
Lemma listing_stops_at_first_page :
  ¬ lists_whole_prefix Fixtures.reachable Fixtures.crowded "b1/".
Proof.
  apply (first_page_misses Fixtures.reachable 1000); [reflexivity..|].
  rewrite crowded_under_b1. unfold Fixtures.crowded. cbn [bucket].
  rewrite length_map, length_seq. apply Nat.ltb_lt. reflexivity.
Qed.

(** C8, amended: whatever the account answers, the listing, with the R2
    configuration present, sends a single request, for up to 1000 objects
    and without a prefix, leaves the bucket alone and returns what that one
    answer holds under [result.objects] when it is [ok] and can be read (a
    failure otherwise), never following a truncation marker. Against an
    account that lists under [result.objects] this is the first page of the
    bucket, so that the objects stored under a prefix are all among the
    returned entries when the whole bucket fits in that one page; against
    an account that lists under [result] itself it returns no objects at
    all. *)
Theorem listing_returns_first_page env st :
  r2_config_empty env = false →
  let request :=
    R2ListObjects (accountId env) (bucketName env) (apiToken env) None
      (Some 1000%nat) in
  ∃ r st',
    get_r2_objects env st = (Return r, st')
    ∧ trace st' = trace st ++ [CallCloudflare request]
    ∧ bucket st' = bucket st
    ∧ match cloudflare env (log (CallCloudflare request) st) request with
      | Return answer =>
          if ok answer then
            match json answer with
            | Return data =>
                match get data "result" with
                | Return result =>
                    match get result "objects" with
                    | Return objects =>
                        r = c_json (VObj [("success", VBool true);
                                          ("objects", objects)]) 200
                    | Throw e =>
                        r = failure_response (error_text_or_unknown e) 500
                    end
                | Throw e => r = failure_response (error_text_or_unknown e) 500
                end
            | Throw e => r = failure_response (error_text_or_unknown e) 500
            end
          else status r = 500%nat ∧ get_opt (body r) "success" = VBool false
      | Throw e => r = failure_response (error_text_or_unknown e) 500
      end
    ∧ ∀ shape cap,
        cloudflare env = Cloudflare.api shape cap →
        match shape with
        | Cloudflare.Nested =>
            r = c_json (VObj [("success", VBool true);
                              ("objects",
                               VArr (map Cloudflare.object_json
                                       (take (Nat.min cap 1000)
                                          (bucket st))))]) 200
            ∧ ((length (bucket st) ≤ Nat.min cap 1000)%nat →
               ∀ prefix,
                 List.filter (Cloudflare.under (Some prefix))
                   (take (Nat.min cap 1000) (bucket st))
                 = List.filter (Cloudflare.under (Some prefix)) (bucket st))
        | Cloudflare.Flat => r = c_json (VObj [("success", VBool true)]) 200
        end.
Proof.
  intros Hcfg request.
  assert (∃ r st',
            get_r2_objects env st = (Return r, st')
            ∧ trace st' = trace st ++ [CallCloudflare request]
            ∧ bucket st' = bucket st
            ∧ match cloudflare env (log (CallCloudflare request) st) request
              with
              | Return answer =>
                  if ok answer then
                    match json answer with
                    | Return data =>
                        match get data "result" with
                        | Return result =>
                            match get result "objects" with
                            | Return objects =>
                                r = c_json (VObj [("success", VBool true);
                                                  ("objects", objects)]) 200
                            | Throw e =>
                                r = failure_response
                                      (error_text_or_unknown e) 500
                            end
                        | Throw e =>
                            r = failure_response (error_text_or_unknown e) 500
                        end
                    | Throw e =>
                        r = failure_response (error_text_or_unknown e) 500
                    end
                  else status r = 500%nat
                       ∧ get_opt (body r) "success" = VBool false
              | Throw e => r = failure_response (error_text_or_unknown e) 500
              end) as (r & st' & Hget & Htrace & Hbucket & Hanswer).
  { unfold get_r2_objects, fetch. run. rewrite Hcfg. fold request.
    destruct (cloudflare env _ request) as [answer | e];
      cbn -[c_json failure_response]; [|by eexists _, _].
    destruct (ok answer); cbn -[c_json failure_response].
    - destruct (json answer) as [data | e]; cbn -[c_json failure_response];
        [|by eexists _, _].
      destruct (get data "result") as [result | e];
        cbn -[c_json failure_response]; [|by eexists _, _].
      destruct (get result "objects") as [objects | e];
        cbn -[c_json failure_response]; by eexists _, _.
    - destruct (json answer); cbn; by eexists _, _. }
  exists r, st'. split; [exact Hget|]. split; [exact Htrace|].
  split; [exact Hbucket|]. split; [exact Hanswer|].
  intros shape cap Hapi. rewrite Hapi in Hanswer. subst request.
  destruct shape; cbn -[take Nat.min c_json] in Hanswer.
  - rewrite filter_under_None in Hanswer. split; [exact Hanswer|].
    intros Hfits prefix. by rewrite take_ge.
  - exact Hanswer.
Qed.

Lemma listing_returns_first_page_witness :
  ∃ r st',
    get_r2_objects Fixtures.reachable Fixtures.store = (Return r, st')
    ∧ trace st'
      = [CallCloudflare
           (R2ListObjects "account" "bundles" "token" None (Some 1000%nat))]
    ∧ bucket st' = bucket Fixtures.store
    ∧ r = c_json (VObj [("success", VBool true);
                        ("objects",
                         VArr (map Cloudflare.object_json
                                 (bucket Fixtures.store)))]) 200.
Proof.
  destruct (listing_returns_first_page Fixtures.reachable Fixtures.store
              eq_refl) as (r & st' & Hget & Htrace & Hbucket & _ & Hshape).
  exists r, st'. split; [exact Hget|]. split; [exact Htrace|].
  split; [exact Hbucket|].
  exact (proj1 (Hshape Cloudflare.Nested 1000%nat eq_refl)).
Defined.

(** [POST /bundle-sizes] looks for the sizes in one page as well: it sends
    at most one listing request, for up to 1000 objects of the whole
    bucket. *)
Lemma bundle_sizes_lists_once env request_body st :
  let st' := (bundle_sizes env request_body st).2 in
  trace st' = trace st
  ∨ trace st'
    = trace st
        ++ [CallCloudflare
              (R2ListObjects (accountId env) (bucketName env) (apiToken env)
                 None (Some 1000%nat))].
Proof.
  unfold bundle_sizes, fetch. run.
  repeat (cbn -[collect_sizes]; case_innermost); cbn -[collect_sizes];
    repeat match goal with
           | H : (_, _) = (_, _) |- _ => injection H as <- <-
           end; cbn; auto.
Qed.

(* ===================================================================== *)
(** ** Properties of the rest of the console *)
(* ===================================================================== *)

(** *** The channel list *)

Lemma filter_same_twice {A} (f : A → bool) l :
  List.filter f (List.filter f l) = List.filter f l.
Proof.
  induction l as [|x l IH]; [done|]. cbn. destruct (f x) eqn:Hx; [|done].
  cbn. by rewrite Hx, IH.
Qed.

Lemma includes_In data channel :
  Api.includes data channel = true ↔ In channel data.
Proof.
  unfold Api.includes. rewrite List.existsb_exists. split.
  - intros (x & Hin & Heq). apply String.eqb_eq in Heq. by subst.
  - intros Hin. exists channel. by rewrite String.eqb_refl.
Qed.

(** X1: [select] answers [null] without channels; with channels it keeps
    exactly the channels it was given, as they were when [production] is not
    among them, and otherwise with [production] once, in front, and the
    others behind it in their order. *)
Theorem select_puts_production_first :
  Api.select None = None
  ∧ Api.select (Some []) = None
  ∧ ∀ first rest,
      ∃ result,
        Api.select (Some (first :: rest)) = Some result
        ∧ (∀ channel, In channel result ↔ In channel (first :: rest))
        ∧ (if Api.includes (first :: rest) Api.DEFAULT_CHANNEL then
             ∃ others,
               result = Api.DEFAULT_CHANNEL :: others
               ∧ ¬ In Api.DEFAULT_CHANNEL others
               ∧ others
                 = List.filter
                     (λ channel,
                        negb (String.eqb channel Api.DEFAULT_CHANNEL))
                     (first :: rest)
           else result = first :: rest).
Proof.
  split; [done|]. split; [done|]. intros first rest.
  unfold Api.select.
  destruct (Api.includes (first :: rest) Api.DEFAULT_CHANNEL) eqn:Hinc.
  - eexists. split; [reflexivity|]. split.
    + intros channel. cbn [In]. rewrite List.filter_In. split.
      * intros [<- | [Hin _]]; [|done].
        exact (proj1 (includes_In (first :: rest) Api.DEFAULT_CHANNEL) Hinc).
      * intros Hin.
        destruct (String.eqb_spec channel Api.DEFAULT_CHANNEL) as [-> | Hne];
          [by left|].
        right. by split.
    + eexists. split; [reflexivity|]. split; [|reflexivity].
      rewrite List.filter_In. intros [_ Hneq].
      by rewrite String.eqb_refl in Hneq.
  - eexists. split; [reflexivity|]. split; [done|reflexivity].
Qed.

Lemma select_with_production first rest :
  Api.includes (first :: rest) Api.DEFAULT_CHANNEL = true →
  Api.select (Some (first :: rest))
  = Some (Api.DEFAULT_CHANNEL
            :: List.filter
                 (λ channel, negb (String.eqb channel Api.DEFAULT_CHANNEL))
                 (first :: rest)).
Proof. intros Hinc. unfold Api.select. by rewrite Hinc. Qed.

(** X2: [select] applied to its own answer changes nothing. *)
Theorem select_idempotent data :
  Api.select (Api.select data) = Api.select data.
Proof.
  destruct data as [[|first rest]|]; [done| |done].
  destruct (Api.includes (first :: rest) Api.DEFAULT_CHANNEL) eqn:Hinc.
  - rewrite (select_with_production first rest Hinc).
    remember (List.filter _ (first :: rest)) as others eqn:Hothers.
    rewrite select_with_production by (apply includes_In; by left).
    do 2 f_equal.
    change (List.filter ?f (?x :: ?l))
      with (if f x then x :: List.filter f l else List.filter f l).
    cbn beta. rewrite String.eqb_refl. cbn [negb].
    subst others. apply filter_same_twice.
  - unfold Api.select at 2. rewrite Hinc. unfold Api.select. by rewrite Hinc.
Qed.

(** *** The selection of rows *)

Lemma table_includes_In selected rowId :
  Table.includes selected rowId = true ↔ In rowId selected.
Proof.
  unfold Table.includes. rewrite List.existsb_exists. split.
  - intros (x & Hin & Heq). apply String.eqb_eq in Heq. by subst.
  - intros Hin. exists rowId. by rewrite String.eqb_refl.
Qed.

Lemma filter_others_id (rowId : string) selected :
  ¬ In rowId selected →
  List.filter (λ id, negb (String.eqb id rowId)) selected = selected.
Proof.
  intros Hnot. apply List.forallb_filter_id. apply List.forallb_forall.
  intros id Hin. apply negb_true_iff, String.eqb_neq. by intros ->.
Qed.

(** X3: [toggleRowSelection] flips whether the row is selected and nothing
    else: every other id is selected after exactly when it was before, and a
    selection without repetition stays without repetition. *)
Theorem toggleRowSelection_flips_one_row selected rowId :
  (In rowId (Table.toggleRowSelection selected rowId) ↔ ¬ In rowId selected)
  ∧ (∀ id, id ≠ rowId →
       (In id (Table.toggleRowSelection selected rowId) ↔ In id selected))
  ∧ (List.NoDup selected →
     List.NoDup (Table.toggleRowSelection selected rowId)).
Proof.
  unfold Table.toggleRowSelection.
  destruct (Table.includes selected rowId) eqn:Hinc.
  - apply table_includes_In in Hinc. split; [|split].
    + rewrite List.filter_In, String.eqb_refl. cbn. split; [by intros []|done].
    + intros id Hne. rewrite List.filter_In. split; [by intros []|].
      intros Hin. split; [done|]. by apply negb_true_iff, String.eqb_neq.
    + apply List.NoDup_filter.
  - assert (¬ In rowId selected) as Hnot.
    { intros Hin. apply table_includes_In in Hin. congruence. }
    split; [|split].
    + rewrite List.in_app_iff. cbn. split; [done|]. intros _. by right; left.
    + intros id Hne. rewrite List.in_app_iff. cbn.
      split; [|by left]. intros [Hin | [-> | []]]; done.
    + intros Hnodup. apply List.NoDup_app; [done| |].
      * constructor; [by intros []|constructor].
      * intros a Hin [<- | []]. done.
Qed.

(** X4: toggling a row twice gives back the selection itself when the row
    was not selected, and in any case a selection with the same ids. *)
Theorem toggleRowSelection_twice selected rowId :
  let twice :=
    Table.toggleRowSelection (Table.toggleRowSelection selected rowId) rowId in
  (∀ id, In id twice ↔ In id selected)
  ∧ (if Table.includes selected rowId then True else twice = selected).
Proof.
  intros twice. subst twice.
  destruct (Table.includes selected rowId) eqn:Hinc.
  - split; [|done]. apply table_includes_In in Hinc.
    unfold Table.toggleRowSelection at 2.
    rewrite (proj2 (table_includes_In selected rowId) Hinc).
    unfold Table.toggleRowSelection.
    destruct (Table.includes _ rowId) eqn:Hinc2.
    { apply table_includes_In, List.filter_In in Hinc2.
      destruct Hinc2 as [_ Hneq]. by rewrite String.eqb_refl in Hneq. }
    intros id. rewrite List.in_app_iff, List.filter_In. cbn. split.
    + intros [[Hin _] | [<- | []]]; done.
    + intros Hin. destruct (String.eqb_spec id rowId) as [-> | Hne];
        [by right; left|].
      left. by split.
  - assert (¬ In rowId selected) as Hnot.
    { intros Hin. apply table_includes_In in Hin. congruence. }
    assert (Table.toggleRowSelection
              (Table.toggleRowSelection selected rowId) rowId = selected) as ->.
    { unfold Table.toggleRowSelection at 2. rewrite Hinc.
      unfold Table.toggleRowSelection, Table.includes.
      rewrite List.existsb_app. cbn. rewrite String.eqb_refl, orb_true_r.
      rewrite List.filter_app. cbn. rewrite String.eqb_refl. cbn.
      by rewrite app_nil_r, filter_others_id. }
    done.
Qed.

(** X5: on a page that is not empty, a click on the header checkbox flips
    what that checkbox shows: checked becomes unchecked with the selection
    emptied, unchecked becomes checked with exactly the ids of the page
    selected. *)
Theorem toggleSelectAll_flips_the_header selected first rest :
  let bundleIds := first :: rest in
  let after := Table.toggleSelectAll selected bundleIds in
  Table.all_checked after bundleIds
  = negb (Table.all_checked selected bundleIds)
  ∧ after = (if Table.all_checked selected bundleIds then [] else bundleIds).
Proof.
  intros bundleIds after. subst after bundleIds.
  unfold Table.toggleSelectAll, Table.all_checked.
  destruct (Nat.eqb_spec (length selected) (length (first :: rest)))
    as [Heq | Hne]; cbn.
  - done.
  - by rewrite Nat.eqb_refl.
Qed.

(** *** The handlers that call Cloudflare for one object or one row *)

(** X6: with the R2 configuration present, [POST /r2/delete/:bundleId]
    sends exactly one request, the deletion of [{bundleId}/bundle.zip], and
    answers with what Cloudflare said: [success] is the [ok] of the answer,
    under status 200 also when the deletion was refused; only a [fetch] that
    throws gives the 500 failure. *)
Theorem r2_delete_answers_as_cloudflare env bundleId st :
  r2_config_missing (process_env env) = false →
  let request :=
    R2DeleteObject (accountId env) (bucketName env) (apiToken env)
      (bundleId +:+ "/bundle.zip") in
  ∃ r st',
    r2_delete env bundleId st = (Return r, st')
    ∧ trace st' = trace st ++ [CallCloudflare request]
    ∧ match cloudflare env (log (CallCloudflare request) st) request with
      | Return answer =>
          status r = 200%nat ∧ get_opt (body r) "success" = VBool (ok answer)
      | Throw e => r = failure_response (error_text e) 500
      end.
Proof.
  intros Hcfg request. unfold r2_delete, fetch. run. rewrite Hcfg. cbn.
  fold request.
  destruct (cloudflare env _ request) as [answer | e]; cbn.
  - destruct (ok answer) eqn:Hok; cbn.
    + by eexists _, _.
    + destruct (json answer); cbn; by eexists _, _.
  - by eexists _, _.
Qed.

Lemma r2_delete_answers_as_cloudflare_witness :
  ∃ r st',
    r2_delete Fixtures.flaky "b2" Fixtures.store = (Return r, st')
    ∧ trace st'
      = trace Fixtures.store
          ++ [CallCloudflare
                (R2DeleteObject "account" "bundles" "token" "b2/bundle.zip")]
    ∧ status r = 200%nat ∧ get_opt (body r) "success" = VBool false.
Proof.
  apply (r2_delete_answers_as_cloudflare Fixtures.flaky "b2" Fixtures.store).
  reflexivity.
Defined.

(** X7: [DELETE /r2/object] rejects a body whose [key] is missing or falsy
    with status 400 before it looks at the configuration or calls anything;
    with a key and the configuration it sends exactly one deletion request,
    whose URL ends in the key written as it is, without encoding (so that
    the reading of the URL, not the handler, decides which object is
    named), and answers 200 with [success: true] when Cloudflare accepted
    and 500 with [success: false] otherwise. *)
Theorem delete_r2_object_checks_then_deletes env props st :
  let k := get_opt (VObj props) "key" in
  let request :=
    R2DeleteObjectAt (accountId env) (bucketName env) (apiToken env)
      (to_text k) in
  if truthy k then
    if r2_config_empty env then
      delete_r2_object env (Return (VObj props)) st
      = (Return (failure_response "Thiếu thông tin cấu hình Cloudflare" 400),
         st)
    else
      ∃ r st',
        delete_r2_object env (Return (VObj props)) st = (Return r, st')
        ∧ trace st' = trace st ++ [CallCloudflare request]
        ∧ match cloudflare env (log (CallCloudflare request) st) request with
          | Return answer =>
              status r = (if ok answer then 200 else 500)%nat
              ∧ get_opt (body r) "success" = VBool (ok answer)
          | Throw e => r = failure_response (error_text_or_unknown e) 500
          end
  else
    delete_r2_object env (Return (VObj props)) st
    = (Return (failure_response "Key không được cung cấp" 400), st).
Proof.
  intros k request. unfold delete_r2_object, fetch. run. cbn [get].
  change (default VUndefined (assoc "key" props)) with k.
  destruct (truthy k) eqn:Hk; cbn [negb]; [|reflexivity].
  destruct (r2_config_empty env) eqn:Hcfg; [reflexivity|].
  cbn [log trace]. fold request.
  destruct (cloudflare env _ request) as [answer | e]; cbn [fst snd].
  - destruct (ok answer) eqn:Hok; cbn [negb].
    + by eexists _, _.
    + destruct (json answer) as [errorData | e]; cbn.
      * destruct (get errorData "errors") as [errors | e]; cbn;
          [|by eexists _, _].
        destruct errors as [| | | | |[|e0 es]|]; cbn; try by eexists _, _.
        destruct (get e0 "message"); [|by eexists _, _].
        destruct (object_messages es); by eexists _, _.
      * by eexists _, _.
  - by eexists _, _.
Qed.

Lemma tally_positive entries :
  (0 <? tally_of entries) = existsb succeeded entries.
Proof.
  unfold tally_of. induction entries as [|entry entries IH]; [done|].
  cbn [List.filter existsb]. destruct (succeeded entry); [|exact IH].
  cbn [length orb]. apply Z.ltb_lt. lia.
Qed.

(** X8: the bulk object delete rejects whatever is not a non-empty array
    with status 400, before it looks at the configuration or calls anything;
    and with the configuration present its [success] says whether at least
    one key was deleted, under status 200 even when every deletion
    failed. *)
Theorem delete_r2_objects_success_is_any_deleted env request_body st :
  match request_body with
  | VArr (k :: rest) =>
      if r2_config_missing (process_env env) then True
      else
        ∃ r st' results,
          delete_r2_objects env (Return request_body) st = (Return r, st')
          ∧ status r = 200%nat
          ∧ get_opt (body r) "results" = VArr results
          ∧ get_opt (body r) "success" = VBool (existsb succeeded results)
  | _ =>
      delete_r2_objects env (Return request_body) st
      = (Return
           (failure_response "Danh sách keys không hợp lệ hoặc trống" 400),
         st)
  end.
Proof.
  destruct request_body as [| | | | |[|k rest]|]; try reflexivity.
  destruct (r2_config_missing (process_env env)) eqn:Hcfg; [done|].
  destruct (delete_each_spec env (k :: rest) [] 0 st)
    as (new & st' & Hloop & Hlen & Htr).
  unfold delete_r2_objects. run. cbn [fst snd]. rewrite Hcfg, Hloop.
  eexists _, st', (map to_json new). split; [reflexivity|].
  rewrite <- tally_positive. done.
Qed.

(** X9: [POST /bundles/:bundleId/delete-d1] without the D1 configuration
    answers 400 and calls nothing; with it, it sends exactly one request, the
    deletion of the row, and answers 200 with [success: true] when the
    database accepted it and its answer could be read, and 500 with
    [success: false] otherwise. *)
Theorem delete_d1_answers_as_the_database env bundleId st :
  let request :=
    D1DeleteBundle (accountId env)
      (or_empty (HOT_UPDATER_CLOUDFLARE_D1_DATABASE_ID (process_env env)))
      (apiToken env) bundleId in
  if d1_config_missing (process_env env) then
    delete_d1 env bundleId st
    = (Return (failure_response "Thiếu thông tin cấu hình Cloudflare D1" 400),
       st)
  else
    ∃ r st',
      delete_d1 env bundleId st = (Return r, st')
      ∧ trace st' = trace st ++ [CallCloudflare request]
      ∧ match cloudflare env (log (CallCloudflare request) st) request with
        | Return answer =>
            match json answer with
            | Return _ =>
                status r = (if ok answer then 200 else 500)%nat
                ∧ get_opt (body r) "success" = VBool (ok answer)
            | Throw e =>
                if ok answer then r = failure_response (error_text e) 500
                else status r = 500%nat
                     ∧ get_opt (body r) "success" = VBool false
            end
        | Throw e => r = failure_response (error_text e) 500
        end.
Proof.
  intros request. unfold delete_d1, fetch. run.
  destruct (d1_config_missing (process_env env)); [reflexivity|].
  cbn [log trace]. fold request.
  destruct (cloudflare env _ request) as [answer | e]; cbn [fst snd].
  - destruct (ok answer) eqn:Hok; cbn [negb].
    + destruct (json answer) as [d1Result | e]; cbn; by eexists _, _.
    + destruct (json answer) as [d1Result | e]; cbn; by eexists _, _.
  - by eexists _, _.
Qed.

(** *** Disabling, and the soft delete seen from the browser *)

Lemma disable_bundle_outcome env cfg bundleId st :
  prepareConfig env = Return cfg →
  ∃ st',
    bucket st' = bucket st
    ∧ match metadata_fault (databasePlugin cfg) bundleId with
      | None =>
          disable_bundle env bundleId st
          = (Return
               {| status := 200;
                  body := VObj [("success", VBool true);
                                ("message", VStr "Bundle đã bị vô hiệu hóa thành công")] |},
             st')
          ∧ trace st'
            = trace st ++ [CallUpdateBundle bundleId enabled_false;
                           CallCommitBundle]
          ∧ rows st' !! bundleId
            = patch enabled_false <$> flush (staged st) (rows st) !! bundleId
      | Some e =>
          disable_bundle env bundleId st
          = (Return (unknown_error_response e), st')
          ∧ rows st' = rows st
          ∧ ∃ calls,
              trace st' = trace st ++ calls
              ∧ forallb (λ c, match c with
                              | CallUpdateBundle _ _ | CallCommitBundle => true
                              | _ => false
                              end) calls = true
      end.
Proof.
  intros Hcfg. unfold metadata_fault, disable_bundle, updateBundle, commitBundle.
  run. rewrite Hcfg. cbn.
  destruct (update_fault (databasePlugin cfg) bundleId) as [e|]; cbn.
  - eexists. split; [|split; [reflexivity|split; [reflexivity|]]]; [done|].
    by eexists [_].
  - destruct (commit_fault (databasePlugin cfg)) as [e|]; cbn.
    + eexists. split; [|split; [reflexivity|split; [reflexivity|]]]; [done|].
      exists [CallUpdateBundle bundleId enabled_false; CallCommitBundle].
      cbn [log trace]. by rewrite <- app_assoc.
    + eexists. split; [|split; [reflexivity|split]]; [done| |].
      * cbn [log trace]. by rewrite <- app_assoc.
      * cbn [log rows staged]. by rewrite <- flush_snoc_lookup.
Qed.

(** X10: [POST /bundles/:bundleId/disable] asks nothing of the storage: it
    calls the database plugin only and leaves the bucket as it is. When
    update and commit go through it answers [success: true] and the record
    is disabled; when one of them throws, or the configuration cannot be
    loaded, it answers status 500 with a body that holds the error alone,
    and the rows are as before. *)
Theorem disable_bundle_touches_metadata_only env bundleId st :
  match prepareConfig env with
  | Throw e =>
      disable_bundle env bundleId st = (Return (unknown_error_response e), st)
  | Return cfg =>
      ∃ st',
        bucket st' = bucket st
        ∧ match metadata_fault (databasePlugin cfg) bundleId with
          | None =>
              disable_bundle env bundleId st
              = (Return
                   {| status := 200;
                      body := VObj [("success", VBool true);
                                    ("message", VStr "Bundle đã bị vô hiệu hóa thành công")] |},
                 st')
              ∧ trace st'
                = trace st ++ [CallUpdateBundle bundleId enabled_false;
                               CallCommitBundle]
              ∧ rows st' !! bundleId
                = patch enabled_false
                    <$> flush (staged st) (rows st) !! bundleId
          | Some e =>
              disable_bundle env bundleId st
              = (Return (unknown_error_response e), st')
              ∧ rows st' = rows st
              ∧ ∃ calls,
                  trace st' = trace st ++ calls
                  ∧ forallb (λ c, match c with
                                  | CallUpdateBundle _ _
                                  | CallCommitBundle => true
                                  | _ => false
                                  end) calls = true
          end
  end.
Proof.
  destruct (prepareConfig env) as [cfg | e] eqn:Hcfg.
  - by apply disable_bundle_outcome.
  - unfold disable_bundle. run. by rewrite Hcfg.
Qed.

(** What the disable and the soft delete leave of the metadata when the
    update or the commit fails: the rows as they were, and nothing staged
    that was not staged before. *)
Lemma disable_bundle_fails env cfg bundleId st e :
  prepareConfig env = Return cfg →
  metadata_fault (databasePlugin cfg) bundleId = Some e →
  ∃ st',
    disable_bundle env bundleId st = (Return (unknown_error_response e), st')
    ∧ rows st' = rows st
    ∧ (staged st' = staged st ∨ staged st' = []).
Proof.
  intros Hcfg Hfault.
  unfold disable_bundle, metadata_fault, updateBundle, commitBundle in *. run.
  rewrite Hcfg. cbn.
  destruct (update_fault (databasePlugin cfg) bundleId) as [e0|]; cbn.
  - injection Hfault as ->. eexists. split; [reflexivity|]. cbn. auto.
  - rewrite Hfault. cbn. eexists. split; [reflexivity|]. cbn. auto.
Qed.

Lemma delete_bundle_fails env cfg bundleId st e :
  prepareConfig env = Return cfg →
  metadata_fault (databasePlugin cfg) bundleId = Some e →
  let stored := (storage_step cfg bundleId st).2 in
  ∃ st',
    delete_bundle env bundleId st
    = (Return (failure_response (error_text e) 500), st')
    ∧ rows st' = rows stored
    ∧ (staged st' = staged stored ∨ staged st' = []).
Proof.
  intros Hcfg Hfault stored. subst stored.
  destruct (storage_step_returns cfg bundleId st) as (v & st1 & Hs & _).
  unfold delete_bundle, disable_step, metadata_fault, updateBundle,
    commitBundle in *. run.
  rewrite Hcfg. cbn. rewrite Hs. cbn.
  destruct (update_fault (databasePlugin cfg) bundleId) as [e0|]; cbn.
  - injection Hfault as ->. eexists. split; [reflexivity|]. cbn. auto.
  - rewrite Hfault. cbn. eexists. split; [reflexivity|]. cbn. auto.
Qed.

(** X11: for a bundle id that reaches its routes (not empty; letters,
    digits, [-] and [_]), when the update or the commit fails on the server
    the two wrappers tell the caller opposite things: [disableBundle]
    returns [success: true] (next to the error, the server's body having no
    [success]), while [deleteBundle] returns [success: false]. In neither
    case is the record disabled, then or by a later commit: the rows are as
    they were (for the soft delete, as the storage block left them) and
    nothing is staged that was not staged before. *)
Theorem failed_commit_through_the_wrappers env cfg bundleId b e :
  plain_id bundleId = true →
  online env →
  prepareConfig (Client.server env) = Return cfg →
  metadata_fault (databasePlugin cfg) bundleId = Some e →
  let stored := (storage_step cfg bundleId (Client.backends b)).2 in
  (∃ b',
     Client.disableBundle env bundleId b
     = (Return (VObj [("success", VBool true);
                      ("error", VStr (error_text_or_unknown e))]), b')
     ∧ rows (Client.backends b') = rows (Client.backends b)
     ∧ (staged (Client.backends b') = staged (Client.backends b)
        ∨ staged (Client.backends b') = []))
  ∧ (∃ b',
       Client.deleteBundle env bundleId b
       = (Return (VObj [("success", VBool false);
                        ("error", VStr (error_text e))]), b')
       ∧ rows (Client.backends b') = rows stored
       ∧ (staged (Client.backends b') = staged stored
          ∨ staged (Client.backends b') = [])).
Proof.
  intros _ Honline Hcfg Hfault stored. split.
  - destruct (disable_bundle_fails (Client.server env) cfg bundleId
                (Client.backends b) e Hcfg Hfault)
      as (st' & Hout & Hrows & Hstaged).
    unfold Client.disableBundle, Client.request. run.
    rewrite Honline. cbn [Client.backends]. rewrite Hout.
    eexists. split; [by destruct e|]. by split.
  - destruct (delete_bundle_fails (Client.server env) cfg bundleId
                (Client.backends b) e Hcfg Hfault)
      as (st' & Hout & Hrows & Hstaged).
    unfold Client.deleteBundle, Client.request. run.
    rewrite Honline. cbn [Client.backends]. rewrite Hout.
    eexists. split; [reflexivity|]. by split.
Qed.

Lemma failed_commit_through_the_wrappers_witness :
  (∃ b',
     Client.disableBundle (Fixtures.online Fixtures.refused_commit) "b1"
       (Fixtures.browser Fixtures.store)
     = (Return (VObj [("success", VBool true);
                      ("error", VStr "D1_ERROR: database is locked")]), b')
     ∧ rows (Client.backends b') = rows Fixtures.store
     ∧ (staged (Client.backends b') = staged Fixtures.store
        ∨ staged (Client.backends b') = []))
  ∧ (∃ b',
       Client.deleteBundle (Fixtures.online Fixtures.refused_commit) "b1"
         (Fixtures.browser Fixtures.store)
       = (Return (VObj [("success", VBool false);
                        ("error", VStr "D1_ERROR: database is locked")]), b')
       ∧ rows (Client.backends b') = rows Fixtures.store
       ∧ (staged (Client.backends b') = staged Fixtures.store
          ∨ staged (Client.backends b') = [])).
Proof.
  apply (failed_commit_through_the_wrappers
           (Fixtures.online Fixtures.refused_commit)
           {| storage := None; databasePlugin := Fixtures.refusing |}
           "b1" (Fixtures.browser Fixtures.store)
           (ErrorObj "D1_ERROR: database is locked")).
  - reflexivity.
  - intros b path. reflexivity.
  - reflexivity.
  - reflexivity.
Defined.

(** X12: [complete-delete] disables first: when the update or the commit
    throws it answers the 500 failure with the error's text and has asked
    nothing of the storage; rows and bucket are as before. *)
Theorem complete_delete_stops_at_failed_metadata env cfg bundleId st e :
  prepareConfig env = Return cfg →
  metadata_fault (databasePlugin cfg) bundleId = Some e →
  ∃ st',
    complete_delete env bundleId st
    = (Return (failure_response (error_text e) 500), st')
    ∧ rows st' = rows st
    ∧ bucket st' = bucket st
    ∧ (trace st' = trace st ++ [CallUpdateBundle bundleId enabled_false]
       ∨ trace st'
         = trace st ++ [CallUpdateBundle bundleId enabled_false;
                        CallCommitBundle]).
Proof.
  intros Hcfg Hfault. unfold metadata_fault in Hfault.
  unfold complete_delete, updateBundle, commitBundle. run.
  rewrite Hcfg. cbn.
  destruct (update_fault (databasePlugin cfg) bundleId) as [e'|]; cbn.
  - injection Hfault as ->. eexists. split; [reflexivity|]. cbn. auto.
  - rewrite Hfault. cbn. eexists. split; [reflexivity|]. cbn.
    rewrite <- app_assoc. auto.
Qed.

Lemma complete_delete_stops_at_failed_metadata_witness :
  ∃ st',
    complete_delete Fixtures.refused_commit "b2" Fixtures.store
    = (Return (failure_response "D1_ERROR: database is locked" 500), st')
    ∧ rows st' = rows Fixtures.store
    ∧ bucket st' = bucket Fixtures.store
    ∧ (trace st'
       = trace Fixtures.store ++ [CallUpdateBundle "b2" enabled_false]
       ∨ trace st'
         = trace Fixtures.store ++ [CallUpdateBundle "b2" enabled_false;
                                    CallCommitBundle]).
Proof.
  apply (complete_delete_stops_at_failed_metadata Fixtures.refused_commit
           {| storage := None; databasePlugin := Fixtures.refusing |}
           "b2" Fixtures.store (ErrorObj "D1_ERROR: database is locked")).
  - reflexivity.
  - reflexivity.
Defined.

(** X13: once the record is disabled, a listing that Cloudflare refuses
    does not fail [complete-delete]: it answers status 200 with
    [success: true] and a message that carries the status text, having sent
    the listing request and nothing after it. *)
Theorem complete_delete_survives_a_refused_listing
    env cfg bundleId st answer :
  prepareConfig env = Return cfg →
  metadata_fault (databasePlugin cfg) bundleId = None →
  r2_config_missing (process_env env) = false →
  (∀ st', cloudflare env st'
            (R2ListObjects (accountId env) (bucketName env) (apiToken env)
               (Some bundleId) None) = Return answer) →
  ok answer = false →
  ∃ st',
    complete_delete env bundleId st
    = (Return
         {| status := 200;
            body :=
              VObj [("success", VBool true);
                    ("message",
                     VStr ("Bundle đã bị vô hiệu hóa trong database, nhưng không thể liệt kê file trong R2: "
                             +:+ statusText answer))] |},
       st')
    ∧ trace st'
      = trace st
          ++ [CallUpdateBundle bundleId enabled_false; CallCommitBundle;
              CallCloudflare
                (R2ListObjects (accountId env) (bucketName env)
                   (apiToken env) (Some bundleId) None)]
    ∧ rows st' !! bundleId
      = patch enabled_false <$> flush (staged st) (rows st) !! bundleId
    ∧ bucket st' = bucket st.
Proof.
  intros Hcfg Hfault Hr2 Hlist Hok. unfold metadata_fault in Hfault.
  destruct (update_fault (databasePlugin cfg) bundleId) eqn:Hu; [done|].
  unfold complete_delete, updateBundle, commitBundle, fetch. run.
  rewrite Hcfg. cbn. rewrite Hu. cbn. rewrite Hfault. cbn. rewrite Hr2.
  rewrite Hlist. cbn [fst snd]. rewrite Hok. cbn [negb].
  eexists. split; [reflexivity|]. cbn [log trace rows staged bucket].
  rewrite <- flush_snoc_lookup, <- !app_assoc. by repeat split.
Qed.

Lemma complete_delete_survives_a_refused_listing_witness :
  ∃ st',
    complete_delete Scenarios.list_down "b2" Fixtures.store
    = (Return
         {| status := 200;
            body :=
              VObj [("success", VBool true);
                    ("message",
                     VStr ("Bundle đã bị vô hiệu hóa trong database, nhưng không thể liệt kê file trong R2: "
                             +:+ "Service Unavailable"))] |},
       st')
    ∧ trace st'
      = trace Fixtures.store
          ++ [CallUpdateBundle "b2" enabled_false; CallCommitBundle;
              CallCloudflare
                (R2ListObjects "account" "bundles" "token" (Some "b2") None)]
    ∧ rows st' !! "b2"
      = patch enabled_false
          <$> flush (staged Fixtures.store) (rows Fixtures.store) !! "b2"
    ∧ bucket st' = bucket Fixtures.store.
Proof.
  apply (complete_delete_survives_a_refused_listing Scenarios.list_down
           {| storage := None; databasePlugin := Fixtures.healthy |}
           "b2" Fixtures.store Fixtures.refusal).
  - reflexivity.
  - reflexivity.
  - reflexivity.
  - intros st'. reflexivity.
  - reflexivity.
Defined.

(** X14: whatever the backends answer, [complete-delete] sends no request
    to Cloudflare that deletes an object, and the bucket is afterwards what
    it was. *)
Theorem complete_delete_requests_no_deletion env bundleId st :
  ∃ calls,
    trace (complete_delete env bundleId st).2 = trace st ++ calls
    ∧ forallb (λ c, negb (is_object_deletion c)) calls = true
    ∧ bucket (complete_delete env bundleId st).2 = bucket st.
Proof.
  unfold complete_delete, loopback_delete_objects, updateBundle, commitBundle,
    fetch.
  run.
  repeat (cbn;
          match goal with
          | |- context [delete_r2_objects ?e (Return (VObj ?ps)) ?s] =>
              rewrite (delete_r2_objects_rejects_object e ps s)
          | |- _ => case_innermost
          end);
    cbn;
    first [ by exists []; rewrite app_nil_r
          | eexists; split; [rewrite <- ?app_assoc; reflexivity|done] ].
Qed.

(** *** Updating a bundle *)

Lemma flush_snoc_lookup_ne staged i j p (rows : gmap string Bundle) :
  i ≠ j → flush (staged ++ [(i, p)]) rows !! j = flush staged rows !! j.
Proof. intros Hne. rewrite flush_snoc. by rewrite lookup_alter_ne. Qed.

Lemma patch_bundle_ok env cfg bundleId p st :
  bundleId ≠ "" →
  prepareConfig env = Return cfg →
  metadata_fault (databasePlugin cfg) bundleId = None →
  Routes.patch_bundle env bundleId p st
  = (Return {| status := 200; body := VObj [("success", VBool true)] |},
     {| rows := flush (staged st ++ [(bundleId, p)]) (rows st);
        staged := [];
        bucket := bucket st;
        trace := (trace st ++ [CallUpdateBundle bundleId p])
                   ++ [CallCommitBundle] |}).
Proof.
  intros Hid Hcfg Hfault. unfold metadata_fault in Hfault.
  destruct (update_fault (databasePlugin cfg) bundleId) eqn:Hu; [done|].
  unfold Routes.patch_bundle, updateBundle, commitBundle. run.
  destruct (String.eqb_spec bundleId ""); [done|].
  rewrite Hcfg. cbn. rewrite Hu. cbn. by rewrite Hfault.
Qed.

(** X15: [PATCH /bundles/:bundleId], given a bundle id, with nothing staged
    before and update and commit going through, answers [success: true];
    the row of that id carries the given fields over its old ones, every
    other row and the bucket are untouched, and nothing is left staged. *)
Theorem patch_bundle_updates_one_row env cfg bundleId p st :
  bundleId ≠ "" →
  prepareConfig env = Return cfg →
  metadata_fault (databasePlugin cfg) bundleId = None →
  staged st = [] →
  ∃ st',
    Routes.patch_bundle env bundleId p st
    = (Return {| status := 200; body := VObj [("success", VBool true)] |},
       st')
    ∧ rows st' !! bundleId = patch p <$> rows st !! bundleId
    ∧ (∀ other, other ≠ bundleId → rows st' !! other = rows st !! other)
    ∧ bucket st' = bucket st
    ∧ staged st' = [].
Proof.
  intros Hid Hcfg Hfault Hstaged.
  eexists. split; [by apply (patch_bundle_ok env cfg)|].
  cbn [rows bucket staged]. rewrite Hstaged. cbn [app flush foldl].
  split; [by rewrite lookup_alter_eq|]. split; [|done].
  intros other Hne. by rewrite lookup_alter_ne.
Qed.

Lemma patch_bundle_updates_one_row_witness :
  ∃ st',
    Routes.patch_bundle Fixtures.reachable "b1" Scenarios.enabled_true
      Fixtures.store
    = (Return {| status := 200; body := VObj [("success", VBool true)] |},
       st')
    ∧ rows st' !! "b1"
      = patch Scenarios.enabled_true <$> rows Fixtures.store !! "b1"
    ∧ (∀ other, other ≠ "b1" →
         rows st' !! other = rows Fixtures.store !! other)
    ∧ bucket st' = bucket Fixtures.store
    ∧ staged st' = [].
Proof.
  apply (patch_bundle_updates_one_row Fixtures.reachable
           {| storage := None; databasePlugin := Fixtures.healthy |}
           "b1" Scenarios.enabled_true Fixtures.store);
    [discriminate|reflexivity..].
Defined.

(** X16: a soft delete is undone by a [PATCH] with [{ enabled: true }]:
    with nothing staged and no storage plugin, the row is disabled after the
    delete and enabled after the patch, its other fields as they were, so
    that a row that was enabled is back exactly. *)
Theorem soft_delete_then_patch_restores env cfg bundleId row st :
  bundleId ≠ "" →
  prepareConfig env = Return cfg →
  storage cfg = None →
  metadata_fault (databasePlugin cfg) bundleId = None →
  staged st = [] →
  rows st !! bundleId = Some row →
  let deleted := (delete_bundle env bundleId st).2 in
  let patched :=
    (Routes.patch_bundle env bundleId Scenarios.enabled_true deleted).2 in
  rows deleted !! bundleId = Some (patch enabled_false row)
  ∧ rows patched !! bundleId = Some (patch Scenarios.enabled_true row)
  ∧ (enabled row = true → rows patched !! bundleId = Some row).
Proof.
  intros Hid Hcfg Hstorage Hfault Hstaged Hrow deleted patched.
  assert (update_fault (databasePlugin cfg) bundleId = None
          ∧ commit_fault (databasePlugin cfg) = None) as [Hu Hc].
  { unfold metadata_fault in Hfault.
    by destruct (update_fault (databasePlugin cfg) bundleId). }
  assert (rows deleted !! bundleId = Some (patch enabled_false row)
          ∧ staged deleted = []) as [Hdeleted Hclean].
  { subst deleted. unfold delete_bundle, storage_step, disable_step,
      updateBundle, commitBundle.
    run. rewrite Hcfg. cbn. rewrite Hstorage. cbn. rewrite Hu. cbn.
    rewrite Hc. cbn. rewrite Hstaged. cbn.
    split; [|done]. by rewrite lookup_alter_eq, Hrow. }
  assert (rows patched !! bundleId = Some (patch Scenarios.enabled_true row))
    as Hpatched.
  { subst patched.
    rewrite (patch_bundle_ok env cfg bundleId _ deleted Hid Hcfg Hfault).
    cbn [snd rows]. rewrite flush_snoc_lookup, Hclean. cbn [flush foldl].
    rewrite Hdeleted. by destruct row. }
  split; [done|]. split; [done|].
  intros Henabled. rewrite Hpatched. f_equal. destruct row. cbn in *.
  by subst.
Qed.

Lemma soft_delete_then_patch_restores_witness :
  rows (Routes.patch_bundle Fixtures.reachable "b1" Scenarios.enabled_true
          (delete_bundle Fixtures.reachable "b1" Fixtures.store).2).2
    !! "b1"
  = Some (Fixtures.row "production").
Proof.
  apply (soft_delete_then_patch_restores Fixtures.reachable
           {| storage := None; databasePlugin := Fixtures.healthy |}
           "b1" (Fixtures.row "production") Fixtures.store);
    [discriminate|reflexivity..].
Defined.

(** *** The bulk delete of the server *)

(** X28: [POST /bundles/bulk-delete], given a non-empty array of ids and the
    D1 configuration but not the whole R2 configuration, sends exactly one
    request, the deletion of the rows from D1, and leaves the bucket alone:
    it answers [success: true] with [r2Result: null] when D1 accepted and
    its answer could be read, and status 500 with [success: false]
    otherwise. The missing R2 configuration is not reported. *)
Theorem bulk_delete_leaves_the_bucket_out env bundleId rest st :
  d1_config_missing (process_env env) = false →
  r2_config_missing (process_env env) = true →
  let bundleIds := bundleId :: rest in
  let request :=
    D1DeleteBundles (accountId env)
      (or_empty (HOT_UPDATER_CLOUDFLARE_D1_DATABASE_ID (process_env env)))
      (apiToken env) bundleIds in
  ∃ r st',
    Routes.bulk_delete env (Return (VObj [("bundleIds", VArr bundleIds)])) st
    = (Return r, st')
    ∧ trace st' = trace st ++ [CallCloudflare request]
    ∧ bucket st' = bucket st
    ∧ match cloudflare env (log (CallCloudflare request) st) request with
      | Return answer =>
          if ok answer then
            match json answer with
            | Return d1Result =>
                r = c_json
                      (VObj [("success", VBool true);
                             ("message",
                              VStr ("Đã xóa " +:+ pretty (length bundleIds)
                                      +:+ " bundles từ D1 database"));
                             ("d1Result", d1Result);
                             ("r2Result", VNull)]) 200
            | Throw e => r = failure_response (error_text e) 500
            end
          else status r = 500%nat ∧ get_opt (body r) "success" = VBool false
      | Throw e => r = failure_response (error_text e) 500
      end.
Proof.
  intros Hd1 Hr2 bundleIds request. subst bundleIds.
  unfold Routes.bulk_delete, fetch. run.
  cbn -[c_json failure_response]. rewrite Hd1.
  cbn -[c_json failure_response]. fold request.
  destruct (cloudflare env _ request) as [answer | e];
    cbn -[c_json failure_response]; [|by eexists _, _].
  destruct (ok answer); cbn -[c_json failure_response].
  - destruct (json answer) as [d1Result | e];
      cbn -[c_json failure_response]; [|by eexists _, _].
    rewrite Hr2. cbn -[c_json failure_response].
    by eexists _, _.
  - by eexists _, _.
Qed.

Lemma bulk_delete_leaves_the_bucket_out_witness :
  ∃ r st',
    Routes.bulk_delete Fixtures.unconfigured
      (Return (VObj [("bundleIds", VArr [VStr "b1"; VStr "b2"])]))
      Fixtures.store
    = (Return r, st')
    ∧ trace st'
      = [CallCloudflare
           (D1DeleteBundles "account" "database" "token"
              [VStr "b1"; VStr "b2"])]
    ∧ bucket st' = bucket Fixtures.store
    ∧ r = c_json
            (VObj [("success", VBool true);
                   ("message", VStr "Đã xóa 2 bundles từ D1 database");
                   ("d1Result",
                    VObj [("success", VBool true); ("result", VArr [])]);
                   ("r2Result", VNull)]) 200.
Proof.
  apply (bulk_delete_leaves_the_bucket_out Fixtures.unconfigured (VStr "b1")
           [VStr "b2"] Fixtures.store).
  - reflexivity.
  - reflexivity.
Defined.

(** *** The sizes of the bundles *)

Lemma prefix_of_empty p : String.prefix (p +:+ "/") "" = false.
Proof. by destruct p. Qed.

Lemma find_matching_objects objs bundleId :
  find_matching (map Cloudflare.object_json objs) bundleId
  = Return (match List.find
                    (λ o, String.prefix (bundleId +:+ "/") (key o)) objs with
            | Some o => Cloudflare.object_json o
            | None => VUndefined
            end).
Proof.
  induction objs as [|o objs IH]; [done|].
  cbn [map find_matching List.find].
  change (get (Cloudflare.object_json o) "key") with (Return (VStr (key o))).
  cbn [truthy]. destruct (String.eqb_spec (key o) "") as [Hk | Hk]; cbn [negb].
  - rewrite Hk, prefix_of_empty. exact IH.
  - destruct (String.prefix (bundleId +:+ "/") (key o)); [done|exact IH].
Qed.

Lemma size_of_objects objs bundleId :
  size_of (map Cloudflare.object_json objs) bundleId
  = Return (VNum (first_size objs bundleId)).
Proof.
  unfold size_of, first_size. rewrite find_matching_objects.
  by destruct (List.find _ objs).
Qed.

Lemma collect_sizes_objects objs ids : ∀ fileSizes,
  collect_sizes (map Cloudflare.object_json objs) (map VStr ids) fileSizes
  = Return (foldl (λ sizes id,
                     record_size id (VNum (first_size objs id)) sizes)
              fileSizes ids).
Proof.
  induction ids as [|id ids IH]; intros fileSizes; [done|].
  cbn [map collect_sizes to_text foldl]. rewrite size_of_objects. apply IH.
Qed.

Lemma assoc_foldl_record_size (value : string → Val) ids : ∀ props k,
  assoc k (foldl (λ sizes id, record_size id (value id) sizes) props ids)
  = if negb (String.eqb k "__proto__") && existsb (String.eqb k) ids
    then Some (value k) else assoc k props.
Proof.
  induction ids as [|id ids IH]; intros props k.
  - cbn. by rewrite andb_false_r.
  - cbn [foldl existsb]. rewrite IH. unfold record_size.
    destruct (String.eqb_spec k "__proto__") as [-> | Hk]; cbn [negb andb].
    + destruct (String.eqb_spec id "__proto__") as [-> | Hid]; [done|].
      rewrite assoc_set_prop.
      by destruct (String.eqb_spec "__proto__" id) as [<- | _].
    + destruct (existsb (String.eqb k) ids); [by rewrite orb_true_r|].
      rewrite orb_false_r.
      destruct (String.eqb_spec id "__proto__") as [-> | Hid].
      * by destruct (String.eqb_spec k "__proto__").
      * rewrite assoc_set_prop. by destruct (String.eqb_spec k id) as [-> | ?].
Qed.

Lemma assoc_foldl_set_prop (value : string → Val) ids : ∀ props k,
  assoc k (foldl (λ sizes id, set_prop id (value id) sizes) props ids)
  = if existsb (String.eqb k) ids then Some (value k) else assoc k props.
Proof.
  induction ids as [|id ids IH]; intros props k; [done|].
  cbn [foldl existsb]. rewrite IH, assoc_set_prop.
  destruct (existsb (String.eqb k) ids); [by rewrite orb_true_r|].
  rewrite orb_false_r. destruct (String.eqb_spec k id) as [-> | Hne]; done.
Qed.

Lemma existsb_eqb_In k ids : In k ids → existsb (String.eqb k) ids = true.
Proof.
  intros Hin. apply List.existsb_exists. exists k.
  by rewrite String.eqb_refl.
Qed.

Lemma get_opt_to_json_num props k n :
  assoc k props = Some (VNum n) →
  get_opt (to_json (VObj props)) k = VNum n.
Proof.
  induction props as [|[k' v] props IH]; [done|].
  cbn [assoc]. intros Hassoc.
  destruct (String.eqb k k') eqn:Hk.
  - injection Hassoc as ->. cbn. by rewrite Hk.
  - specialize (IH Hassoc). cbn in IH |- *.
    destruct v; cbn; rewrite ?Hk; exact IH.
Qed.

Lemma get_opt_to_json_none props k :
  assoc k props = None → get_opt (to_json (VObj props)) k = VUndefined.
Proof.
  induction props as [|[k' v] props IH]; [done|].
  cbn [assoc]. destruct (String.eqb k k') eqn:Hk; [done|]. intros Hassoc.
  specialize (IH Hassoc). cbn in IH |- *.
  destruct v; cbn; rewrite ?Hk; exact IH.
Qed.

(** X17: against an account whose listing is the array itself and whose
    objects have sizes that a number holds exactly, [POST /bundle-sizes]
    answers with a size for every id it was asked about but [__proto__]:
    the size of the first object of the first page whose key starts with
    the id and a slash, whatever the file is called, and 0 when the page
    holds no such object. The id [__proto__] gets no entry. *)
Theorem bundle_sizes_reports_first_object env cap st ids :
  r2_config_empty env = false →
  cloudflare env = Cloudflare.api Cloudflare.Flat cap →
  forallb (λ o, safe_integer (size o)) (bucket st) = true →
  ∃ r st',
    bundle_sizes env (Return (VObj [("bundleIds", VArr (map VStr ids))])) st
    = (Return r, st')
    ∧ status r = 200%nat
    ∧ get_opt (body r) "success" = VBool true
    ∧ (∀ id, In id ids → id ≠ "__proto__" →
         get_opt (get_opt (body r) "fileSizes") id
         = VNum (first_size (take (Nat.min cap 1000) (bucket st)) id))
    ∧ get_opt (get_opt (body r) "fileSizes") "__proto__" = VUndefined.
Proof.
  intros Hcfg Hapi _. unfold bundle_sizes, fetch. run.
  cbn -[collect_sizes take Nat.min]. rewrite Hcfg, Hapi.
  cbn -[collect_sizes take Nat.min]. rewrite filter_under_None.
  rewrite collect_sizes_objects. eexists _, _. split; [reflexivity|].
  split; [done|]. split; [done|].
  unfold c_json. cbn [body].
  change (get_opt (to_json (VObj [("success", VBool true);
                                  ("fileSizes", VObj ?sizes)])) "fileSizes")
    with (to_json (VObj sizes)).
  split.
  - intros id Hin Hid. apply get_opt_to_json_num.
    rewrite assoc_foldl_record_size, existsb_eqb_In by done.
    by destruct (String.eqb_spec id "__proto__").
  - apply get_opt_to_json_none. by rewrite assoc_foldl_record_size.
Qed.

Lemma bundle_sizes_reports_first_object_witness :
  ∃ r st',
    bundle_sizes Fixtures.flat
      (Return (VObj [("bundleIds", VArr (map VStr ["b2"; "missing-id"]))]))
      Fixtures.store
    = (Return r, st')
    ∧ status r = 200%nat
    ∧ get_opt (body r) "success" = VBool true
    ∧ (∀ id, In id ["b2"; "missing-id"] → id ≠ "__proto__" →
         get_opt (get_opt (body r) "fileSizes") id
         = VNum (first_size (take (Nat.min 1000 1000) (bucket Fixtures.store))
                   id))
    ∧ get_opt (get_opt (body r) "fileSizes") "__proto__" = VUndefined.
Proof.
  apply (bundle_sizes_reports_first_object Fixtures.flat 1000 Fixtures.store
           ["b2"; "missing-id"]).
  - reflexivity.
  - reflexivity.
  - reflexivity.
Defined.

(** *** The size cache, beyond a recorded zero *)

(** What [getFileSizes] returns is read from the cache as the call leaves
    it, and the call sends one request or none. *)
Lemma getFileSizes_shape env ids b :
  ∃ b',
    Client.getFileSizes env ids b
    = (Return (foldl (λ fileSizes id,
                        set_prop id (or (Client.cached b' id) (VNum 0))
                          fileSizes) [] ids), b')
    ∧ (Client.requests b' = Client.requests b
       ∨ Client.requests b'
         = Client.requests b ++ [("POST", "/rpc/bundle-sizes")]).
Proof.
  unfold Client.getFileSizes.
  destruct (List.filter _ ids) as [|uncached others] eqn:Hfilter.
  - exists b. split; [reflexivity|by left].
  - destruct (fetchFileSizesFromR2_requests_once env (uncached :: others) b)
      as (newSizes & b1 & Hfetch & Hrequests).
    run. rewrite Hfetch. unfold Client.remember. cbn.
    eexists. split; [reflexivity|]. right. exact Hrequests.
Qed.

(** X18: asked for ids of which none is the name of a property of
    [Object.prototype], [getFileSizes] never throws and sends at most one
    request however many they are; its result has an entry for every id
    asked, which is the cached value or 0, never another falsy value. *)
Theorem getFileSizes_answers_every_id env ids b :
  forallb own_name ids = true →
  ∃ result b',
    Client.getFileSizes env ids b = (Return result, b')
    ∧ (Client.requests b' = Client.requests b
       ∨ Client.requests b'
         = Client.requests b ++ [("POST", "/rpc/bundle-sizes")])
    ∧ ∀ id, In id ids →
        ∃ v, assoc id result = Some v
             ∧ v = or (Client.cached b' id) (VNum 0)
             ∧ (v = VNum 0 ∨ truthy v = true).
Proof.
  intros _.
  destruct (getFileSizes_shape env ids b) as (b' & Hget & Hrequests).
  eexists _, b'. split; [exact Hget|]. split; [exact Hrequests|].
  intros id Hin. eexists. split; [|split; [reflexivity|]].
  - rewrite (assoc_foldl_set_prop
               (λ id, or (Client.cached b' id) (VNum 0))).
    by rewrite existsb_eqb_In.
  - unfold or. destruct (truthy (Client.cached b' id)) eqn:Ht; auto.
Qed.

Lemma getFileSizes_answers_every_id_witness :
  ∃ result b',
    Client.getFileSizes (Fixtures.online Fixtures.flat) ["b1"; "missing-id"]
      (Fixtures.browser Fixtures.store)
    = (Return result, b')
    ∧ (Client.requests b' = []
       ∨ Client.requests b' = [] ++ [("POST", "/rpc/bundle-sizes")])
    ∧ ∀ id, In id ["b1"; "missing-id"] →
        ∃ v, assoc id result = Some v
             ∧ v = or (Client.cached b' id) (VNum 0)
             ∧ (v = VNum 0 ∨ truthy v = true).
Proof.
  apply (getFileSizes_answers_every_id (Fixtures.online Fixtures.flat)
           ["b1"; "missing-id"] (Fixtures.browser Fixtures.store)).
  reflexivity.
Defined.

Lemma foldl_cached_truthy b ids : ∀ props,
  forallb (λ id, truthy (Client.cached b id)) ids = true →
  foldl (λ fileSizes id, set_prop id (or (Client.cached b id) (VNum 0))
           fileSizes) props ids
  = foldl (λ fileSizes id, set_prop id (Client.cached b id) fileSizes)
      props ids.
Proof.
  induction ids as [|id ids IH]; intros props Hall; [done|].
  cbn in Hall. apply andb_true_iff in Hall as [Hid Hall].
  change (foldl ?f props (id :: ids)) with (foldl f (f props id) ids).
  cbn beta. rewrite <- IH by done. unfold or at 2. by rewrite Hid.
Qed.

(** X19: when every id asked has a truthy size in the cache, [getFileSizes]
    sends nothing, leaves the browser as it is, and answers every id from
    the cache. *)
Theorem getFileSizes_all_cached env ids b :
  forallb (λ id, truthy (Client.cached b id)) ids = true →
  ∃ result,
    Client.getFileSizes env ids b = (Return result, b)
    ∧ ∀ id, In id ids → assoc id result = Some (Client.cached b id).
Proof.
  intros Hall. unfold Client.getFileSizes.
  assert (List.filter (λ id, negb (truthy (Client.cached b id))) ids = [])
    as ->.
  { clear -Hall. induction ids as [|id ids IH]; [done|].
    cbn in Hall |- *. apply andb_true_iff in Hall as [-> Hall]. cbn.
    by apply IH. }
  eexists. split; [reflexivity|]. intros id Hin.
  rewrite foldl_cached_truthy by done.
  rewrite (assoc_foldl_set_prop (Client.cached b)).
  by rewrite existsb_eqb_In.
Qed.

Lemma getFileSizes_all_cached_witness :
  let warm :=
    (Client.getFileSizes (Fixtures.online Fixtures.flat) ["b1"; "b2"]
       (Fixtures.browser Fixtures.store)).2 in
  ∃ result,
    Client.getFileSizes (Fixtures.online Fixtures.flat) ["b2"; "b1"] warm
    = (Return result, warm)
    ∧ ∀ id, In id ["b2"; "b1"] →
        assoc id result = Some (Client.cached warm id).
Proof.
  apply (getFileSizes_all_cached (Fixtures.online Fixtures.flat) ["b2"; "b1"]).
  vm_compute. reflexivity.
Defined.

(** *** A size once recorded *)

Lemma assoc_to_json_none props k :
  assoc k props = None → assoc k (own_props (to_json (VObj props))) = None.
Proof.
  induction props as [|[k' v] props IH]; [done|].
  cbn [assoc]. destruct (String.eqb k k') eqn:Hk; [done|]. intros Hassoc.
  specialize (IH Hassoc). cbn in IH |- *.
  destruct v; cbn; rewrite ?Hk; exact IH.
Qed.

(** The sizes [POST /bundle-sizes] collects are recorded under the ids it
    was asked about. *)
Lemma collect_sizes_keys objects bundleIds : ∀ fileSizes sizes k,
  collect_sizes objects (map VStr bundleIds) fileSizes = Return sizes →
  assoc k sizes ≠ None → assoc k fileSizes ≠ None ∨ In k bundleIds.
Proof.
  induction bundleIds as [|id ids IH]; intros fileSizes sizes k Hcollect Hk.
  - injection Hcollect as <-. by left.
  - cbn [map collect_sizes to_text] in Hcollect.
    destruct (size_of objects id) as [n | e]; [|done].
    destruct (IH _ _ k Hcollect Hk) as [Hrecorded | Hin]; [|right; by right].
    unfold record_size in Hrecorded.
    destruct (String.eqb id "__proto__"); [by left|].
    rewrite assoc_set_prop in Hrecorded.
    destruct (String.eqb_spec k id) as [-> | Hne]; [right; by left|by left].
Qed.

Lemma bundle_sizes_answer env bundleIds st :
  ∃ r st',
    bundle_sizes env
      (Return (to_json (VObj [("bundleIds", VArr (map VStr bundleIds))]))) st
    = (Return r, st')
    ∧ ((status r = 400%nat ∨ status r = 500%nat)
       ∨ ∃ sizes,
           r = c_json (VObj [("success", VBool true);
                             ("fileSizes", VObj sizes)]) 200
           ∧ ∀ k, assoc k sizes ≠ None → In k bundleIds).
Proof.
  assert (to_json (VObj [("bundleIds", VArr (map VStr bundleIds))])
          = VObj [("bundleIds", VArr (map VStr bundleIds))]) as ->
    by (cbn; by rewrite to_json_keys).
  unfold bundle_sizes, fetch. run.
  cbn -[c_json collect_sizes failure_response].
  destruct (r2_config_empty env); [eexists _, _; split; [reflexivity|]; auto|].
  destruct (cloudflare env _ _) as [response | e];
    [|eexists _, _; split; [reflexivity|]; auto].
  cbn -[c_json collect_sizes failure_response].
  destruct (ok response); cbn -[c_json collect_sizes failure_response];
    [|eexists _, _; split; [reflexivity|]; auto].
  destruct (json response) as [data | e];
    [|eexists _, _; split; [reflexivity|]; auto].
  destruct (get data "result") as [result | e];
    [|eexists _, _; split; [reflexivity|]; auto].
  destruct (Js.or result (VArr [])) as [| | | | |objects|];
    try (destruct bundleIds;
         cbn -[c_json collect_sizes failure_response];
         eexists _, _; (split; [reflexivity|]);
         [right; exists []; by split|auto]).
  destruct (collect_sizes objects (map VStr bundleIds) []) as [sizes | e]
    eqn:Hcollect; [|eexists _, _; split; [reflexivity|]; auto].
  eexists _, _. split; [reflexivity|]. right.
  exists sizes. split; [done|]. intros k Hk.
  by destruct (collect_sizes_keys _ _ _ _ k Hcollect Hk).
Qed.

(** [fetchFileSizesFromR2] leaves the cache alone and returns sizes for ids
    it was given only. *)
Lemma fetchFileSizesFromR2_keys env bundleIds b :
  ∃ newSizes b',
    Client.fetchFileSizesFromR2 env bundleIds b = (Return newSizes, b')
    ∧ Client.fileSizeCache b' = Client.fileSizeCache b
    ∧ ∀ k, assoc k (own_props newSizes) ≠ None → In k bundleIds.
Proof.
  unfold Client.fetchFileSizesFromR2, Client.request. run.
  cbn [Client.requests Client.backends Client.fileSizeCache].
  destruct (Client.network_fault env _ _); [by eexists _, _|].
  destruct (bundle_sizes_answer (Client.server env) bundleIds
              (Client.backends b)) as (r & st' & -> & Hanswer).
  destruct Hanswer as [[Hstatus | Hstatus] | (sizes & -> & Hkeys)].
  - unfold Client.of_response. rewrite Hstatus. by eexists _, _.
  - unfold Client.of_response. rewrite Hstatus. by eexists _, _.
  - unfold c_json, Client.of_response.
    cbn [status body Client.http_ok Client.http_json Nat.leb Nat.ltb andb
           negb].
    change (to_json (VObj [("success", VBool true);
                           ("fileSizes", VObj sizes)]))
      with (VObj [("success", VBool true);
                  ("fileSizes", to_json (VObj sizes))]).
    cbn -[to_json].
    eexists _, _. split; [reflexivity|]. split; [done|].
    intros k Hk. apply Hkeys. intros Hnone. apply Hk.
    by apply assoc_to_json_none.
Qed.

Lemma remember_other newSizes id b :
  assoc id (own_props newSizes) = None →
  Client.cached (Client.remember newSizes b).2 id = Client.cached b id.
Proof.
  unfold Client.remember, Client.cached. cbn [snd Client.fileSizeCache].
  generalize (own_props newSizes) (Client.fileSizeCache b).
  intros entries. induction entries as [|[k v] entries IH]; intros cache Hid;
    [done|].
  cbn [assoc] in Hid. destruct (String.eqb_spec id k) as [-> | Hne]; [done|].
  cbn [foldl]. rewrite IH by done. cbn [fst snd].
  by rewrite lookup_insert_ne.
Qed.

(** A call of [getFileSizes] leaves a truthy cached size as it is. *)
Lemma getFileSizes_keeps_cached env bundleIds id b :
  truthy (Client.cached b id) = true →
  Client.cached (Client.getFileSizes env bundleIds b).2 id
  = Client.cached b id.
Proof.
  intros Hcached. unfold Client.getFileSizes.
  destruct (List.filter _ bundleIds) as [|uncached others] eqn:Hfilter;
    [done|].
  destruct (fetchFileSizesFromR2_keys env (uncached :: others) b)
    as (newSizes & b1 & Hfetch & Hcache & Hkeys).
  run. rewrite Hfetch. cbn [snd].
  assert (assoc id (own_props newSizes) = None) as Hnone.
  { destruct (assoc id (own_props newSizes)) eqn:Hassoc; [|done].
    assert (In id (uncached :: others)) as Hin
      by (apply Hkeys; by rewrite Hassoc).
    rewrite <- Hfilter in Hin. apply List.filter_In in Hin as [_ Hfalsy].
    by rewrite Hcached in Hfalsy. }
  pose proof (remember_other newSizes id b1 Hnone) as Hkept.
  destruct (Client.remember newSizes b1) as [[u | e] b2] eqn:Hremember;
    cbn [snd] in *.
  - rewrite Hkept. unfold Client.cached. by rewrite Hcache.
  - unfold Client.remember in Hremember. done.
Qed.

Lemma after_calls_keeps_cached env calls id : ∀ b,
  truthy (Client.cached b id) = true →
  Client.cached (after_calls env calls b) id = Client.cached b id.
Proof.
  unfold after_calls.
  induction calls as [|bundleIds calls IH]; intros b Hcached; [done|].
  cbn [foldl]. rewrite IH.
  - by apply getFileSizes_keeps_cached.
  - by rewrite getFileSizes_keeps_cached.
Qed.

(** X20: a size that the cache holds as a truthy value, for an id that is
    not the name of a property of [Object.prototype], is never fetched
    again: whatever calls of [getFileSizes] follow, for whatever ids of
    that kind, the cache holds the same value for the id afterwards, and a
    call for that id alone then returns this value and leaves the browser,
    its list of requests included, as it was. *)
Theorem getFileSizes_keeps_a_nonzero_size env id calls b :
  own_name id = true →
  forallb (forallb own_name) calls = true →
  truthy (Client.cached b id) = true →
  let later := after_calls env calls b in
  Client.cached later id = Client.cached b id
  ∧ Client.getFileSizes env [id] later
    = (Return [(id, Client.cached b id)], later).
Proof.
  intros _ _ Hcached later.
  assert (Client.cached later id = Client.cached b id) as Hkept
    by (by apply after_calls_keeps_cached).
  split; [exact Hkept|]. rewrite <- Hkept.
  apply getFileSizes_cache_hit. by rewrite Hkept.
Qed.

Lemma getFileSizes_keeps_a_nonzero_size_witness :
  let env := Fixtures.online Fixtures.flat in
  let warm :=
    (Client.getFileSizes env ["b1"] (Fixtures.browser Fixtures.store)).2 in
  let later := after_calls env [["b2"; "b1"]; ["b3"; "missing-id"]] warm in
  Client.cached later "b1" = Client.cached warm "b1"
  ∧ Client.getFileSizes env ["b1"] later
    = (Return [("b1", Client.cached warm "b1")], later).
Proof.
  apply (getFileSizes_keeps_a_nonzero_size (Fixtures.online Fixtures.flat)
           "b1" [["b2"; "b1"]; ["b3"; "missing-id"]]).
  - reflexivity.
  - reflexivity.
  - vm_compute. reflexivity.
Defined.

(** *** The deletions the table asks for *)

(** A handler whose [catch] answers never throws. *)
Lemma try_catch_answers {S A} (m : Async S A) (f : Thrown → A) st :
  ∃ a st', try_catch m (λ error, mret (f error)) st = (Return a, st').
Proof.
  unfold try_catch. destruct (m st) as [[a | e] st']; by eexists _, _.
Qed.

(** On a network without faults, a request to a handler that answers is
    counted and comes back with the handler's response. *)
Lemma request_online env method path handler b :
  online env →
  (∀ st, ∃ r st', handler st = (Return r, st')) →
  ∃ r st',
    Client.request env method path handler b
    = (Return (Client.of_response r),
       {| Client.fileSizeCache := Client.fileSizeCache b;
          Client.requests := Client.requests b ++ [(method, path)];
          Client.backends := st' |}).
Proof.
  intros Honline Hanswers. unfold Client.request. rewrite Honline.
  cbn [Client.backends Client.requests Client.fileSizeCache].
  destruct (Hanswers (Client.backends b)) as (r & st' & ->).
  by eexists _, _.
Qed.

Lemma deleteD1Bundle_requests env bundleId b :
  online env →
  Client.requests (Client.deleteD1Bundle env bundleId b).2
  = Client.requests b ++ bundle_requests bundleId.
Proof.
  intros Honline. unfold Client.deleteD1Bundle.
  destruct (request_online env "POST"
              ("/rpc/bundles/" +:+ bundleId +:+ "/delete-d1")
              (delete_d1 (Client.server env) bundleId) b Honline)
    as (r1 & st1 & Hfirst); [intros st; apply try_catch_answers|].
  run. rewrite Hfirst. cbn [Client.of_response Client.http_json].
  match goal with
  | |- context [Client.request env "POST" ?p ?h ?b1] =>
      destruct (request_online env "POST" p h b1 Honline)
        as (r2 & st2 & Hsecond); [intros st; apply try_catch_answers|];
      rewrite Hsecond
  end.
  cbn [Client.of_response Client.http_json].
  destruct (get (body r1) "success") as [d1Success | e];
    [|by cbn; rewrite <- app_assoc].
  destruct (truthy d1Success);
    destruct (get (body r2) "success"); cbn; by rewrite <- app_assoc.
Qed.

(** X21: for a bundle id that reaches its routes (not empty; letters,
    digits, [-] and [_]), [deleteD1Bundle] never throws; the result it calls
    a success has a [d1Result] and an [r2Result] that both are one; and on a
    network without faults it has sent exactly two requests, the deletion of
    the row and then the deletion of the archive, whatever the first handler
    answered. *)
Theorem deleteD1Bundle_asks_both_backends env bundleId b :
  plain_id bundleId = true →
  ∃ result,
    (Client.deleteD1Bundle env bundleId b).1 = Return result
    ∧ (truthy (get_opt result "success") = true →
       truthy (get_opt (get_opt result "d1Result") "success") = true
       ∧ truthy (get_opt (get_opt result "r2Result") "success") = true)
    ∧ (online env →
       Client.requests (Client.deleteD1Bundle env bundleId b).2
       = Client.requests b ++ bundle_requests bundleId).
Proof.
  intros _.
  assert (∃ result,
            (Client.deleteD1Bundle env bundleId b).1 = Return result
            ∧ (truthy (get_opt result "success") = true →
               truthy (get_opt (get_opt result "d1Result") "success") = true
               ∧ truthy (get_opt (get_opt result "r2Result") "success")
                 = true)) as (result & Hresult & Hboth).
  { unfold Client.deleteD1Bundle. run.
    destruct (Client.request env "POST" _ (delete_d1 _ _) b)
      as [[d1Response | e] b1]; [|by eexists].
    destruct (Client.http_json d1Response) as [d1Result | e]; [|by eexists].
    destruct (Client.request env "POST" _ (r2_delete _ _) b1)
      as [[r2Response | e] b2]; [|by eexists].
    destruct (Client.http_json r2Response) as [r2Result | e]; [|by eexists].
    destruct (get d1Result "success") as [d1s | e] eqn:Hd1; [|by eexists].
    apply get_Return in Hd1.
    destruct (truthy d1s) eqn:Ht.
    - destruct (get r2Result "success") as [r2s | e] eqn:Hr2; [|by eexists].
      apply get_Return in Hr2.
      eexists. split; [reflexivity|]. cbn. rewrite Hd1, Hr2. by intros ->.
    - destruct (get r2Result "success") as [r2s | e]; [|by eexists].
      eexists. split; [reflexivity|]. cbn. by rewrite Ht. }
  exists result. split; [done|]. split; [done|].
  apply deleteD1Bundle_requests.
Qed.

Lemma deleteD1Bundle_asks_both_backends_witness :
  ∃ result,
    (Client.deleteD1Bundle (Fixtures.online Fixtures.d1_down) "b1"
       (Fixtures.browser Fixtures.store)).1 = Return result
    ∧ (truthy (get_opt result "success") = true →
       truthy (get_opt (get_opt result "d1Result") "success") = true
       ∧ truthy (get_opt (get_opt result "r2Result") "success") = true)
    ∧ (online (Fixtures.online Fixtures.d1_down) →
       Client.requests
         (Client.deleteD1Bundle (Fixtures.online Fixtures.d1_down) "b1"
            (Fixtures.browser Fixtures.store)).2
       = [] ++ bundle_requests "b1").
Proof.
  apply (deleteD1Bundle_asks_both_backends (Fixtures.online Fixtures.d1_down)
           "b1" (Fixtures.browser Fixtures.store)).
  reflexivity.
Defined.

Lemma bulk_loop_details env bundleIds : ∀ results o b,
  ∃ new o' b',
    Client.delete_each env bundleIds results o b
    = (Return (results ++ new, o'), b')
    ∧ map (λ entry, get_opt entry "bundleId") new = map VStr bundleIds
    ∧ (online env →
       Client.requests b'
       = Client.requests b ++ flat_map bundle_requests bundleIds).
Proof.
  induction bundleIds as [|bundleId rest IH]; intros results o b;
    cbn [Client.delete_each].
  - exists [], o, b. run. by rewrite !app_nil_r.
  - destruct (deleteD1Bundle_returns env bundleId b)
      as (result & b1 & Hone & _).
    destruct (IH (results ++ [Client.detail bundleId result])
                (Client.tally result o) b1)
      as (new & o' & b' & Hrest & Hdetails & Hrequests).
    exists (Client.detail bundleId result :: new), o', b'. run.
    rewrite Hone, Hrest. rewrite <- app_assoc.
    split; [reflexivity|]. split; [cbn; by rewrite Hdetails|].
    intros Honline. rewrite (Hrequests Honline).
    pose proof (deleteD1Bundle_requests env bundleId b Honline) as Hfirst.
    rewrite Hone in Hfirst. cbn [snd] in Hfirst. rewrite Hfirst.
    cbn [flat_map]. by rewrite <- app_assoc.
Qed.

(** X22: [bulkDeleteBundles] of no bundle fails without a request; of a
    list of bundles whose ids reach their routes (not empty; letters,
    digits, [-] and [_]) it never throws and its [details] hold one entry
    per bundle, in the order given; on a network without faults it has sent
    two requests for every bundle, one bundle after the other. *)
Theorem bulkDeleteBundles_details_follow_the_list env b :
  Client.bulkDeleteBundles env [] b
  = (Return (VObj [("success", VBool false);
                   ("error", VStr "Không có bundle nào được chọn để xóa")]),
     b)
  ∧ ∀ bundleId rest,
      forallb plain_id (bundleId :: rest) = true →
      ∃ flag message details b',
        Client.bulkDeleteBundles env (bundleId :: rest) b
        = (Return (VObj [("success", VBool flag);
                         ("message", VStr message);
                         ("details", VArr details)]), b')
        ∧ map (λ entry, get_opt entry "bundleId") details
          = map VStr (bundleId :: rest)
        ∧ (online env →
           Client.requests b'
           = Client.requests b
               ++ flat_map bundle_requests (bundleId :: rest)).
Proof.
  split; [reflexivity|]. intros bundleId rest _.
  destruct (bulk_loop_details env (bundleId :: rest) []
              {| Client.success := true; Client.d1Success := 0;
                 Client.r2Success := 0;
                 Client.total := Client.count_of (bundleId :: rest) |} b)
    as (details & overall & b' & Hloop & Hdetails & Hrequests).
  cbn [app] in Hloop.
  unfold Client.bulkDeleteBundles. run. rewrite Hloop.
  by eexists _, _, details, b'.
Qed.

Lemma bulkDeleteBundles_details_follow_the_list_witness :
  ∃ flag message details b',
    Client.bulkDeleteBundles (Fixtures.online Fixtures.flaky) ["b1"; "b2"]
      (Fixtures.browser Fixtures.store)
    = (Return (VObj [("success", VBool flag);
                     ("message", VStr message);
                     ("details", VArr details)]), b')
    ∧ map (λ entry, get_opt entry "bundleId") details
      = map VStr ["b1"; "b2"]
    ∧ (online (Fixtures.online Fixtures.flaky) →
       Client.requests b' = [] ++ flat_map bundle_requests ["b1"; "b2"]).
Proof.
  apply (proj2 (bulkDeleteBundles_details_follow_the_list
                  (Fixtures.online Fixtures.flaky)
                  (Fixtures.browser Fixtures.store)) "b1" ["b2"]).
  reflexivity.
Defined.

(** [bulkDeleteFromR2] of some keys never throws and sends one request. *)
Lemma bulkDeleteFromR2_requests_once env k rest b :
  ∃ result b',
    Api.bulkDeleteFromR2 env (k :: rest) b = (Return result, b')
    ∧ Client.requests b'
      = Client.requests b ++ [("DELETE", "/rpc/r2/objects")].
Proof.
  unfold Api.bulkDeleteFromR2, Client.request.
  generalize (delete_r2_objects (Client.server env)
                (Return (to_json (VArr (map VStr (k :: rest)))))).
  intros handler. run. cbn [Client.requests Client.backends].
  destruct (Client.network_fault env _ _); [by eexists _, _|].
  destruct (handler (Client.backends b)) as [[response | e] st]; cbn.
  - destruct (negb _); by eexists _, _.
  - by eexists _, _.
Qed.

(** X23: [bulkDeleteFromR2] of no key fails without a request. Of some keys,
    on a network without faults, it hands the bare array to the bulk object
    delete: with the storage configured every key is attempted on the
    server, in order, and the result counts all of them; without it the
    result is the failure built from the status text, and the backends have
    not been called. *)
Theorem bulkDeleteFromR2_reaches_every_key env k rest b :
  online env →
  let keys := k :: rest in
  Api.bulkDeleteFromR2 env [] b
  = (Return (VObj [("success", VBool false);
                   ("error", VStr "Danh sách keys trống")]), b)
  ∧ ∃ result b',
      Api.bulkDeleteFromR2 env keys b = (Return result, b')
      ∧ Client.requests b'
        = Client.requests b ++ [("DELETE", "/rpc/r2/objects")]
      ∧ if r2_config_missing (process_env (Client.server env)) then
          result
          = VObj [("success", VBool false);
                  ("error", VStr "Lỗi khi gọi API: Internal Server Error")]
          ∧ Client.backends b' = Client.backends b
        else
          ∃ results,
            get_opt result "results" = VArr results
            ∧ length results = length keys
            ∧ get_opt result "totalObjects" = VNum (Z.of_nat (length keys))
            ∧ get_opt result "deletedObjects" = VNum (tally_of results)
            ∧ trace (Client.backends b')
              = trace (Client.backends b)
                  ++ map (delete_call (Client.server env)) (map VStr keys).
Proof.
  intros Honline keys. split; [reflexivity|]. subst keys.
  unfold Api.bulkDeleteFromR2, Client.request. run. rewrite Honline.
  cbn [Client.requests Client.backends Client.fileSizeCache to_json].
  rewrite to_json_keys.
  destruct (r2_config_missing (process_env (Client.server env))) eqn:Hcfg.
  - unfold delete_r2_objects. run. cbn [map]. rewrite Hcfg. cbn.
    by eexists _, _.
  - destruct (delete_each_spec (Client.server env) (map VStr (k :: rest)) [] 0
                (Client.backends b)) as (new & st' & Hloop & Hlen & Htr).
    unfold delete_r2_objects. run. cbn [map] in *. rewrite Hcfg, Hloop. cbn.
    eexists _, _. split; [reflexivity|]. split; [done|].
    cbn [length] in Hlen. rewrite length_map in Hlen.
    exists (map to_json new). rewrite !length_map.
    repeat split; done.
Qed.

Lemma bulkDeleteFromR2_reaches_every_key_witness :
  ∃ result b',
    Api.bulkDeleteFromR2 (Fixtures.online Fixtures.flaky)
      ["b1/bundle.zip"; "b2/bundle.zip"] (Fixtures.browser Fixtures.store)
    = (Return result, b')
    ∧ Client.requests b'
      = Client.requests (Fixtures.browser Fixtures.store)
          ++ [("DELETE", "/rpc/r2/objects")]
    ∧ ∃ results,
        get_opt result "results" = VArr results
        ∧ length results = 2%nat
        ∧ get_opt result "totalObjects" = VNum 2
        ∧ get_opt result "deletedObjects" = VNum (tally_of results)
        ∧ trace (Client.backends b')
          = trace Fixtures.store
              ++ map (delete_call Fixtures.flaky)
                   [VStr "b1/bundle.zip"; VStr "b2/bundle.zip"].
Proof.
  destruct (bulkDeleteFromR2_reaches_every_key
              (Fixtures.online Fixtures.flaky) "b1/bundle.zip"
              ["b2/bundle.zip"] (Fixtures.browser Fixtures.store))
    as [_ Hsome]; [intros b path; reflexivity|].
  exact Hsome.
Defined.

(** [bulkDeleteBundles] of some bundles never throws; on a network without
    faults it has sent two requests for every bundle. *)
Lemma bulkDeleteBundles_returns env bundleId rest b :
  ∃ result b',
    Client.bulkDeleteBundles env (bundleId :: rest) b = (Return result, b')
    ∧ (online env →
       Client.requests b'
       = Client.requests b ++ flat_map bundle_requests (bundleId :: rest)).
Proof.
  destruct (bulk_loop_details env (bundleId :: rest) []
              {| Client.success := true; Client.d1Success := 0;
                 Client.r2Success := 0;
                 Client.total := Client.count_of (bundleId :: rest) |} b)
    as (details & overall & b' & Hloop & _ & Hrequests).
  unfold Client.bulkDeleteBundles. run. rewrite Hloop.
  by eexists _, b'.
Qed.

(** What the [try] of [handleBulkDelete] leaves of the table: one more
    toast, and the selection either emptied with a reload scheduled or
    untouched. *)
Lemma settle_or_report selected r1Result r2Result ui :
  let after :=
    match Table.settle selected r1Result r2Result ui with
    | Return ui' => ui'
    | Throw error => Table.report error ui
    end in
  length (Table.toasts after) = S (length (Table.toasts ui))
  ∧ Table.isDeleting after = Table.isDeleting ui
  ∧ ((Table.selectedRows after = [] ∧ Table.reload_scheduled after = true)
     ∨ (Table.selectedRows after = Table.selectedRows ui
        ∧ Table.reload_scheduled after = Table.reload_scheduled ui)).
Proof.
  unfold Table.settle, Table.report, Table.toast.
  destruct (Table.either r1Result r2Result "success") as [ok | [m | s]]; cbn;
    [|rewrite length_app; cbn; split; [lia|auto]..].
  destruct (truthy ok); cbn.
  - rewrite length_app. cbn. split; [lia|auto].
  - destruct (Table.either r1Result r2Result "error") as [e | [m | s]]; cbn;
      rewrite length_app; cbn; (split; [lia|auto]).
Qed.

(** X24: [handleBulkDelete] sends nothing when no row is selected or the
    question is answered no. Once confirmed, on a network without faults,
    it sends two requests for every selected bundle and then one bulk
    deletion of their archives, so that the archive of each bundle is asked
    for twice; it shows one toast, leaves [isDeleting] false, and either
    empties the selection and schedules the reload or leaves the selection
    as it was. *)
Theorem handleBulkDelete_sends_two_rounds env confirm ui b :
  online env →
  match Table.selectedRows ui with
  | [] => (Table.handleBulkDelete env confirm ui b).2 = b
  | first :: rest =>
      let selected := first :: rest in
      let after := Table.handleBulkDelete env confirm ui b in
      if confirm ("Bạn có chắc chắn muốn xóa " +:+ pretty (length selected)
                    +:+ " bundles đã chọn?")
      then
        Client.requests after.2
        = Client.requests b ++ flat_map bundle_requests selected
            ++ [("DELETE", "/rpc/r2/objects")]
        ∧ Table.isDeleting after.1 = false
        ∧ length (Table.toasts after.1) = S (length (Table.toasts ui))
        ∧ ((Table.selectedRows after.1 = []
            ∧ Table.reload_scheduled after.1 = true)
           ∨ (Table.selectedRows after.1 = selected
              ∧ Table.reload_scheduled after.1 = Table.reload_scheduled ui))
      else after = (ui, b)
  end.
Proof.
  intros Honline. unfold Table.handleBulkDelete.
  destruct (Table.selectedRows ui) as [|first rest] eqn:Hselected;
    [reflexivity|].
  cbn zeta. destruct (confirm _); cbn [negb]; [|reflexivity].
  unfold Table.delete_selected. run.
  destruct (bulkDeleteBundles_returns env first rest b)
    as (r1Result & b1 & Hfirst & Hrequests1).
  rewrite Hfirst. cbn [map].
  destruct (bulkDeleteFromR2_requests_once env (first +:+ "/bundle.zip")
              (map (λ id, id +:+ "/bundle.zip") rest) b1)
    as (r2Result & b2 & Hsecond & Hrequests2).
  rewrite Hsecond. cbn [fst snd].
  pose proof (settle_or_report (first :: rest) r1Result r2Result
                (Table.setIsDeleting true ui)) as Hsettle.
  cbn zeta in Hsettle. destruct Hsettle as (Htoasts & _ & Hselection).
  split; [by rewrite Hrequests2, (Hrequests1 Honline), <- app_assoc|].
  split; [done|]. split; [exact Htoasts|].
  cbn [Table.setIsDeleting Table.selectedRows Table.reload_scheduled]
    in Hselection |- *.
  by rewrite Hselected in Hselection.
Qed.

Lemma handleBulkDelete_sends_two_rounds_witness :
  online (Fixtures.online Fixtures.flaky)
  ∧ let after :=
      Table.handleBulkDelete (Fixtures.online Fixtures.flaky) (λ _, true)
        Scenarios.two_selected (Fixtures.browser Fixtures.store) in
    Client.requests after.2
    = flat_map bundle_requests ["b1"; "b2"] ++ [("DELETE", "/rpc/r2/objects")]
    ∧ Table.isDeleting after.1 = false
    ∧ length (Table.toasts after.1) = 1%nat
    ∧ ((Table.selectedRows after.1 = []
        ∧ Table.reload_scheduled after.1 = true)
       ∨ (Table.selectedRows after.1 = ["b1"; "b2"]
          ∧ Table.reload_scheduled after.1 = false)).
Proof.
  assert (Honline : online (Fixtures.online Fixtures.flaky))
    by (intros b path; reflexivity).
  split; [exact Honline|].
  exact (handleBulkDelete_sends_two_rounds (Fixtures.online Fixtures.flaky)
           (λ _, true) Scenarios.two_selected
           (Fixtures.browser Fixtures.store) Honline).
Defined.

(** *** The bulk delete of the table *)

(** For some keys, the [success] of what [bulkDeleteFromR2] returns says
    whether the bulk object deletion deleted at least one object. *)
Lemma bulkDeleteFromR2_flag env k rest b :
  ∃ props flag b',
    Api.bulkDeleteFromR2 env (k :: rest) b = (Return (VObj props), b')
    ∧ assoc "success" props = Some flag
    ∧ truthy flag = (0 <? deleted_objects (VObj props)).
Proof.
  unfold Api.bulkDeleteFromR2, Client.request. run.
  cbn [Client.requests Client.backends Client.fileSizeCache to_json].
  rewrite to_json_keys.
  destruct (Client.network_fault env _ _); [by eexists _, _, _|].
  destruct (r2_config_missing (process_env (Client.server env))) eqn:Hcfg.
  - unfold delete_r2_objects. run. cbn [map]. rewrite Hcfg. cbn.
    by eexists _, _, _.
  - destruct (delete_each_spec (Client.server env) (map VStr (k :: rest)) [] 0
                (Client.backends b)) as (new & st' & Hloop & _ & _).
    unfold delete_r2_objects. run. cbn [map] in *. rewrite Hcfg, Hloop. cbn.
    eexists _, _, _. split; [reflexivity|]. split; [reflexivity|].
    reflexivity.
Qed.

(** C3: the bulk delete of the table ([handleBulkDelete]: the loop of
    [bulkDeleteBundles] over the selected ids, then the one bulk object
    deletion of [bulkDeleteFromR2]) counts as a success, for every non-empty
    selection, exactly when the metadata count the loop ends with or the
    number of objects the bulk object deletion deleted is not zero: the test
    [r1Result.success || r2Result.success] is the lenient OR of the two
    counts, and it decides between the success toast with the selection
    emptied and the error toast. Where the metadata deletion succeeds for
    [b1], [b2] and [b3] and the storage deletion fails for [b2] only, the
    metadata count is 3 (as the message of the first result renders it),
    the second result reports 2 deleted objects of 3, and the bulk delete
    is a success. *)
Theorem bulk_delete_success_is_lenient_or :
  (∀ env confirm ui b first rest,
     let selected := first :: rest in
     Table.selectedRows ui = selected →
     confirm ("Bạn có chắc chắn muốn xóa " +:+ pretty (length selected)
                +:+ " bundles đã chọn?") = true →
     ∃ results overall b1 r1Result r2Result b2,
       Client.delete_each env selected [] (initial selected) b
       = (Return (results, overall), b1)
       ∧ Client.bulkDeleteBundles env selected b = (Return r1Result, b1)
       ∧ Api.bulkDeleteFromR2 env (map (λ id, id +:+ "/bundle.zip") selected)
           b1
         = (Return r2Result, b2)
       ∧ let lenient :=
           lenient_or (Client.d1Success overall) (deleted_objects r2Result) in
         (∃ flag,
            Table.either r1Result r2Result "success" = Return flag
            ∧ truthy flag = lenient)
         ∧ ∃ shown,
             Table.handleBulkDelete env confirm ui b
             = ({| Table.selectedRows := if lenient then [] else selected;
                   Table.isDeleting := false;
                   Table.toasts := Table.toasts ui ++ [shown];
                   Table.reload_scheduled :=
                     if lenient then true else Table.reload_scheduled ui |},
                b2)
             ∧ match shown with
               | Table.ToastSuccess _ => lenient = true
               | Table.ToastError _ => lenient = false
               end)
  ∧ (let env := Fixtures.online Fixtures.flaky in
     let b := Fixtures.browser Fixtures.store in
     ∃ results b1 r2Result b2,
       Client.delete_each env ["b1"; "b2"; "b3"] []
         (initial ["b1"; "b2"; "b3"]) b
       = (Return (results,
                  {| Client.success := false; Client.d1Success := 3;
                     Client.r2Success := 2; Client.total := 3 |}), b1)
       ∧ Client.bulkDeleteBundles env ["b1"; "b2"; "b3"] b
         = (Return (VObj [("success", VBool true);
                          ("message",
                           VStr "Đã xóa 3/3 bundles từ D1, Đã xóa 2/3 bundles từ R2");
                          ("details", VArr results)]), b1)
       ∧ Api.bulkDeleteFromR2 env
           ["b1/bundle.zip"; "b2/bundle.zip"; "b3/bundle.zip"] b1
         = (Return r2Result, b2)
       ∧ get_opt r2Result "success" = VBool true
       ∧ get_opt r2Result "deletedObjects" = VNum 2
       ∧ get_opt r2Result "totalObjects" = VNum 3
       ∧ Table.handleBulkDelete env (λ _, true) Scenarios.three_selected b
         = ({| Table.selectedRows := [];
               Table.isDeleting := false;
               Table.toasts :=
                 [Table.ToastSuccess "Đã xóa 3 bundles thành công"];
               Table.reload_scheduled := true |}, b2)).
Proof.
  split.
  - intros env confirm ui b first rest selected Hselected Hconfirm.
    subst selected.
    destruct (bulkDeleteBundles_flag env first rest b)
      as (results & overall & b1 & message & Hloop & Hfirst).
    destruct (bulkDeleteFromR2_flag env (first +:+ "/bundle.zip")
                (map (λ id, id +:+ "/bundle.zip") rest) b1)
      as (props & flag & b2 & Hsecond & Hflag & Hcount).
    eexists results, overall, b1, _, (VObj props), b2.
    split; [exact Hloop|]. split; [exact Hfirst|]. split; [exact Hsecond|].
    cbn zeta. unfold lenient_or. rewrite <- Hcount.
    assert (Table.either
              (VObj [("success", VBool (0 <? Client.d1Success overall));
                     ("message", VStr message); ("details", VArr results)])
              (VObj props) "success"
            = Return (if 0 <? Client.d1Success overall
                      then VBool true else flag)) as Heither.
    { unfold Table.either. cbn [get assoc String.eqb Ascii.eqb Bool.eqb
                                  default truthy].
      destruct (0 <? Client.d1Success overall); [done|]. by rewrite Hflag. }
    split.
    { eexists. split; [exact Heither|].
      by destruct (0 <? Client.d1Success overall). }
    unfold Table.handleBulkDelete. rewrite Hselected, Hconfirm. cbn [negb].
    unfold Table.delete_selected. run. rewrite Hfirst. cbn [map].
    rewrite Hsecond. cbn [fst snd].
    unfold Table.settle. rewrite Heither.
    destruct (0 <? Client.d1Success overall) eqn:Hd1;
      cbn [truthy orb Table.setIsDeleting Table.selectedRows Table.toasts
             Table.isDeleting Table.reload_scheduled].
    + eexists. split; [reflexivity|done].
    + destruct (truthy flag) eqn:Htruthy.
      * eexists. split; [reflexivity|done].
      * unfold Table.either. cbn [get assoc String.eqb Ascii.eqb Bool.eqb
                                   default truthy].
        unfold Table.toast, Table.setIsDeleting.
        cbn [Table.selectedRows Table.toasts Table.isDeleting
               Table.reload_scheduled].
        rewrite Hselected. eexists. split; [reflexivity|done].
  - cbn zeta. eexists _, _, _, _.
    split; [vm_compute; reflexivity|]. split; [vm_compute; reflexivity|].
    split; [vm_compute; reflexivity|]. by vm_compute.
Qed.

Lemma bulk_delete_success_is_lenient_or_witness :
  ∃ results overall b1 r1Result r2Result b2,
    Client.delete_each (Fixtures.online Fixtures.d1_down) ["b1"] []
      (initial ["b1"]) (Fixtures.browser Fixtures.store)
    = (Return (results, overall), b1)
    ∧ Client.bulkDeleteBundles (Fixtures.online Fixtures.d1_down) ["b1"]
        (Fixtures.browser Fixtures.store)
      = (Return r1Result, b1)
    ∧ Api.bulkDeleteFromR2 (Fixtures.online Fixtures.d1_down)
        ["b1/bundle.zip"] b1
      = (Return r2Result, b2)
    ∧ let lenient :=
        lenient_or (Client.d1Success overall) (deleted_objects r2Result) in
      (∃ flag,
         Table.either r1Result r2Result "success" = Return flag
         ∧ truthy flag = lenient)
      ∧ ∃ shown,
          Table.handleBulkDelete (Fixtures.online Fixtures.d1_down)
            (λ _, true) Scenarios.one_selected
            (Fixtures.browser Fixtures.store)
          = ({| Table.selectedRows := if lenient then [] else ["b1"];
                Table.isDeleting := false;
                Table.toasts := [] ++ [shown];
                Table.reload_scheduled := if lenient then true else false |},
             b2)
          ∧ match shown with
            | Table.ToastSuccess _ => lenient = true
            | Table.ToastError _ => lenient = false
            end.
Proof.
  apply (proj1 bulk_delete_success_is_lenient_or
           (Fixtures.online Fixtures.d1_down) (λ _, true)
           Scenarios.one_selected (Fixtures.browser Fixtures.store) "b1" []).
  - reflexivity.
  - reflexivity.
Defined.

(** The first [/] of [bucket/rest] is the one after a bucket name that has
    none. *)
Lemma prefix_empty s : String.prefix "" s = true.
Proof. by destruct s. Qed.

Lemma index_after_bucket bucketName rest :
  String.index 0 "/" bucketName = None →
  String.index 0 "/" (bucketName +:+ "/" +:+ rest)
  = Some (String.length bucketName).
Proof.
  induction bucketName as [|c bucketName IH]; intros Hnone.
  - change ("" +:+ "/" +:+ rest) with (String (Ascii.ascii_of_nat 47) rest).
    cbn [String.index String.prefix].
    destruct (Ascii.ascii_dec _ _); [|done].
    by rewrite prefix_empty.
  - change (String c bucketName +:+ "/" +:+ rest)
      with (String c (bucketName +:+ "/" +:+ rest)).
    cbn [String.index String.prefix] in Hnone |- *.
    destruct (Ascii.ascii_dec _ c).
    + rewrite prefix_empty in Hnone. discriminate.
    + destruct (String.index 0 "/" bucketName) eqn:Hrest; [discriminate|].
      by rewrite IH.
Qed.

Lemma substring_whole s : String.substring 0 (String.length s) s = s.
Proof. induction s as [|c s IH]; [done|]. cbn. by rewrite IH. Qed.

Lemma substring_after_bucket bucketName rest :
  let target := bucketName +:+ "/" +:+ rest in
  String.substring (S (String.length bucketName))
    (String.length target - S (String.length bucketName)) target
  = rest.
Proof.
  induction bucketName as [|c bucketName IH]; cbn zeta.
  - change ("" +:+ "/" +:+ rest) with (String (Ascii.ascii_of_nat 47) rest).
    cbn [String.length String.substring Nat.sub].
    rewrite Nat.sub_0_r. apply substring_whole.
  - change (String c bucketName +:+ "/" +:+ rest)
      with (String c (bucketName +:+ "/" +:+ rest)).
    cbn [String.length String.substring Nat.sub]. exact IH.
Qed.

Lemma key_under_is_not_the_id bundleId filename :
  bundleId +:+ "/" +:+ filename ≠ bundleId.
Proof.
  induction bundleId as [|c bundleId IH]; [done|].
  change (String c bundleId +:+ "/" +:+ filename)
    with (String c (bundleId +:+ "/" +:+ filename)).
  intros Heq. by injection Heq.
Qed.

(** What [uploadBundle] does over the bucket. *)
Lemma uploadBundle_over_bucket bucketName basename getType sizeOf bundleId
    bundlePath st :
  String.index 0 "/" bucketName = None →
  let k := bundleId +:+ "/" +:+ basename bundlePath in
  R2Upload.uploadBundle bucketName basename getType
    (R2Upload.bucket_put sizeOf) None bundleId bundlePath st
  = (Return (bucketName, k),
     {| rows := rows st; staged := staged st;
        bucket := remove_key k (bucket st)
                    ++ [{| key := k; size := sizeOf bundlePath |}];
        trace := trace st
                   ++ [CallWrangler
                         (R2Upload.put_command bucketName (getType bundlePath)
                            k bundlePath)] |}).
Proof.
  intros Hbucket. cbn zeta.
  unfold R2Upload.uploadBundle, R2Upload.bucket_put, R2Upload.put_command.
  cbn [app].
  rewrite (index_after_bucket _ _ Hbucket), substring_after_bucket.
  reflexivity.
Qed.

(** X25: over a command runner that stores and deletes one object by its
    exact key, and with a bucket name without [/], [uploadBundle] stores the
    archive under [bundleId/filename] and returns that key, while
    [deleteBundle] of the same bundle asks for the object [bundleId]: it
    returns the bundle id as a success and the archive uploaded is still in
    the bucket. *)
Theorem deleteBundle_leaves_the_uploaded_archive bucketName basename getType
    sizeOf bundleId bundlePath st :
  String.index 0 "/" bucketName = None →
  let k := bundleId +:+ "/" +:+ basename bundlePath in
  let uploaded :=
    R2Upload.uploadBundle bucketName basename getType
      (R2Upload.bucket_put sizeOf) None bundleId bundlePath st in
  let deleted :=
    R2Storage.deleteBundle bucketName R2Storage.bucket_wrangler bundleId
      uploaded.2 in
  uploaded.1 = Return (bucketName, k)
  ∧ {| key := k; size := sizeOf bundlePath |} ∈ bucket uploaded.2
  ∧ deleted.1 = Return bundleId
  ∧ {| key := k; size := sizeOf bundlePath |} ∈ bucket deleted.2.
Proof.
  intros Hbucket. cbn zeta.
  rewrite (uploadBundle_over_bucket _ _ _ _ _ _ _ Hbucket). cbn [fst snd].
  split; [done|].
  assert (Hthere : ∀ objs,
            {| key := bundleId +:+ "/" +:+ basename bundlePath;
               size := sizeOf bundlePath |}
            ∈ objs ++ [{| key := bundleId +:+ "/" +:+ basename bundlePath;
                          size := sizeOf bundlePath |}]).
  { intros objs. apply elem_of_app. right. apply list_elem_of_singleton.
    reflexivity. }
  split; [cbn; apply Hthere|].
  unfold R2Storage.deleteBundle, R2Storage.bucket_wrangler. run.
  cbn [app].
  rewrite (index_after_bucket _ _ Hbucket), substring_after_bucket.
  cbn [bucket log].
  destruct (existsb _ _); cbn.
  - split; [done|].
    unfold remove_key at 1. apply list_elem_of_filter. split.
    + cbn. apply key_under_is_not_the_id.
    + apply Hthere.
  - split; [done|]. apply Hthere.
Qed.

Lemma deleteBundle_leaves_the_uploaded_archive_witness :
  let uploaded :=
    R2Upload.uploadBundle "bundles" (λ _, "bundle.zip") (λ _, None)
      (R2Upload.bucket_put (λ _, 10)) None "b9" "/tmp/out/bundle.zip"
      Fixtures.store in
  let deleted :=
    R2Storage.deleteBundle "bundles" R2Storage.bucket_wrangler "b9"
      uploaded.2 in
  uploaded.1 = Return ("bundles", "b9/bundle.zip")
  ∧ {| key := "b9/bundle.zip"; size := 10 |} ∈ bucket uploaded.2
  ∧ deleted.1 = Return "b9"
  ∧ {| key := "b9/bundle.zip"; size := 10 |} ∈ bucket deleted.2.
Proof.
  exact (deleteBundle_leaves_the_uploaded_archive "bundles"
           (λ _, "bundle.zip") (λ _, None) (λ _, 10) "b9"
           "/tmp/out/bundle.zip" Fixtures.store eq_refl).
Defined.

(** *** The shortened id *)

Lemma length_append a b :
  String.length (a +:+ b) = (String.length a + String.length b)%nat.
Proof.
  induction a as [|c a IH]; [done|].
  change (String c a +:+ b) with (String c (a +:+ b)). cbn. by rewrite IH.
Qed.

Lemma length_substring s : ∀ n m,
  (n + m ≤ String.length s)%nat → String.length (String.substring n m s) = m.
Proof.
  induction s as [|c s IH]; intros n m Hle; cbn in Hle.
  - assert (n = 0%nat) as -> by lia. assert (m = 0%nat) as -> by lia. done.
  - destruct n as [|n]; cbn.
    + destruct m as [|m]; [done|]. cbn. rewrite IH; [done|lia].
    + apply IH. lia.
Qed.

Lemma substring_append_left p r :
  String.substring 0 (String.length p) (p +:+ r) = p.
Proof.
  induction p as [|c p IH]; [by destruct r|].
  change (String c p +:+ r) with (String c (p +:+ r)). cbn. by rewrite IH.
Qed.

Lemma substring_append_right p r n m :
  String.substring (String.length p + n) m (p +:+ r) = String.substring n m r.
Proof.
  induction p as [|c p IH]; [done|].
  change (String c p +:+ r) with (String c (p +:+ r)). cbn. exact IH.
Qed.

(** X26: the shortened id of the [Bundle ID] cell has fifteen characters when
    the id has more than twelve and is the id itself otherwise; it begins
    with the first eight characters of a longer id, and shortening it again
    changes nothing. *)
Theorem truncatedId_is_stable bundleId :
  let shown := Columns.truncatedId bundleId in
  String.length shown
  = (if Nat.ltb 12 (String.length bundleId) then 15%nat
     else String.length bundleId)
  ∧ (if Nat.ltb 12 (String.length bundleId)
     then String.substring 0 8 shown = String.substring 0 8 bundleId
     else shown = bundleId)
  ∧ Columns.truncatedId shown = shown.
Proof.
  cbn zeta.
  destruct (Nat.ltb 12 (String.length bundleId)) eqn:Hlong.
  - assert (Hshown : Columns.truncatedId bundleId
                     = String.substring 0 8 bundleId +:+ "..."
                         +:+ String.substring (String.length bundleId - 4) 4
                               bundleId)
      by (unfold Columns.truncatedId; by rewrite Hlong).
    rewrite Hshown. clear Hshown.
    apply Nat.ltb_lt in Hlong.
    set (p := String.substring 0 8 bundleId).
    set (q := String.substring (String.length bundleId - 4) 4 bundleId).
    assert (Hp : String.length p = 8%nat) by (apply length_substring; lia).
    assert (Hq : String.length q = 4%nat) by (apply length_substring; lia).
    assert (Hlen : String.length (p +:+ "..." +:+ q) = 15%nat).
    { rewrite !length_append, Hp, Hq. reflexivity. }
    split; [exact Hlen|].
    split; [by rewrite <- Hp at 1; rewrite substring_append_left|].
    unfold Columns.truncatedId. rewrite Hlen. cbn [Nat.ltb Nat.leb Nat.sub].
    rewrite <- Hp at 1. rewrite substring_append_left.
    change 11%nat with (8 + 3)%nat. rewrite <- Hp.
    rewrite substring_append_right.
    change ("..." +:+ q)
      with (String (Ascii.ascii_of_nat 46)
              (String (Ascii.ascii_of_nat 46)
                 (String (Ascii.ascii_of_nat 46) q))).
    cbn [String.substring]. rewrite <- Hq at 1.
    by rewrite substring_whole.
  - assert (Hshown : Columns.truncatedId bundleId = bundleId)
      by (unfold Columns.truncatedId; by rewrite Hlong).
    by rewrite !Hshown.
Qed.
